(** * THE ORACLO: the collection and processing pipeline

    A shallow embedding of [news_collector/collectors.py] and
    [data_processor/processors.py], followed by the properties of the
    collectors (run records, partial failures, API response parsing, article
    limits) and of the processors (rule engine, analyzers, quality score).

    Conventions of the embedding:
    - a Python [str] is the list of its code points ([Py.str]); literals are
      written [u "..."], the UTF-8 decoding of the literal of the source;
    - a dynamically typed value (a JSON document, a feed entry, a rule's
      parameters) is a [Py.pyval];
    - a Python [float] is an exact rational ([Q]), and what is proved of a
      float is limited to what its rounded value satisfies too; an [int] is
      a [Z] or, for a length or a count, a [nat];
    - code that can raise returns a [Py.Res]; code that also writes to the
      logger or to the database is a state transformer [M] over a [World];
    - what the source takes from outside the repository (bs4, urllib, re,
      feedparser, the analyzer packages, [str.lower], ...) is a field of the
      classes [Externals] and [Backends]; nothing is assumed about these
      fields;
    - the database is reached from coroutines only: the outcome of the check
      Django makes before such a call, and of each statement sent, is a
      field of the class [Orm]; [atomic] is a transaction, with its
      rollback;
    - the three [collect] methods call [self.save_articles], which no
      collector class defines; the attribute is a field of the collector
      object, empty in the objects the constructors build, and the properties
      of a run are stated for the object as built and for the object with the
      module's [save_articles] bound to it. *)

From Stdlib Require Import List String Ascii Bool Arith ZArith NArith QArith Qabs Lia Lqa.
From Stdlib Require Import Permutation Sorted.
Import ListNotations.
Set Warnings "-register-all".
Close Scope Q_scope.

(** ** Python values *)

Module Py.

Definition str := list N.

(** UTF-8 decoding of a literal: [pending] continuation bytes are still
    expected for the code point accumulated in [acc]. *)
Fixpoint utf8 (pending : nat) (acc : N) (bytes : list N) : str :=
  match bytes with
  | [] => []
  | b :: rest =>
      match pending with
      | O =>
          if (b <? 128)%N then b :: utf8 0 0%N rest
          else if (b <? 224)%N then utf8 1 (b - 192)%N rest
          else if (b <? 240)%N then utf8 2 (b - 224)%N rest
          else utf8 3 (b - 240)%N rest
      | S O => (acc * 64 + (b - 128))%N :: utf8 0 0%N rest
      | S p => utf8 p (acc * 64 + (b - 128))%N rest
      end
  end.

Definition u (s : string) : str :=
  utf8 0 0%N (map N_of_ascii (list_ascii_of_string s)).

Fixpoint str_eqb (a b : str) : bool :=
  match a, b with
  | [], [] => true
  | x :: a', y :: b' => (x =? y)%N && str_eqb a' b'
  | _, _ => false
  end.

(** [s.startswith(p)] *)
Fixpoint startswith (s p : str) {struct p} : bool :=
  match p, s with
  | [], _ => true
  | _ :: _, [] => false
  | x :: p', y :: s' => (x =? y)%N && startswith s' p'
  end.

(** [sub in s] on strings: [sub] occurs as a contiguous run of [s]. *)
Fixpoint contains (sub s : str) : bool :=
  startswith s sub ||
  match s with
  | [] => false
  | _ :: s' => contains sub s'
  end.

(** [any(k in s for k in keywords)] *)
Definition any_in (keywords : list str) (s : str) : bool :=
  existsb (fun k => contains k s) keywords.

(** [c in chars] for a single character. *)
Definition char_in (c : N) (chars : str) : bool :=
  existsb (N.eqb c) chars.

(** The characters [str.isspace] accepts; [str.split()], [str.strip()] and the
    pattern [\s] use the same set. *)
Definition is_space (c : N) : bool :=
  ((9 <=? c) && (c <=? 13) || (28 <=? c) && (c <=? 32) ||
   (c =? 133) || (c =? 160) || (c =? 5760) ||
   (8192 <=? c) && (c <=? 8202) || (c =? 8232) || (c =? 8233) ||
   (c =? 8239) || (c =? 8287) || (c =? 12288))%N.

(** The pieces of [t] between maximal runs of delimiters, empty pieces at
    both ends included: [re.split(r'[d]+', t)]. [cur] is the piece being
    read, reversed; [in_run] says the previous character was a delimiter. *)
Fixpoint split_runs (d : N -> bool) (cur : str) (in_run : bool) (t : str)
  : list str :=
  match t with
  | [] => [rev cur]
  | c :: t' =>
      if d c then
        if in_run then split_runs d [] true t'
        else rev cur :: split_runs d [] true t'
      else split_runs d (c :: cur) false t'
  end.

Definition re_split (d : N -> bool) (t : str) : list str :=
  split_runs d [] false t.

Definition nonempty (s : str) : bool :=
  match s with [] => false | _ => true end.

(** [t.split()] *)
Definition split (t : str) : list str :=
  filter nonempty (re_split is_space t).

Fixpoint join (sep : str) (l : list str) : str :=
  match l with
  | [] => []
  | [x] => x
  | x :: l' => x ++ sep ++ join sep l'
  end.

(** [re.sub(r'\s+', ' ', t)] *)
Definition collapse_spaces (t : str) : str :=
  join [32%N] (re_split is_space t).

Fixpoint lstrip (t : str) : str :=
  match t with
  | c :: t' => if is_space c then lstrip t' else t
  | [] => []
  end.

(** [t.strip()] *)
Definition strip (t : str) : str := rev (lstrip (rev (lstrip t))).

(** [t.find(sub)]; [-1] when [sub] does not occur. *)
Fixpoint find_from (i : Z) (sub t : str) : Z :=
  if startswith t sub then i
  else match t with
       | [] => (-1)%Z
       | _ :: t' => find_from (i + 1)%Z sub t'
       end.

Definition find (t sub : str) : Z := find_from 0%Z sub t.

(** [l[:n]] with Python's reading of a negative bound. *)
Definition slice_to {A : Type} (l : list A) (n : Z) : list A :=
  if (0 <=? n)%Z then firstn (Z.to_nat n) l
  else firstn (List.length l - Z.to_nat (- n)) l.

(** A dynamically typed value: what [json()] returns, a feed entry, the
    contents of a [JSONField]. A dict keeps its items in insertion order;
    a lookup takes the first binding of the key. *)
Inductive pyval : Type :=
| VNone
| VBool (b : bool)
| VInt (z : Z)
| VFloat (q : Q)
| VStr (s : str)
| VList (l : list pyval)
| VDict (d : list (str * pyval)).

(** [bool(v)] *)
Definition truthy (v : pyval) : bool :=
  match v with
  | VNone => false
  | VBool b => b
  | VInt z => negb (z =? 0)%Z
  | VFloat q => negb (Qeq_bool q 0)
  | VStr s => nonempty s
  | VList l => match l with [] => false | _ => true end
  | VDict d => match d with [] => false | _ => true end
  end.


Fixpoint lookup (k : str) (d : list (str * pyval)) : option pyval :=
  match d with
  | [] => None
  | (k', v) :: d' => if str_eqb k k' then Some v else lookup k d'
  end.

(** Exceptions, all below [Exception]: the class that [except] clauses
    test, and [str(e)]. *)
Inductive exn_class : Type :=
| AttributeError | TypeError | ValueError | KeyError | IndexError
| ImportError | ZeroDivisionError | ClientError | OtherException
| SynchronousOnlyOperation | TransactionManagementError.

Record exn : Type := Exn { exn_kind : exn_class; exn_str : str }.

Definition is_class (c : exn_class) (e : exn) : bool :=
  match c, exn_kind e with
  | AttributeError, AttributeError | TypeError, TypeError
  | ValueError, ValueError | KeyError, KeyError | IndexError, IndexError
  | ImportError, ImportError | ZeroDivisionError, ZeroDivisionError
  | ClientError, ClientError | OtherException, OtherException
  | SynchronousOnlyOperation, SynchronousOnlyOperation
  | TransactionManagementError, TransactionManagementError => true
  | _, _ => false
  end.

(** The outcome of an expression: a value, or an exception on its way up. *)
Inductive Res (A : Type) : Type :=
| Ok (a : A)
| Raise (e : exn).

Arguments Ok {A} a.
Arguments Raise {A} e.

Definition rbind {A B : Type} (r : Res A) (k : A -> Res B) : Res B :=
  match r with
  | Ok a => k a
  | Raise e => Raise e
  end.

(** An exception the embedding itself raises; the text of its message is
    not modelled. *)
Definition raise_of {A : Type} (c : exn_class) : Res A := Raise (Exn c []).

(** [d.get(k, default)]: a method of dicts only. *)
Definition get (d : pyval) (k : str) (default : pyval) : Res pyval :=
  match d with
  | VDict items =>
      Ok (match lookup k items with Some v => v | None => default end)
  | _ => raise_of AttributeError
  end.

(** [k in v] for a string [k]. *)
Definition has (k : str) (v : pyval) : Res bool :=
  match v with
  | VDict items => Ok (match lookup k items with Some _ => true | None => false end)
  | VList l =>
      Ok (existsb (fun x => match x with VStr s => str_eqb k s | _ => false end) l)
  | VStr s => Ok (contains k s)
  | _ => raise_of TypeError
  end.

(** [v[k]] for a string [k]. *)
Definition getitem (v : pyval) (k : str) : Res pyval :=
  match v with
  | VDict items =>
      match lookup k items with Some x => Ok x | None => raise_of KeyError end
  | _ => raise_of TypeError
  end.

(** [for x in v]: the items the loop visits. *)
Definition iter (v : pyval) : Res (list pyval) :=
  match v with
  | VList l => Ok l
  | VDict items => Ok (map (fun kv => VStr (fst kv)) items)
  | VStr s => Ok (map (fun c => VStr [c]) s)
  | _ => raise_of TypeError
  end.

(** Python's true division: [ZeroDivisionError] on a zero divisor. *)
Definition div (a b : Q) : Res Q :=
  if Qeq_bool b 0 then raise_of ZeroDivisionError else Ok (a / b)%Q.

End Py.

Export Py.

Declare Scope res_scope.
Delimit Scope res_scope with res.
Notation "x <~ c ;; k" := (rbind c (fun x => k))
  (at level 61, c at next level, right associativity) : res_scope.

(** ** The world: logger and database tables *)

Inductive Status : Type := success | error | partial.

(** A row of [CollectionLog] ([source] is the collector's own source and
    [completed_at] the time of the call; neither is modelled). *)
Record CollectionLog : Type := {
  log_status : Status;
  articles_collected : Z;
  log_errors : list str
}.

(** What the module's [logger] receives, one constructor per call site. *)
Inductive logged : Type :=
| HttpStatusError (status : Z)
| CollectFailed (e : exn)
| ArticleDataFailed (e : exn)
| RssCollectFailed (e : exn)
| RssFeedFailed (e : exn)
| RssEntryFailed (e : exn)
| ApiEndpointMissing
| ApiNotAList
| ApiItemFailed (e : exn)
| DateWarning (e : exn)
| SaveFailed (e : exn)
| RuleFailed (rule_name : str) (e : exn)
| SentimentFailed (e : exn)
| EntitiesFailed (e : exn)
| KeywordsFailed (e : exn)
| BackendUnavailable (package : str)
| ProcessArticleFailed (e : exn).

(** A raw article candidate: the dict the collectors build. *)
Record Candidate : Type := {
  title : str;
  url : pyval;
  content : str;
  author : str;
  published_date : option Z
}.

Record World : Type := {
  collection_logs : list CollectionLog;   (* oldest first *)
  logger : list logged;                   (* oldest first *)
  articles : list Candidate;              (* the Article table *)
  feeds_saved : list str;                 (* feeds whose last_updated was set *)
  needs_rollback : bool                   (* the connection's flag of that name *)
}.

Definition empty_world : World :=
  {| collection_logs := []; logger := []; articles := []; feeds_saved := [];
     needs_rollback := false |}.

Definition M (A : Type) : Type := World -> Res A * World.

Definition ret {A : Type} (a : A) : M A := fun w => (Ok a, w).

Definition bind {A B : Type} (c : M A) (k : A -> M B) : M B :=
  fun w =>
    match c w with
    | (Ok a, w') => k a w'
    | (Raise e, w') => (Raise e, w')
    end.

Definition lift {A : Type} (r : Res A) : M A := fun w => (r, w).

(** [try: c  except Exception as e: h e] *)
Definition try_except {A : Type} (c : M A) (h : exn -> M A) : M A :=
  fun w =>
    match c w with
    | (Ok a, w') => (Ok a, w')
    | (Raise e, w') => h e w'
    end.

(** The world after one more call of the logger, and after one more row of
    [CollectionLog]. *)
Definition with_logged (w : World) (l : logged) : World :=
  {| collection_logs := collection_logs w;
     logger := logger w ++ [l];
     articles := articles w;
     feeds_saved := feeds_saved w;
     needs_rollback := needs_rollback w |}.

Definition with_record (w : World) (r : CollectionLog) : World :=
  {| collection_logs := collection_logs w ++ [r];
     logger := logger w;
     articles := articles w;
     feeds_saved := feeds_saved w;
     needs_rollback := needs_rollback w |}.

Definition log (l : logged) : M unit :=
  fun w => (Ok tt, with_logged w l).

Declare Scope m_scope.
Delimit Scope m_scope with m.
Notation "x <- c ;; k" := (bind c (fun x => k))
  (at level 61, c at next level, right associativity) : m_scope.
Notation "c ;;; k" := (bind c (fun _ => k))
  (at level 61, right associativity) : m_scope.

(** [for x in l: y = f(x); if y: acc.append(y)], in each monad. *)
Fixpoint rfilter_map {A B : Type} (f : A -> Res (option B)) (l : list A)
  : Res (list B) :=
  match l with
  | [] => Ok []
  | x :: l' =>
      (y <~ f x ;;
       ys <~ rfilter_map f l' ;;
       Ok (match y with Some b => b :: ys | None => ys end))%res
  end.

Fixpoint mfilter_map {A B : Type} (f : A -> M (option B)) (l : list A)
  : M (list B) :=
  match l with
  | [] => ret []
  | x :: l' =>
      (y <- f x ;;
       ys <- mfilter_map f l' ;;
       ret (match y with Some b => b :: ys | None => ys end))%m
  end.

(** ** The parsed page *)

Inductive node : Type :=
| Elem (tag : str) (attrs : list (str * str)) (children : list node)
| Text (s : str).

Fixpoint descendants (n : node) : list node :=
  match n with
  | Text _ => []
  | Elem _ _ cs => flat_map (fun c => c :: descendants c) cs
  end.

(** [n.get_text()] *)
Fixpoint get_text (n : node) : str :=
  match n with
  | Text s => s
  | Elem _ _ cs => flat_map get_text cs
  end.

Fixpoint attr_lookup (k : str) (attrs : list (str * str)) : option str :=
  match attrs with
  | [] => None
  | (k', v) :: rest => if str_eqb k k' then Some v else attr_lookup k rest
  end.

(** [n.get(k)] *)
Definition node_get (n : node) (k : str) : option str :=
  match n with
  | Elem _ attrs _ => attr_lookup k attrs
  | Text _ => None
  end.

Definition has_tag (tags : list str) (n : node) : bool :=
  match n with
  | Elem t _ _ => existsb (str_eqb t) tags
  | Text _ => false
  end.

Definition is_link (n : node) : bool :=
  has_tag [u "a"] n &&
  match node_get n (u "href") with Some _ => true | None => false end.

(** [n.find_all('a', href=True)] *)
Definition find_all_links (n : node) : list node :=
  filter is_link (descendants n).

(** [n.find(tags)] and [n.find('a', href=True)] *)
Definition find_tag (tags : list str) (n : node) : option node :=
  List.find (has_tag tags) (descendants n).

Definition find_link (n : node) : option node :=
  List.find is_link (descendants n).

(** ** What the source takes from outside the repository *)

(** The response object of [aiohttp]: its status and the outcome of reading
    its body as text or as JSON. *)
Record Response : Type := {
  resp_status : Z;
  resp_text : Res str;
  resp_json : Res pyval
}.

Class Externals : Type := {
  (** [s.lower()] *)
  lower : str -> str;
  (** [c.isupper()] for one character *)
  isupper : N -> bool;
  (** [str(v)] *)
  str_of : pyval -> str;
  (** [BeautifulSoup(markup, 'html.parser')] *)
  BeautifulSoup : pyval -> Res node;
  (** [n.select(selector)] and [n.select_one(selector)] *)
  select : node -> str -> Res (list node);
  select_one : node -> str -> Res (option node);
  (** [soup.find_all(['article', 'div'], class_=re.compile(r'article|post|news'))] *)
  find_article_blocks : node -> list node;
  (** [urljoin(base, href)] *)
  urljoin : str -> str -> Res str;
  (** [datetime.strptime(s, fmt)] *)
  strptime : str -> str -> Res Z;
  (** [feedparser.parse(feed_url).entries] *)
  feed_entries : str -> Res (list pyval);
  (** [datetime.fromtimestamp(time.mktime(t), tz=timezone.utc)]. The name
      [timezone] is [django.utils.timezone] here (the import of line 15
      replaces that of line 6), which has no [utc] from Django 5.0 on: there
      the expression raises [AttributeError] for every time that [mktime]
      takes. *)
  entry_datetime : pyval -> Res Z;
  (** [re.search(pattern, s)] is a match, for a pattern literal of the source *)
  re_search : str -> str -> bool;
  (** [re.sub(pattern, repl, s)] with and without [re.IGNORECASE] *)
  re_sub : bool -> pyval -> pyval -> str -> Res str;
  (** [re.escape(word)] *)
  re_escape : pyval -> Res str;
  (** whether the database holds an article with this [url] *)
  url_eqb : pyval -> pyval -> bool
}.

(** ** news_collector/collectors.py *)

Record RSSFeed : Type := { feed_url : str; is_active : bool }.

Record ScrapingConfig : Type := {
  title_selector : str;
  content_selector : str;
  author_selector : str;
  date_selector : str;
  date_format : str;
  api_endpoint : str;
  api_key : str;
  api_headers : pyval
}.

(** A [NewsSource] instance. [config_cached] says that the instance holds
    its related [ScrapingConfig] (or the fact that there is none) already,
    from [select_related] or an earlier access; otherwise reading
    [source.scraping_config] queries the database. *)
Record NewsSource : Type := {
  name : str;
  source_url : str;
  source_type : str;
  max_articles : Z;                          (* an IntegerField *)
  scraping_config : option ScrapingConfig;   (* the reverse one-to-one, if any *)
  config_cached : bool;
  source_rss_feeds : list RSSFeed
}.

(** ** The database

    Every call of the ORM in the two modules is a synchronous call made from
    a coroutine: [collect], [save_articles] and [collect_from_source] are
    [async def], and so are [process_article] and [_save_analysis_results].
    Before it touches the connection Django checks for a running event loop
    and raises [SynchronousOnlyOperation] when there is one, unless
    [DJANGO_ALLOW_ASYNC_UNSAFE] is set; the repository neither sets it nor
    wraps a call in [sync_to_async]. [async_unsafe] is the outcome of that
    check. The other fields are the outcomes of the statements the
    database is sent: an [IntegrityError], a [DataError] and the like. *)
Class Orm : Type := {
  async_unsafe : Res unit;
  (** the INSERT of [CollectionLog.objects.create] *)
  insert_log : CollectionLog -> Res unit;
  (** the INSERT of [Article.objects.create] *)
  insert_article : Candidate -> Res unit;
  (** the UPDATE of [rss_feed.save()] *)
  update_feed : RSSFeed -> Res unit
}.

(** The world as the database has it after a rollback to [before]: what
    the logger received stays. *)
Definition rolled_back (before after : World) : World :=
  {| collection_logs := collection_logs before;
     logger := logger after;
     articles := articles before;
     feeds_saved := feeds_saved before;
     needs_rollback := needs_rollback before |}.

Definition in_transaction (w : World) (broken : bool) : World :=
  {| collection_logs := collection_logs w;
     logger := logger w;
     articles := articles w;
     feeds_saved := feeds_saved w;
     needs_rollback := broken |}.

(** [with transaction.atomic(): c], for a block that is not nested, as all
    blocks of the source are. Entering it asks for the connection, which is
    where the check for an event loop is made, and clears
    [needs_rollback]. Leaving it commits, unless an exception leaves the
    block or [needs_rollback] was set inside it: then the tables are as
    they were before. *)
Definition atomic {orm : Orm} {A : Type} (c : M A) : M A :=
  fun w =>
    match async_unsafe with
    | Raise e => (Raise e, w)
    | Ok _ =>
        match c (in_transaction w false) with
        | (Ok a, w') =>
            (Ok a,
             if needs_rollback w' then rolled_back w w'
             else in_transaction w' (needs_rollback w))
        | (Raise e, w') => (Raise e, rolled_back w w')
        end
    end.

(** A collector object, as [collect] finds it inside [async with].
    [attr_save_articles] is what the attribute lookup [self.save_articles]
    finds: no class of the module defines a method of that name (the module
    has a function [save_articles(articles, source)], which is not an
    attribute of the object), so the objects the constructors build have
    [None] here and the lookup raises [AttributeError]. *)
Record Collector : Type := {
  source : NewsSource;
  config : option ScrapingConfig;
  session_get : str -> option pyval -> Res Response;
  (** the rows of the queryset [source.rss_feeds.filter(is_active=True)]:
      the constructor only builds the query, which runs when [collect]
      iterates over it *)
  rss_feeds : list RSSFeed;
  attr_save_articles : option (list Candidate -> M Z)
}.

Definition getattr_save_articles (self : Collector)
  : M (list Candidate -> M Z) :=
  match attr_save_articles self with
  | Some f => ret f
  | None => lift (raise_of AttributeError)
  end.

Module BaseCollector.
Section WithExternals.
Context {ext : Externals} {orm : Orm}.

(** [getattr(source, 'scraping_config', None)], the one statement of the
    constructor that may touch the database: the related row is read unless
    the instance holds it. A missing row raises a subclass of
    [AttributeError] and gives the default; the exception of the check for
    an event loop is no [AttributeError] and goes up. *)
Definition read_scraping_config (src : NewsSource)
  : Res (option ScrapingConfig) :=
  if config_cached src then Ok (scraping_config src)
  else (_ <~ async_unsafe ;; Ok (scraping_config src))%res.

(** The object the constructor leaves once [scraping_config] is read. *)
Definition __init__ (src : NewsSource)
  (session : str -> option pyval -> Res Response) : Collector :=
  {| source := src;
     config := scraping_config src;
     session_get := session;
     rss_feeds := [];
     attr_save_articles := None |}.

(** [CollectionLog.objects.create(...)]; [errors or []] is the list itself
    or, for [None], the empty list. *)
Definition log_collection (self : Collector) (status : Status)
  (collected : Z) (errors : option (list str)) : M unit :=
  let row := {| log_status := status;
                articles_collected := collected;
                log_errors := match errors with Some l => l | None => [] end |} in
  (lift async_unsafe ;;;
   lift (insert_log row) ;;;
   fun w => (Ok tt, with_record w row))%m.

Definition clean_text (text : pyval) : Res str :=
  if negb (truthy text) then Ok []
  else
    (soup <~ BeautifulSoup text ;;
     Ok (strip (collapse_spaces (get_text soup))))%res.

Definition formats : list str :=
  [ u "%Y-%m-%d %H:%M:%S"; u "%Y-%m-%dT%H:%M:%S"; u "%Y-%m-%dT%H:%M:%SZ";
    u "%d/%m/%Y %H:%M"; u "%d/%m/%Y"; u "%Y-%m-%d" ].

(** The loop over [formats]: a [ValueError] moves on to the next format, any
    other exception leaves the loop. *)
Fixpoint try_formats (date_str : str) (fmts : list str) : Res (option Z) :=
  match fmts with
  | [] => Ok None
  | fmt :: rest =>
      match strptime date_str fmt with
      | Ok d => Ok (Some d)
      | Raise e =>
          if is_class ValueError e then try_formats date_str rest
          else Raise e
      end
  end.

Definition extract_date (date_str : str) (date_format : option str)
  : M (option Z) :=
  if negb (nonempty date_str) then ret None
  else
    try_except
      (lift (match date_format with
             | Some (c :: fmt) =>
                 (d <~ strptime date_str (c :: fmt) ;; Ok (Some d))%res
             | _ => try_formats date_str formats
             end))
      (fun e => (log (DateWarning e) ;;; ret None)%m).

End WithExternals.
End BaseCollector.

Module WebsiteCollector.
Section WithExternals.
Context {ext : Externals} {orm : Orm}.

Definition __init__ := @BaseCollector.__init__.

Definition article_keywords : list str :=
  [ u "/noticia/"; u "/news/"; u "/artigo/"; u "/post/"; u "/article/" ].

Definition nav_keywords : list str :=
  [ u "home"; u "sobre"; u "contato"; u "login"; u "cadastro" ].

Definition is_article_link (href title_ : str) : bool :=
  if negb (nonempty href) || negb (nonempty title_) then false
  else if any_in article_keywords (lower href) then true
  else if (List.length title_ <? 10) || (200 <? List.length title_) then false
  else if any_in nav_keywords (lower title_) then false
  else true.

(** The body of the loop of [auto_extract_articles] for one link. *)
Definition auto_article (self : Collector) (link : node)
  : Res (option Candidate) :=
  let href := match node_get link (u "href") with Some h => h | None => [] end in
  let title_ := strip (get_text link) in
  if is_article_link href title_ then
    (full <~ urljoin (source_url (source self)) href ;;
     Ok (Some {| title := title_; url := VStr full; content := [];
                 author := []; published_date := None |}))%res
  else Ok None.

Definition auto_extract_articles (self : Collector) (soup : node)
  : Res (list Candidate) :=
  let article_links := find_all_links soup in
  rfilter_map (auto_article self) (slice_to article_links 20).

(** [self.config and self.config.<selector>]: the selector when there is a
    configuration and the selector is not empty. *)
Definition configured (self : Collector) (field : ScrapingConfig -> str)
  : option str :=
  match config self with
  | Some cfg => if nonempty (field cfg) then Some (field cfg) else None
  | None => None
  end.

(** [clean_text(elem.get_text())] when a selector is configured and selects
    an element, else the empty string. *)
Definition selected_text (self : Collector) (field : ScrapingConfig -> str)
  (element : node) : Res str :=
  match configured self field with
  | Some sel =>
      (found <~ select_one element sel ;;
       match found with
       | Some elem => BaseCollector.clean_text (VStr (get_text elem))
       | None => Ok []
       end)%res
  | None => Ok []
  end.

Definition extract_article_data_body (self : Collector) (element : node)
  : M (option Candidate) :=
  (title_ <- lift
     match configured self title_selector with
     | Some sel =>
         (found <~ select_one element sel ;;
          match found with
          | Some elem => BaseCollector.clean_text (VStr (get_text elem))
          | None => Ok []
          end)%res
     | None =>
         match find_tag [u "h1"; u "h2"; u "h3"; u "h4"] element with
         | Some elem => BaseCollector.clean_text (VStr (get_text elem))
         | None => Ok []
         end
     end ;;
   if negb (nonempty title_) then ret None
   else
     url_ <- lift
       match find_link element with
       | Some link_elem =>
           urljoin (source_url (source self))
             match node_get link_elem (u "href") with Some h => h | None => [] end
       | None => Ok []
       end ;;
     if negb (nonempty url_) then ret None
     else
       content_ <- lift (selected_text self content_selector element) ;;
       author_ <- lift (selected_text self author_selector element) ;;
       date_ <-
         match configured self date_selector with
         | Some sel =>
             found <- lift (select_one element sel) ;;
             match found with
             | Some elem =>
                 date_str <- lift (BaseCollector.clean_text (VStr (get_text elem))) ;;
                 BaseCollector.extract_date date_str
                   (option_map date_format (config self))
             | None => ret None
             end
         | None => ret None
         end ;;
       ret (Some {| title := title_; url := VStr url_; content := content_;
                    author := author_; published_date := date_ |}))%m.

Definition extract_article_data (self : Collector) (element : node)
  : M (option Candidate) :=
  try_except (extract_article_data_body self element)
    (fun e => (log (ArticleDataFailed e) ;;; ret None)%m).

(** Called only when [self.config] is set; without one the attribute access
    [self.config.title_selector] raises. *)
Definition config_extract_articles (self : Collector) (soup : node)
  : M (list Candidate) :=
  match config self with
  | None => lift (raise_of AttributeError)
  | Some cfg =>
      (article_elements <- lift
         (if nonempty (title_selector cfg) then select soup (title_selector cfg)
          else Ok (find_article_blocks soup)) ;;
       mfilter_map (extract_article_data self)
         (slice_to article_elements (max_articles (source self))))%m
  end.

Definition parse_html (self : Collector) (html : str) : M (list Candidate) :=
  (soup <- lift (BeautifulSoup (VStr html)) ;;
   match config self with
   | None => lift (auto_extract_articles self soup)
   | Some _ => config_extract_articles self soup
   end)%m.

(** [collect]: the [try] block yields the articles, or [None] when the
    handler has logged the run and returned. *)
Definition collect (self : Collector) : M (list Candidate) :=
  (fetched <-
     try_except
       (response <- lift (session_get self (source_url (source self)) None) ;;
        if (resp_status response =? 200)%Z then
          html <- lift (resp_text response) ;;
          found <- parse_html self html ;;
          ret (Some found)
        else
          log (HttpStatusError (resp_status response)) ;;;
          ret (Some []))
       (fun e =>
          log (CollectFailed e) ;;;
          BaseCollector.log_collection self error 0 (Some [exn_str e]) ;;;
          ret None) ;;
   match fetched with
   | None => ret []
   | Some found =>
       save <- getattr_save_articles self ;;
       saved_count <- save found ;;
       BaseCollector.log_collection self success saved_count None ;;;
       ret found
   end)%m.

End WithExternals.
End WebsiteCollector.

Module RSSCollector.
Section WithExternals.
Context {ext : Externals} {orm : Orm}.

(** The object the constructor leaves once [scraping_config] is read;
    [rss_feeds] is a queryset that has not run yet. *)
Definition __init__ (src : NewsSource)
  (session : str -> option pyval -> Res Response) : Collector :=
  {| source := src;
     config := scraping_config src;
     session_get := session;
     rss_feeds := filter is_active (source_rss_feeds src);
     attr_save_articles := None |}.

(** [entry.<key>] *)
Definition entry_attr (entry : pyval) (key : str) : Res pyval :=
  match entry with
  | VDict items =>
      match lookup key items with
      | Some v => Ok v
      | None => raise_of AttributeError
      end
  | _ => raise_of AttributeError
  end.

(** [entry.content[0].value] *)
Definition first_content_value (entry : pyval) : Res pyval :=
  (c <~ entry_attr entry (u "content") ;;
   match c with
   | VList (first :: _) => entry_attr first (u "value")
   | VList [] => raise_of IndexError
   | _ => raise_of TypeError
   end)%res.

Definition parse_rss_entry_body (self : Collector) (entry : pyval)
  : Res (option Candidate) :=
  (raw_title <~ get entry (u "title") (VStr []) ;;
   title_ <~ BaseCollector.clean_text raw_title ;;
   if negb (nonempty title_) then Ok None
   else
     url_ <~ get entry (u "link") (VStr []) ;;
     if negb (truthy url_) then Ok None
     else
       has_summary <~ has (u "summary") entry ;;
       content_ <~
         (if has_summary then
            s <~ entry_attr entry (u "summary") ;; BaseCollector.clean_text s
          else
            has_content <~ has (u "content") entry ;;
            if has_content then
              v <~ first_content_value entry ;; BaseCollector.clean_text v
            else Ok []) ;;
       has_author <~ has (u "author") entry ;;
       author_ <~
         (if has_author then
            a <~ entry_attr entry (u "author") ;; BaseCollector.clean_text a
          else Ok []) ;;
       has_published <~ has (u "published_parsed") entry ;;
       date_ <~
         (if has_published then
            t <~ entry_attr entry (u "published_parsed") ;;
            d <~ entry_datetime t ;; Ok (Some d)
          else
            has_updated <~ has (u "updated_parsed") entry ;;
            if has_updated then
              t <~ entry_attr entry (u "updated_parsed") ;;
              d <~ entry_datetime t ;; Ok (Some d)
            else Ok None) ;;
       Ok (Some {| title := title_; url := url_; content := content_;
                   author := author_; published_date := date_ |}))%res.

Definition parse_rss_entry (self : Collector) (entry : pyval)
  : M (option Candidate) :=
  try_except (lift (parse_rss_entry_body self entry))
    (fun e => (log (RssEntryFailed e) ;;; ret None)%m).

(** The entries already parsed stay in [articles] when the feed cannot be
    read; [feedparser.parse] is the only call of the [try] block that is not
    guarded by [parse_rss_entry]. *)
Definition collect_from_feed (self : Collector) (rss_feed : RSSFeed)
  : M (list Candidate) :=
  try_except
    (entries <- lift (feed_entries (feed_url rss_feed)) ;;
     mfilter_map (parse_rss_entry self)
       (slice_to entries (max_articles (source self))))%m
    (fun e => (log (RssFeedFailed e) ;;; ret [])%m).

(** [rss_feed.last_updated = timezone.now(); rss_feed.save()] *)
Definition save_feed (rss_feed : RSSFeed) : M unit :=
  (lift async_unsafe ;;;
   lift (update_feed rss_feed) ;;;
   fun w =>
     (Ok tt,
      {| collection_logs := collection_logs w;
         logger := logger w;
         articles := articles w;
         feeds_saved := feeds_saved w ++ [feed_url rss_feed];
         needs_rollback := needs_rollback w |}))%m.

(** The loop of [collect] over the feeds, with [all_articles] so far. The
    list is extended in place before the feed is saved, so the candidates
    of a feed stay in it when [rss_feed.save()] raises; the one handler of
    the source stands here once for each of the two places it is reached
    from. *)
Fixpoint collect_feeds (self : Collector) (feeds : list RSSFeed)
  (all_articles : list Candidate) : M (list Candidate) :=
  match feeds with
  | [] => ret all_articles
  | rss_feed :: rest =>
      (all_articles' <-
         try_except
           (found <- collect_from_feed self rss_feed ;;
            try_except
              (save_feed rss_feed ;;; ret (all_articles ++ found))
              (fun e => log (RssCollectFailed e) ;;;
                        ret (all_articles ++ found)))
           (fun e => log (RssCollectFailed e) ;;; ret all_articles) ;;
       collect_feeds self rest all_articles')%m
  end.

(** [for rss_feed in self.rss_feeds] runs the query, outside any [try]. *)
Definition collect (self : Collector) : M (list Candidate) :=
  (lift async_unsafe ;;;
   all_articles <- collect_feeds self (rss_feeds self) [] ;;
   save <- getattr_save_articles self ;;
   saved_count <- save all_articles ;;
   BaseCollector.log_collection self success saved_count None ;;;
   ret all_articles)%m.

End WithExternals.
End RSSCollector.

Module APICollector.
Section WithExternals.
Context {ext : Externals} {orm : Orm}.

Definition __init__ := @BaseCollector.__init__.

Fixpoint dict_set (k : str) (v : pyval) (items : list (str * pyval))
  : list (str * pyval) :=
  match items with
  | [] => [(k, v)]
  | (k', v') :: rest =>
      if str_eqb k k' then (k, v) :: rest else (k', v') :: dict_set k v rest
  end.

(** [d[k] = v] *)
Definition setitem (d : pyval) (k : str) (v : pyval) : Res pyval :=
  match d with
  | VDict items => Ok (VDict (dict_set k v items))
  | _ => raise_of TypeError
  end.

Definition parse_api_item_body (self : Collector) (item : pyval)
  : M (option Candidate) :=
  (title_ <- lift
     (headline <~ get item (u "headline") (VStr []) ;;
      raw <~ get item (u "title") headline ;;
      BaseCollector.clean_text raw)%res ;;
   if negb (nonempty title_) then ret None
   else
     url_ <- lift
       (link <~ get item (u "link") (VStr []) ;;
        get item (u "url") link)%res ;;
     if negb (truthy url_) then ret None
     else
       content_ <- lift
         (summary <~ get item (u "summary") (VStr []) ;;
          body <~ get item (u "body") summary ;;
          raw <~ get item (u "content") body ;;
          BaseCollector.clean_text raw)%res ;;
       author_ <- lift
         (byline <~ get item (u "byline") (VStr []) ;;
          raw <~ get item (u "author") byline ;;
          BaseCollector.clean_text raw)%res ;;
       date_str <- lift
         (timestamp <~ get item (u "timestamp") VNone ;;
          date <~ get item (u "date") timestamp ;;
          get item (u "published_date") date)%res ;;
       date_ <-
         (if truthy date_str
          then BaseCollector.extract_date (str_of date_str) None
          else ret None) ;;
       ret (Some {| title := title_; url := url_; content := content_;
                    author := author_; published_date := date_ |}))%m.

Definition parse_api_item (self : Collector) (item : pyval)
  : M (option Candidate) :=
  try_except (parse_api_item_body self item)
    (fun e => (log (ApiItemFailed e) ;;; ret None)%m).

(** [data.get('articles', data.get('items', data.get('results',
    data.get('data', []))))]: the defaults are evaluated innermost first. *)
Definition response_items (data : pyval) : Res pyval :=
  (d <~ get data (u "data") (VList []) ;;
   r <~ get data (u "results") d ;;
   i <~ get data (u "items") r ;;
   get data (u "articles") i)%res.

Definition parse_api_response (self : Collector) (data : pyval)
  : M (list Candidate) :=
  (items <- lift (response_items data) ;;
   match items with
   | VList l =>
       mfilter_map (parse_api_item self)
         (slice_to l (max_articles (source self)))
   | _ => log ApiNotAList ;;; ret []
   end)%m.

Definition bearer (key : str) : str := u "Bearer " ++ key.

Definition request_headers (cfg : ScrapingConfig) : Res pyval :=
  let headers := if truthy (api_headers cfg) then api_headers cfg else VDict [] in
  if nonempty (api_key cfg)
  then setitem headers (u "Authorization") (VStr (bearer (api_key cfg)))
  else Ok headers.

(** [collect] returns at once, before any record is written, when there is
    no configuration or no endpoint. *)
Definition collect (self : Collector) : M (list Candidate) :=
  match config self with
  | None => (log ApiEndpointMissing ;;; ret [])%m
  | Some cfg =>
      if negb (nonempty (api_endpoint cfg))
      then (log ApiEndpointMissing ;;; ret [])%m
      else
        (fetched <-
           try_except
             (headers <- lift (request_headers cfg) ;;
              response <- lift (session_get self (api_endpoint cfg) (Some headers)) ;;
              if (resp_status response =? 200)%Z then
                data <- lift (resp_json response) ;;
                found <- parse_api_response self data ;;
                ret (Some found)
              else
                log (HttpStatusError (resp_status response)) ;;;
                ret (Some []))
             (fun e =>
                log (CollectFailed e) ;;;
                BaseCollector.log_collection self error 0 (Some [exn_str e]) ;;;
                ret None) ;;
         match fetched with
         | None => ret []
         | Some found =>
             save <- getattr_save_articles self ;;
             saved_count <- save found ;;
             BaseCollector.log_collection self success saved_count None ;;;
             ret found
         end)%m
  end.

End WithExternals.
End APICollector.

Section ModuleFunctions.
Context {ext : Externals} {orm : Orm}.

(** A query sent while [needs_rollback] is set: Django refuses it until the
    end of the [atomic] block. *)
Definition broken_transaction {A : Type} : Res A :=
  raise_of TransactionManagementError.

(** [Article.objects.filter(url=...).exists()] *)
Definition url_exists (c : Candidate) : M bool :=
  fun w =>
    if needs_rollback w then (broken_transaction, w)
    else (Ok (existsb (fun a => url_eqb (url a) (url c)) (articles w)), w).

(** [Article.objects.create(...)]: [Model.save] marks the transaction for
    rollback when the INSERT fails inside an [atomic] block. *)
Definition add_article (c : Candidate) : M unit :=
  fun w =>
    if needs_rollback w then (broken_transaction, w)
    else
      match insert_article c with
      | Ok _ =>
          (Ok tt,
           {| collection_logs := collection_logs w;
              logger := logger w;
              articles := articles w ++ [c];
              feeds_saved := feeds_saved w;
              needs_rollback := false |})
      | Raise e => (Raise e, in_transaction w true)
      end.

(** The loop of [save_articles], with [saved_count] so far. *)
Fixpoint save_each (arts : list Candidate) (src : NewsSource)
  (saved_count : Z) : M Z :=
  match arts with
  | [] => ret saved_count
  | article_data :: rest =>
      (n <-
         try_except
           (known <- url_exists article_data ;;
            if known then ret saved_count
            else add_article article_data ;;; ret (saved_count + 1)%Z)
           (fun e => log (SaveFailed e) ;;; ret saved_count) ;;
       save_each rest src n)%m
  end.

(** The module's [save_articles(articles, source)]: inside one transaction,
    one row per candidate whose URL is not stored yet; the number of
    creations that went through, whether the transaction is committed or
    not. *)
Definition save_articles (arts : list Candidate) (src : NewsSource) : M Z :=
  atomic (save_each arts src 0).

(** [CollectorFactory.create_collector(source)], whose constructor reads
    [source.scraping_config], followed by [collect()], as
    [collect_from_source] runs them. *)
Definition collect_from_source (src : NewsSource)
  (session : str -> option pyval -> Res Response) : M (list Candidate) :=
  (lift (BaseCollector.read_scraping_config src) ;;;
   if str_eqb (source_type src) (u "rss")
   then RSSCollector.collect (RSSCollector.__init__ src session)
   else if str_eqb (source_type src) (u "api")
   then APICollector.collect (APICollector.__init__ src session)
   else WebsiteCollector.collect (WebsiteCollector.__init__ src session))%m.

(** A collector whose [save_articles] attribute is bound to the module's
    function for the collector's own source: what the three [collect]
    methods would call if the attribute existed. *)
Definition with_save_articles (self : Collector) : Collector :=
  {| source := source self;
     config := config self;
     session_get := session_get self;
     rss_feeds := rss_feeds self;
     attr_save_articles :=
       Some (fun arts => save_articles arts (source self)) |}.

End ModuleFunctions.

(** ** data_processor/processors.py *)

(** The statistics every analyzer model keeps. *)
Record Stats : Type := {
  avg_processing_time : option Q;
  total_processed : Z
}.

(** [total_processed += 1] and the running mean of the processing time; a
    mean that is [None] or [0.0] is replaced by the sample. The floats of
    the source are rationals here, so the halved sum is exact where Python
    rounds it to the nearest double. What is proved of the mean below is
    limited to what the rounded value satisfies as well: that it is the
    sample itself, or lies between the old mean and the sample and so
    within any bounds of both (rounding to nearest is monotone and the
    doubling and halving of a double are exact). *)
Definition update_stats (s : Stats) (processing_time : Q) : Stats :=
  {| avg_processing_time :=
       Some (match avg_processing_time s with
             | Some avg =>
                 if Qeq_bool avg 0 then processing_time
                 else ((avg + processing_time) / 2)%Q
             | None => processing_time
             end);
     total_processed := (total_processed s + 1)%Z |}.

Record VaderScores : Type := {
  compound : Q; vader_neg : Q; vader_neu : Q; vader_pos : Q
}.

(** The analyzer packages. A [*_load] field is the outcome of importing the
    package and building its analyzer ([ImportError] when the package is not
    installed); the function it yields is the analysis of one text. *)
Class Backends : Type := {
  (** [SentimentIntensityAnalyzer().polarity_scores] *)
  vader_load : Res (str -> Res VaderScores);
  (** [TextBlob(text).sentiment]: polarity and subjectivity *)
  textblob_load : Res (str -> Res (Q * Q));
  (** [spacy.load(...)(text).ents]: text, label, start and end of each *)
  spacy_load : Res (str -> Res (list (str * str * Z * Z)));
  (** [re.finditer(pattern, text)]: group, start and end of each match *)
  re_finditer : pyval -> str -> Res (list (str * Z * Z));
  (** the TF-IDF features of the text with their scores *)
  tfidf_features : str -> Res (list (str * Q));
  (** [yake.KeywordExtractor(...).extract_keywords(text)] *)
  yake_extract : str -> Res (list (str * Q));
  (** the characters the pattern [\w] accepts *)
  is_word_char : N -> bool
}.

Record ProcessingRule : Type := {
  rule_name : str;
  rule_type : str;
  parameters : pyval
}.

Module BaseProcessor.
Section WithExternals.
Context {ext : Externals}.

(** [for x in xs: text = step(x, text)] *)
Fixpoint fold_text (step : pyval -> str -> Res str) (xs : list pyval)
  (text : str) : Res str :=
  match xs with
  | [] => Ok text
  | x :: rest => (t <~ step x text ;; fold_text step rest t)%res
  end.

Definition word_pattern (escaped : str) : str :=
  u "\b" ++ escaped ++ u "\b".

Definition apply_text_filter (text : str) (params : pyval) : Res str :=
  (has_words <~ has (u "remove_words") params ;;
   text1 <~
     (if has_words then
        words <~ getitem params (u "remove_words") ;;
        ws <~ iter words ;;
        fold_text
          (fun word t =>
             esc <~ re_escape word ;;
             re_sub true (VStr (word_pattern esc)) (VStr []) t)
          ws text
      else Ok text) ;;
   has_patterns <~ has (u "remove_patterns") params ;;
   if has_patterns then
     patterns <~ getitem params (u "remove_patterns") ;;
     ps <~ iter patterns ;;
     fold_text (fun pattern t => re_sub false pattern (VStr []) t) ps text1
   else Ok text1)%res.

Definition apply_regex_replace (text : str) (params : pyval) : Res str :=
  (has_pattern <~ has (u "pattern") params ;;
   has_both <~ (if has_pattern then has (u "replacement") params else Ok false) ;;
   if has_both then
     pattern <~ getitem params (u "pattern") ;;
     replacement <~ getitem params (u "replacement") ;;
     re_sub false pattern replacement text
   else Ok text)%res.

Definition clean_html (text : str) : Res str :=
  (soup <~ BeautifulSoup (VStr text) ;; Ok (get_text soup))%res.

Definition apply_rule (rule : ProcessingRule) (text : str) : Res str :=
  if str_eqb (rule_type rule) (u "text_filter")
  then apply_text_filter text (parameters rule)
  else if str_eqb (rule_type rule) (u "regex_replace")
  then apply_regex_replace text (parameters rule)
  else if str_eqb (rule_type rule) (u "html_clean")
  then clean_html text
  else Ok text.

(** [self.rules] is the list the constructor read, in priority order. *)
Fixpoint apply_rules (rules : list ProcessingRule) (processed_text : str)
  : M str :=
  match rules with
  | [] => ret processed_text
  | rule :: rest =>
      (t <- try_except (lift (apply_rule rule processed_text))
              (fun e => log (RuleFailed (rule_name rule) e) ;;;
                        ret processed_text) ;;
       apply_rules rest t)%m
  end.

End WithExternals.
End BaseProcessor.

Inductive Label : Type := positive | negative | neutral.

Inductive Details : Type :=
| NoDetails
| WordCounts (positive_words negative_words : nat)
| VaderDetails (scores : VaderScores)
| TextBlobDetails (polarity subjectivity : Q).

Record Sentiment : Type := {
  score : Q;
  label : Label;
  confidence : Q;
  details : Details
}.

Record SentimentModel : Type := {
  model_type : str;
  model_stats : Stats
}.

Module SentimentProcessor.
Section WithExternals.
Context {ext : Externals} {bk : Backends}.

Definition positive_words : list str :=
  [ u "bom"; u "ótimo"; u "excelente"; u "fantástico"; u "maravilhoso";
    u "incrível"; u "positivo"; u "sucesso"; u "crescimento"; u "lucro";
    u "ganho"; u "vitória" ].

Definition negative_words : list str :=
  [ u "ruim"; u "terrível"; u "horrível"; u "péssimo"; u "negativo";
    u "fracasso"; u "perda"; u "queda"; u "crise"; u "problema"; u "erro";
    u "falha" ].

(** [sum(1 for word in words if word in text_lower)] *)
Definition count_words (words : list str) (text_lower : str) : nat :=
  fold_left Nat.add
    (map (fun _ => 1) (filter (fun word => contains word text_lower) words)) 0.

Definition _fallback_sentiment (text : str) : Sentiment :=
  let text_lower := lower text in
  let positive_count := count_words positive_words text_lower in
  let negative_count := count_words negative_words text_lower in
  let '(score_, label_) :=
    if negative_count <? positive_count then ((3 # 10)%Q, positive)
    else if positive_count <? negative_count then ((- (3 # 10))%Q, negative)
    else (0%Q, neutral) in
  {| score := score_; label := label_; confidence := (5 # 10)%Q;
     details := WordCounts positive_count negative_count |}.

(** An [ImportError] while loading the package is logged and answered by
    the fallback; the analysis itself runs outside that [try]. *)
Definition _analyze_vader (text : str) : M Sentiment :=
  match vader_load with
  | Raise e =>
      if is_class ImportError e
      then (log (BackendUnavailable (u "VADER")) ;;; ret (_fallback_sentiment text))%m
      else lift (Raise e)
  | Ok polarity_scores =>
      (scores <- lift (polarity_scores text) ;;
       let c := compound scores in
       let label_ :=
         if Qle_bool (5 # 100) c then positive
         else if Qle_bool c (- (5 # 100)) then negative
         else neutral in
       ret {| score := c; label := label_; confidence := Qabs c;
              details := VaderDetails scores |})%m
  end.

Definition _analyze_textblob (text : str) : M Sentiment :=
  match textblob_load with
  | Raise e =>
      if is_class ImportError e
      then (log (BackendUnavailable (u "TextBlob")) ;;; ret (_fallback_sentiment text))%m
      else lift (Raise e)
  | Ok sentiment =>
      (ps <- lift (sentiment text) ;;
       let polarity := fst ps in
       let label_ :=
         if negb (Qle_bool polarity 0) then positive
         else if negb (Qle_bool 0 polarity) then negative
         else neutral in
       ret {| score := polarity; label := label_; confidence := Qabs polarity;
              details := TextBlobDetails polarity (snd ps) |})%m
  end.

(** [analyze_sentiment] returns the result and the model as the call leaves
    it; [processing_time] is the time the clock measured for the analysis. *)
Definition analyze_sentiment (model : option SentimentModel) (text : str)
  (processing_time : Q) : M (Sentiment * option SentimentModel) :=
  if negb (nonempty text)
  then ret ({| score := 0%Q; label := neutral; confidence := 0%Q;
               details := NoDetails |}, model)
  else
    match model with
    | None => ret (_fallback_sentiment text, None)
    | Some m =>
        try_except
          (result <-
             (if str_eqb (model_type m) (u "vader") then _analyze_vader text
              else if str_eqb (model_type m) (u "textblob") then _analyze_textblob text
              else ret (_fallback_sentiment text)) ;;
           ret (result,
                Some {| model_type := model_type m;
                        model_stats := update_stats (model_stats m) processing_time |}))%m
          (fun e =>
             (log (SentimentFailed e) ;;;
              ret (_fallback_sentiment text, Some m))%m)
    end.

End WithExternals.
End SentimentProcessor.

Record Entity : Type := {
  entity_text : str;
  entity_type : str;
  entity_start : Z;
  entity_end : Z;
  entity_confidence : Q
}.

Record EntityExtractor : Type := {
  entity_extractor_type : str;
  entity_types : pyval;
  entity_parameters : pyval;
  entity_stats : Stats
}.

Module EntityProcessor.
Section WithExternals.
Context {ext : Externals} {bk : Backends}.

Definition first_isupper (word : str) : Res bool :=
  match word with
  | c :: _ => Ok (isupper c)
  | [] => raise_of IndexError
  end.

(** The loop of [_fallback_entities] over [enumerate(words)]: [words] is
    what is left of the list from the current word on. *)
Fixpoint fallback_pairs (text : str) (words : list str) : Res (list Entity) :=
  match words with
  | [] => Ok []
  | word :: rest =>
      (up <~ first_isupper word ;;
       here <~
         (if up && (2 <? List.length word) then
            match rest with
            | next :: _ =>
                up_next <~ first_isupper next ;;
                if up_next then
                  let full_name := word ++ u " " ++ next in
                  Ok [ {| entity_text := full_name;
                          entity_type := u "PERSON";
                          entity_start := find text full_name;
                          entity_end :=
                            (find text full_name + Z.of_nat (List.length full_name))%Z;
                          entity_confidence := (5 # 10)%Q |} ]
                else Ok []
            | [] => Ok []
            end
          else Ok []) ;;
       more <~ fallback_pairs text rest ;;
       Ok (here ++ more))%res
  end.

Definition _fallback_entities (text : str) : Res (list Entity) :=
  fallback_pairs text (split text).

Definition _extract_spacy_entities (text : str) : M (list Entity) :=
  match spacy_load with
  | Raise e =>
      if is_class ImportError e
      then (log (BackendUnavailable (u "spaCy")) ;;; lift (_fallback_entities text))%m
      else lift (Raise e)
  | Ok nlp =>
      (ents <- lift (nlp text) ;;
       ret (map (fun ent =>
                   match ent with
                   | (t, lbl, s, e) =>
                       {| entity_text := t; entity_type := lbl;
                          entity_start := s; entity_end := e;
                          entity_confidence := (8 # 10)%Q |}
                   end) ents))%m
  end.

Definition default_patterns : list (str * pyval) :=
  [ (u "PERSON", VStr (u "\b[A-Z][a-z]+ [A-Z][a-z]+\b"));
    (u "ORG", VStr (u "\b[A-Z][A-Z\s&]+(?:Corp|Inc|Ltd|LLC|SA|LTDA)\b"));
    (u "LOC", VStr (u "\b[A-Z][a-z]+(?: de | da | do )?[A-Z][a-z]+\b")) ].

Fixpoint regex_matches (text : str) (patterns : list (str * pyval))
  : Res (list Entity) :=
  match patterns with
  | [] => Ok []
  | (etype, pattern) :: rest =>
      (ms <~ re_finditer pattern text ;;
       more <~ regex_matches text rest ;;
       Ok (map (fun m =>
                  match m with
                  | (g, s, e) =>
                      {| entity_text := g; entity_type := etype;
                         entity_start := s; entity_end := e;
                         entity_confidence := (6 # 10)%Q |}
                  end) ms ++ more))%res
  end.

Definition _extract_regex_entities (extractor : EntityExtractor) (text : str)
  : Res (list Entity) :=
  (patterns <~ get (entity_parameters extractor) (u "patterns")
                   (VDict default_patterns) ;;
   match patterns with
   | VDict items => regex_matches text items
   | _ => raise_of AttributeError
   end)%res.

(** [[e for e in entities if e['type'] in entity_types]] *)
Fixpoint filter_types (types : pyval) (entities : list Entity)
  : Res (list Entity) :=
  match entities with
  | [] => Ok []
  | e :: rest =>
      (keep <~ has (entity_type e) types ;;
       more <~ filter_types types rest ;;
       Ok (if keep then e :: more else more))%res
  end.

Definition extract_entities (extractor : option EntityExtractor) (text : str)
  (processing_time : Q) : M (list Entity * option EntityExtractor) :=
  if negb (nonempty text) then ret ([], extractor)
  else
    match extractor with
    | None => (es <- lift (_fallback_entities text) ;; ret (es, None))%m
    | Some x =>
        try_except
          (entities <-
             (if str_eqb (entity_extractor_type x) (u "spacy")
              then _extract_spacy_entities text
              else if str_eqb (entity_extractor_type x) (u "regex")
              then lift (_extract_regex_entities x text)
              else lift (_fallback_entities text)) ;;
           entities' <- lift
             (if truthy (entity_types x)
              then filter_types (entity_types x) entities
              else Ok entities) ;;
           ret (entities',
                Some {| entity_extractor_type := entity_extractor_type x;
                        entity_types := entity_types x;
                        entity_parameters := entity_parameters x;
                        entity_stats := update_stats (entity_stats x) processing_time |}))%m
          (fun e =>
             (log (EntitiesFailed e) ;;;
              es <- lift (_fallback_entities text) ;; ret (es, Some x))%m)
    end.

End WithExternals.
End EntityProcessor.

Record Keyword : Type := {
  keyword_text : str;
  keyword_score : Q;
  keyword_type : str
}.

Record KeywordExtractor : Type := {
  keyword_extractor_type : str;
  max_keywords : Z;
  min_keyword_length : Z;
  stop_words : pyval;
  keyword_stats : Stats
}.

Module KeywordProcessor.
Section WithExternals.
Context {ext : Externals} {bk : Backends}.

(** [keywords.sort(key=lambda x: x['score'], reverse=True)]: a stable sort,
    so a keyword goes after those already placed whose score is not lower. *)
Fixpoint insert_by_score (k : Keyword) (sorted : list Keyword) : list Keyword :=
  match sorted with
  | [] => [k]
  | h :: rest =>
      if Qle_bool (keyword_score k) (keyword_score h)
      then h :: insert_by_score k rest
      else k :: h :: rest
  end.

Definition sort_by_score (keywords : list Keyword) : list Keyword :=
  fold_left (fun sorted k => insert_by_score k sorted) keywords [].

(** [word_freq[word] = word_freq.get(word, 0) + 1], keys in insertion order. *)
Fixpoint bump (word : str) (word_freq : list (str * nat)) : list (str * nat) :=
  match word_freq with
  | [] => [(word, 1)]
  | (w, n) :: rest =>
      if str_eqb word w then (w, S n) :: rest else (w, n) :: bump word rest
  end.

Definition count_frequencies (words : list str) : list (str * nat) :=
  fold_left
    (fun word_freq word =>
       if 3 <=? List.length word then bump word word_freq else word_freq)
    words [].

(** [re.sub(r'[^\w\s]', '', text.lower())] *)
Definition remove_punctuation (text : str) : str :=
  filter (fun c => is_word_char c || is_space c) (lower text).

Fixpoint frequent (n_words : nat) (word_freq : list (str * nat))
  : Res (list Keyword) :=
  match word_freq with
  | [] => Ok []
  | (word, freq) :: rest =>
      (here <~
         (if 1 <? freq then
            s <~ div (inject_Z (Z.of_nat freq)) (inject_Z (Z.of_nat n_words)) ;;
            Ok [ {| keyword_text := word; keyword_score := s;
                    keyword_type := u "frequency" |} ]
          else Ok []) ;;
       more <~ frequent n_words rest ;;
       Ok (here ++ more))%res
  end.

Definition _fallback_keywords (text : str) : Res (list Keyword) :=
  let text_clean := remove_punctuation text in
  let words := split text_clean in
  (keywords <~ frequent (List.length words) (count_frequencies words) ;;
   Ok (sort_by_score keywords))%res.

(** The whole body stands in a [try] whose only handler is for
    [ImportError]. *)
Definition _extract_tfidf_keywords (text : str) : M (list Keyword) :=
  match tfidf_features text with
  | Raise e =>
      if is_class ImportError e
      then (log (BackendUnavailable (u "scikit-learn")) ;;;
            lift (_fallback_keywords text))%m
      else lift (Raise e)
  | Ok features =>
      ret (sort_by_score
             (map (fun f => {| keyword_text := fst f; keyword_score := snd f;
                               keyword_type := u "tfidf" |})
                  (filter (fun f => negb (Qle_bool (snd f) 0)) features)))
  end.

Definition _extract_yake_keywords (text : str) : M (list Keyword) :=
  match yake_extract text with
  | Raise e =>
      if is_class ImportError e
      then (log (BackendUnavailable (u "YAKE")) ;;;
            lift (_fallback_keywords text))%m
      else lift (Raise e)
  | Ok keywords =>
      ret (map (fun k => {| keyword_text := fst k;
                            keyword_score := (1 - snd k)%Q;
                            keyword_type := u "yake" |}) keywords)
  end.

(** [[kw for kw in keywords if kw['text'].lower() not in stop_words]] *)
Fixpoint remove_stop_words (stops : pyval) (keywords : list Keyword)
  : Res (list Keyword) :=
  match keywords with
  | [] => Ok []
  | kw :: rest =>
      (stop <~ has (lower (keyword_text kw)) stops ;;
       more <~ remove_stop_words stops rest ;;
       Ok (if stop then more else kw :: more))%res
  end.

Definition extract_keywords (extractor : option KeywordExtractor) (text : str)
  (processing_time : Q) : M (list Keyword * option KeywordExtractor) :=
  if negb (nonempty text) then ret ([], extractor)
  else
    match extractor with
    | None => (ks <- lift (_fallback_keywords text) ;; ret (ks, None))%m
    | Some x =>
        try_except
          (keywords <-
             (if str_eqb (keyword_extractor_type x) (u "tfidf")
              then _extract_tfidf_keywords text
              else if str_eqb (keyword_extractor_type x) (u "yake")
              then _extract_yake_keywords text
              else lift (_fallback_keywords text)) ;;
           let long_enough :=
             filter (fun kw => (min_keyword_length x <=?
                                Z.of_nat (List.length (keyword_text kw)))%Z)
                    keywords in
           kept <- lift
             (if truthy (stop_words x)
              then remove_stop_words (stop_words x) long_enough
              else Ok long_enough) ;;
           ret (slice_to kept (max_keywords x),
                Some {| keyword_extractor_type := keyword_extractor_type x;
                        max_keywords := max_keywords x;
                        min_keyword_length := min_keyword_length x;
                        stop_words := stop_words x;
                        keyword_stats := update_stats (keyword_stats x) processing_time |}))%m
          (fun e =>
             (log (KeywordsFailed e) ;;;
              ks <- lift (_fallback_keywords text) ;; ret (ks, Some x))%m)
    end.

End WithExternals.
End KeywordProcessor.

(** The fields of [core.models.Article] the quality score reads. [content]
    is a [TextField], the two [JSONField]s hold the lists the analyzers
    produce, a [DateTimeField] that is set is always true. *)
Record Article : Type := {
  article_title : str;
  article_content : str;
  article_author : str;
  article_published_date : option Z;
  article_url : str;
  article_keywords : list pyval;
  article_entities : list pyval
}.

Record Factors : Type := {
  has_title : bool;
  has_content : bool;
  has_author : bool;
  has_date : bool;
  content_length : nat;
  title_length : nat;
  has_keywords : bool;
  has_entities : bool;
  keyword_count : nat;
  entity_count : nat
}.

Record Scores : Type := {
  readability : Q;
  completeness : Q;
  accuracy : Q;
  relevance : Q
}.

Record Quality : Type := {
  overall_score : Q;
  scores : Scores;
  factors : Factors
}.

Module QualityProcessor.
Section WithExternals.
Context {ext : Externals}.

(** [sum(xs)]: from [0], left to right. *)
Definition py_sum (xs : list Q) : Q := fold_left Qplus xs 0%Q.

(** [min(a, b)] and [max(a, b)]: the first argument unless the second is
    strictly smaller (greater). *)
Definition py_min (a b : Q) : Q := if Qle_bool a b then a else b.
Definition py_max (a b : Q) : Q := if Qle_bool b a then a else b.

Definition of_nat (n : nat) : Q := inject_Z (Z.of_nat n).

Definition vowels : str := u "aeiouáéíóúâêîôûãõ".

Definition _count_syllables (text : str) : nat :=
  fold_left (fun count char => if char_in char vowels then count + 1 else count)
    (lower text) 0.

Definition sentence_end (c : N) : bool := char_in c (u ".!?").

(** The Flesch-type formula, with the two quotients it takes. *)
Definition flesch (words sentences syllables : nat) : Res Q :=
  (per_sentence <~ div (of_nat words) (of_nat sentences) ;;
   per_word <~ div (of_nat syllables) (of_nat words) ;;
   Ok ((206835 # 1000) - (1015 # 1000) * per_sentence
       - (846 # 10) * per_word)%Q)%res.

Definition _calculate_readability (text : str) : Res Q :=
  if negb (nonempty text) then Ok 0%Q
  else
    let sentences := List.length (re_split sentence_end text) in
    let words := List.length (split text) in
    let syllables := _count_syllables text in
    if (sentences =? 0) || (words =? 0) then Ok 0%Q
    else
      (readability_ <~ flesch words sentences syllables ;;
       Ok (py_max 0 (py_min 1 (readability_ / 100))))%res.

Definition factor (b : bool) : Q := if b then 1%Q else 0%Q.

(** [sum(factors) / len(factors)] *)
Definition mean (fs : list Q) : Res Q :=
  div (py_sum fs) (of_nat (List.length fs)).

Definition _calculate_completeness (article : Article) : Res Q :=
  mean
    [ factor (nonempty (article_title article) &&
              (10 <? List.length (article_title article)));
      factor (nonempty (article_content article) &&
              (100 <? List.length (article_content article)));
      factor (nonempty (article_author article));
      factor (match article_published_date article with
              | Some _ => true | None => false end);
      factor (nonempty (article_url article)) ].

Definition _calculate_accuracy (article : Article) : Res Q :=
  let c := article_content article in
  let fs :=
    [ factor (re_search (u "\d{1,2}[/-]\d{1,2}[/-]\d{2,4}") c);
      factor (re_search (u "\d+") c);
      factor (re_search (u "\b[A-Z][a-z]+ [A-Z][a-z]+\b") c);
      factor (contains [34%N] c || contains [34%N] c) ] in
  match fs with
  | [] => Ok 0%Q
  | _ => mean fs
  end.

Definition _calculate_relevance (article : Article) : Res Q :=
  let fs :=
    [ match article_keywords article with
      | [] => 0%Q
      | ks => py_min 1 (of_nat (List.length ks) / 10)
      end;
      match article_entities article with
      | [] => 0%Q
      | es => py_min 1 (of_nat (List.length es) / 5)
      end ] in
  match fs with
  | [] => Ok 0%Q
  | _ => mean fs
  end.

Definition _get_quality_factors (article : Article) (s : Scores) : Factors :=
  {| has_title := nonempty (article_title article);
     has_content := nonempty (article_content article);
     has_author := nonempty (article_author article);
     has_date := match article_published_date article with
                 | Some _ => true | None => false end;
     content_length := List.length (article_content article);
     title_length := List.length (article_title article);
     has_keywords := match article_keywords article with [] => false | _ => true end;
     has_entities := match article_entities article with [] => false | _ => true end;
     keyword_count := List.length (article_keywords article);
     entity_count := List.length (article_entities article) |}.

(** The four weights, in the order of the keys of [scores]. *)
Definition weights : Scores :=
  {| readability := (2 # 10)%Q; completeness := (3 # 10)%Q;
     accuracy := (25 # 100)%Q; relevance := (25 # 100)%Q |}.

Definition calculate_quality_score (article : Article) : Res Quality :=
  (r <~ _calculate_readability (article_content article) ;;
   c <~ _calculate_completeness article ;;
   a <~ _calculate_accuracy article ;;
   v <~ _calculate_relevance article ;;
   let s := {| readability := r; completeness := c;
               accuracy := a; relevance := v |} in
   Ok {| overall_score :=
           py_sum [ (readability s * readability weights)%Q;
                    (completeness s * completeness weights)%Q;
                    (accuracy s * accuracy weights)%Q;
                    (relevance s * relevance weights)%Q ];
         scores := s;
         factors := _get_quality_factors article s |})%res.

End WithExternals.
End QualityProcessor.

(** The value one analysis leaves under its key of [results]. *)
Inductive analysis : Type :=
| SentimentResult (s : Sentiment)
| EntityResults (es : list Entity)
| KeywordResults (ks : list Keyword)
| QualityResult (q : Quality).

(** The dict [process_article] builds, its keys in insertion order. *)
Record Results : Type := {
  results_sentiment : Sentiment;
  results_entities : list Entity;
  results_keywords : list Keyword;
  results_quality : Quality
}.


(** The models the three analyzers of a [ProcessingManager] hold; the
    analyzers update their statistics in place. *)
Record Manager : Type := {
  sentiment_model : option SentimentModel;
  entity_extractor : option EntityExtractor;
  keyword_extractor : option KeywordExtractor
}.

(** The calls of the ORM in [_save_analysis_results]; each may write to the
    database and may raise. *)
Class Storage : Type := {
  (** [article.save()] with the fields assigned before it: sentiment score,
      keyword texts, entities and relevance score *)
  article_save : Article -> Q -> list str -> list Entity -> Q -> M unit;
  (** [Analysis.objects.update_or_create(article=..., analysis_type=...,
      defaults={result, confidence, processing_time})] *)
  analysis_update_or_create : Article -> str -> analysis -> Q -> Q -> M unit;
  (** [QualityScore.objects.update_or_create(article=..., defaults=...)] *)
  quality_update_or_create : Article -> Quality -> M unit
}.

(** Code that also updates the manager's models: the models as they are
    when an exception leaves are kept, like the world. *)
Definition MM (A : Type) : Type := Manager -> World -> Res A * Manager * World.

Module ProcessingManager.
Section WithExternals.
Context {ext : Externals} {bk : Backends} {orm : Orm} {db : Storage}.

Definition mret {A : Type} (a : A) : MM A := fun mgr w => (Ok a, mgr, w).

Definition mbind {A B : Type} (c : MM A) (k : A -> MM B) : MM B :=
  fun mgr w =>
    match c mgr w with
    | (Ok a, mgr', w') => k a mgr' w'
    | (Raise e, mgr', w') => (Raise e, mgr', w')
    end.

Definition mtry {A : Type} (c : MM A) (h : exn -> MM A) : MM A :=
  fun mgr w =>
    match c mgr w with
    | (Ok a, mgr', w') => (Ok a, mgr', w')
    | (Raise e, mgr', w') => h e mgr' w'
    end.

(** Code that leaves the models alone. *)
Definition of_M {A : Type} (c : M A) : MM A :=
  fun mgr w => let '(r, w') := c w in (r, mgr, w').

(** [self.sentiment_processor.analyze_sentiment(article.content)] and its
    two siblings, each on the model the manager holds. *)
Definition run_sentiment (text : str) (processing_time : Q) : MM Sentiment :=
  fun mgr w =>
    match SentimentProcessor.analyze_sentiment (sentiment_model mgr) text
            processing_time w with
    | (Ok (r, m), w') =>
        (Ok r,
         {| sentiment_model := m;
            entity_extractor := entity_extractor mgr;
            keyword_extractor := keyword_extractor mgr |}, w')
    | (Raise e, w') => (Raise e, mgr, w')
    end.

Definition run_entities (text : str) (processing_time : Q) : MM (list Entity) :=
  fun mgr w =>
    match EntityProcessor.extract_entities (entity_extractor mgr) text
            processing_time w with
    | (Ok (r, x), w') =>
        (Ok r,
         {| sentiment_model := sentiment_model mgr;
            entity_extractor := x;
            keyword_extractor := keyword_extractor mgr |}, w')
    | (Raise e, w') => (Raise e, mgr, w')
    end.

Definition run_keywords (text : str) (processing_time : Q) : MM (list Keyword) :=
  fun mgr w =>
    match KeywordProcessor.extract_keywords (keyword_extractor mgr) text
            processing_time w with
    | (Ok (r, x), w') =>
        (Ok r,
         {| sentiment_model := sentiment_model mgr;
            entity_extractor := entity_extractor mgr;
            keyword_extractor := x |}, w')
    | (Raise e, w') => (Raise e, mgr, w')
    end.

(** [results.items()] *)
Definition items (results : Results) : list (str * analysis) :=
  [ (u "sentiment", SentimentResult (results_sentiment results));
    (u "entities", EntityResults (results_entities results));
    (u "keywords", KeywordResults (results_keywords results));
    (u "quality", QualityResult (results_quality results)) ].

(** [result.get('confidence', 0.0)] and [result.get('processing_time', 0.0)]:
    [get] is a method of the two results that are dicts; the entities and
    the keywords are lists. *)
Definition result_get_confidence (result : analysis) : Res Q :=
  match result with
  | SentimentResult s => Ok (confidence s)
  | QualityResult _ => Ok 0%Q
  | EntityResults _ | KeywordResults _ => raise_of AttributeError
  end.

Definition result_get_processing_time (result : analysis) : Res Q :=
  match result with
  | SentimentResult _ | QualityResult _ => Ok 0%Q
  | EntityResults _ | KeywordResults _ => raise_of AttributeError
  end.

(** The loop over [results.items()]: the [defaults] are built before the
    call they are passed to. *)
Fixpoint save_analyses (article : Article) (rs : list (str * analysis))
  : M unit :=
  match rs with
  | [] => ret tt
  | (analysis_type, result) :: rest =>
      (c <- lift (result_get_confidence result) ;;
       t <- lift (result_get_processing_time result) ;;
       analysis_update_or_create article analysis_type result c t ;;;
       save_analyses article rest)%m
  end.

Definition _save_analysis_results (article : Article) (results : Results)
  : M unit :=
  atomic
    (article_save article
       (score (results_sentiment results))
       (map keyword_text (results_keywords results))
       (results_entities results)
       (overall_score (results_quality results)) ;;;
     save_analyses article (items results) ;;;
     quality_update_or_create article (results_quality results))%m.

(** [process_article] returns the results, or [None] for the empty dict of
    its handler. [times] are the processing times the three analyzers
    measure. *)
Definition process_article (article : Article) (times : Q * Q * Q)
  : MM (option Results) :=
  let '(t1, t2, t3) := times in
  mtry
    (mbind (run_sentiment (article_content article) t1) (fun sentiment_result =>
     mbind (run_entities (article_content article) t2) (fun entities =>
     mbind (run_keywords (article_content article) t3) (fun keywords =>
     mbind (of_M (lift (QualityProcessor.calculate_quality_score article)))
       (fun quality_result =>
     let results :=
       {| results_sentiment := sentiment_result;
          results_entities := entities;
          results_keywords := keywords;
          results_quality := quality_result |} in
     mbind (of_M (_save_analysis_results article results)) (fun _ =>
     mret (Some results)))))))
    (fun e => mbind (of_M (log (ProcessArticleFailed e))) (fun _ => mret None)).



End WithExternals.
End ProcessingManager.

(** ** Stand-ins for the outside world

    Simple instances of [Externals] and [Backends], used to run the
    embedding on concrete inputs. *)

Module Standins.

(** Lower case for Basic Latin and Latin-1 letters. *)
Definition latin1_lower (c : N) : N :=
  if ((65 <=? c) && (c <=? 90))%N then (c + 32)%N
  else if ((192 <=? c) && (c <=? 222) && negb (c =? 215))%N then (c + 32)%N
  else c.

Definition latin1_isupper (c : N) : bool :=
  ((65 <=? c) && (c <=? 90) || (192 <=? c) && (c <=? 222) && negb (c =? 215))%N.

(** A page is given already parsed: markup without tags is one text node. *)
Definition plain_text (markup : pyval) : Res node :=
  match markup with
  | VStr s =>
      if char_in 60%N s || char_in 38%N s then raise_of OtherException
      else Ok (Elem (u "[document]") [] [Text s])
  | _ => raise_of TypeError
  end.

Definition join_url (base href : str) : Res str :=
  Ok (if startswith href (u "http") then href else base ++ href).

Definition same_url (a b : pyval) : bool :=
  match a, b with
  | VStr x, VStr y => str_eqb x y
  | _, _ => false
  end.

(** The instance is built around the page the parser yields and the
    entries each feed holds. *)
Definition externals (page : node) (feeds : str -> Res (list pyval))
  : Externals :=
  {| lower := map latin1_lower;
     isupper := latin1_isupper;
     str_of := fun v => match v with VStr s => s | _ => [] end;
     BeautifulSoup := fun markup =>
       match markup with
       | VStr s => if str_eqb s (u "<page>") then Ok page else plain_text markup
       | _ => plain_text markup
       end;
     select := fun _ _ => Ok [];
     select_one := fun _ _ => Ok None;
     find_article_blocks := fun n =>
       filter (has_tag [u "article"; u "div"]) (descendants n);
     urljoin := join_url;
     strptime := fun _ _ => raise_of ValueError;
     feed_entries := feeds;
     entry_datetime := fun t =>
       match t with VInt z => Ok z | _ => raise_of TypeError end;
     re_search := fun _ _ => false;
     re_sub := fun _ pattern _ text =>
       match pattern with VStr _ => Ok text | _ => raise_of TypeError end;
     re_escape := fun word =>
       match word with VStr s => Ok s | _ => raise_of TypeError end;
     url_eqb := same_url |}.

Definition no_feeds : str -> Res (list pyval) := fun _ => Ok [].

Definition plain : Externals := externals (Text []) no_feeds.

(** No analyzer package is installed. *)
Definition no_backends : Backends :=
  {| vader_load := raise_of ImportError;
     textblob_load := raise_of ImportError;
     spacy_load := raise_of ImportError;
     re_finditer := fun _ _ => Ok [];
     tfidf_features := fun _ => raise_of ImportError;
     yake_extract := fun _ => raise_of ImportError;
     is_word_char := fun c =>
       ((48 <=? c) && (c <=? 57) || (65 <=? c) && (c <=? 90) ||
        (97 <=? c) && (c <=? 122) || (c =? 95) || (192 <=? c))%N |}.


(** Django as it is installed: a synchronous call of the ORM from a
    coroutine raises. *)
Definition guarded : Orm :=
  {| async_unsafe := raise_of SynchronousOnlyOperation;
     insert_log := fun _ => Ok tt;
     insert_article := fun _ => Ok tt;
     update_feed := fun _ => Ok tt |}.

(** Django with [DJANGO_ALLOW_ASYNC_UNSAFE] set and a database that takes
    every statement. *)
Definition unguarded : Orm :=
  {| async_unsafe := Ok tt;
     insert_log := fun _ => Ok tt;
     insert_article := fun _ => Ok tt;
     update_feed := fun _ => Ok tt |}.

(** The same, with a database that refuses the articles whose title is
    longer than [limit]. *)
Definition short_titles (limit : nat) : Orm :=
  {| async_unsafe := Ok tt;
     insert_log := fun _ => Ok tt;
     insert_article := fun c =>
       if limit <? List.length (title c) then raise_of OtherException
       else Ok tt;
     update_feed := fun _ => Ok tt |}.

(** Django 5.0 or later: [django.utils.timezone] has no [utc]. *)
Definition without_utc (ext : Externals) : Externals :=
  {| lower := @lower ext; isupper := @isupper ext; str_of := @str_of ext;
     BeautifulSoup := @BeautifulSoup ext; select := @select ext;
     select_one := @select_one ext;
     find_article_blocks := @find_article_blocks ext;
     urljoin := @urljoin ext; strptime := @strptime ext;
     feed_entries := @feed_entries ext;
     entry_datetime := fun t =>
       match @entry_datetime ext t with
       | Ok _ => raise_of AttributeError
       | Raise e => Raise e
       end;
     re_search := @re_search ext; re_sub := @re_sub ext;
     re_escape := @re_escape ext; url_eqb := @url_eqb ext |}.

(** A database that takes every write. *)
Definition accepting : Storage :=
  {| article_save := fun _ _ _ _ _ => ret tt;
     analysis_update_or_create := fun _ _ _ _ _ => ret tt;
     quality_update_or_create := fun _ _ => ret tt |}.

End Standins.

(** ** Reference definitions

    What a rule, a feed or a response contributes, written as plain
    functions; the properties below relate the code to them. *)

Section Reference.
Context {ext : Externals} {bk : Backends}.

(** What one rule leaves of the text: its result, or the text it was given
    when it raises. *)
Definition rule_or_skip (text : str) (rule : ProcessingRule) : str :=
  match BaseProcessor.apply_rule rule text with
  | Ok t => t
  | Raise _ => text
  end.

(** No analyzer stands behind the model for this text: there is no model,
    the model names neither package, the package cannot be loaded, or its
    analyzer raises. *)
Definition backend_unavailable (model : option SentimentModel) (text : str)
  : bool :=
  match model with
  | None => true
  | Some m =>
      if str_eqb (model_type m) (u "vader") then
        match vader_load with
        | Ok polarity_scores =>
            match polarity_scores text with Ok _ => false | Raise _ => true end
        | Raise _ => true
        end
      else if str_eqb (model_type m) (u "textblob") then
        match textblob_load with
        | Ok sentiment =>
            match sentiment text with Ok _ => false | Raise _ => true end
        | Raise _ => true
        end
      else true
  end.

(** The value [response_items] selects in a dict: that of the first key
    present among articles, items, results, data, else the empty list. *)
Definition first_present (d : list (str * pyval)) : pyval :=
  match lookup (u "articles") d with
  | Some v => v
  | None =>
      match lookup (u "items") d with
      | Some v => v
      | None =>
          match lookup (u "results") d with
          | Some v => v
          | None =>
              match lookup (u "data") d with
              | Some v => v
              | None => VList []
              end
          end
      end
  end.

(** What an entry contributes: its candidate, or nothing when the entry has
    no title or link or when reading it raises. *)
Definition entry_candidate (self : Collector) (entry : pyval) : option Candidate :=
  match RSSCollector.parse_rss_entry_body self entry with
  | Ok c => c
  | Raise _ => None
  end.

Definition valid_entry (self : Collector) (entry : pyval) : bool :=
  match entry_candidate self entry with Some _ => true | None => false end.

Definition kept (self : Collector) (entries : list pyval) : list Candidate :=
  flat_map (fun e => match entry_candidate self e with
                     | Some c => [c]
                     | None => []
                     end) entries.

(** What reading the entries sends to the logger: one error for each entry
    whose reading raises, in the order of the entries. *)
Definition entry_failures (self : Collector) (entries : list pyval)
  : list logged :=
  flat_map (fun e => match RSSCollector.parse_rss_entry_body self e with
                     | Raise x => [RssEntryFailed x]
                     | Ok _ => []
                     end) entries.

(** What a feed contributes: the candidates of its first [max_articles]
    entries, or nothing when the feed cannot be read. *)
Definition feed_candidates (self : Collector) (rss_feed : RSSFeed)
  : list Candidate :=
  match feed_entries (feed_url rss_feed) with
  | Ok entries => kept self (slice_to entries (max_articles (source self)))
  | Raise _ => []
  end.

(** A well-formed entry and its candidate, in the words of the spec and
    without reference to the parser: an entry with a title and a link
    yields a candidate "using entry summary/content for body and entry
    author/date fields, trying published then updated timestamps". Each
    field that is there has to be readable: a text is cleaned, a time is
    converted. *)
Definition entry_content (items : list (str * pyval)) (text : str) : Prop :=
  match lookup (u "summary") items with
  | Some s => BaseCollector.clean_text s = Ok text
  | None =>
      match lookup (u "content") items with
      | Some (VList (VDict first :: _)) =>
          exists v,
            lookup (u "value") first = Some v /\
            BaseCollector.clean_text v = Ok text
      | Some _ => False
      | None => text = []
      end
  end.

Definition entry_author (items : list (str * pyval)) (text : str) : Prop :=
  match lookup (u "author") items with
  | Some a => BaseCollector.clean_text a = Ok text
  | None => text = []
  end.

Definition entry_date (items : list (str * pyval)) (date : option Z) : Prop :=
  match lookup (u "published_parsed") items with
  | Some t => exists d, entry_datetime t = Ok d /\ date = Some d
  | None =>
      match lookup (u "updated_parsed") items with
      | Some t => exists d, entry_datetime t = Ok d /\ date = Some d
      | None => date = None
      end
  end.

Definition well_formed (entry : pyval) (c : Candidate) : Prop :=
  exists items raw_title,
    entry = VDict items /\
    lookup (u "title") items = Some raw_title /\
    BaseCollector.clean_text raw_title = Ok (title c) /\
    title c <> [] /\
    lookup (u "link") items = Some (url c) /\
    truthy (url c) = true /\
    entry_content items (content c) /\
    entry_author items (author c) /\
    entry_date items (published_date c).

(** What a list of entries contributes, by the spec: the candidate of each
    well-formed entry, in the order of the entries; an entry that is not
    well formed is skipped. *)
Inductive contributions : list pyval -> list Candidate -> Prop :=
| contributions_nil : contributions [] []
| contributions_valid (entry : pyval) (c : Candidate) rest cs :
    well_formed entry c -> contributions rest cs ->
    contributions (entry :: rest) (c :: cs)
| contributions_skip (entry : pyval) rest cs :
    (forall c, ~ well_formed entry c) -> contributions rest cs ->
    contributions (entry :: rest) cs.

End Reference.

(** ** Invariants *)

(** A computation that leaves the run records and the article table as
    they are; it may log. *)
Definition records_kept {A : Type} (c : M A) : Prop :=
  forall w,
    collection_logs (snd (c w)) = collection_logs w /\
    articles (snd (c w)) = articles w.

(** The outcome of a run that yields no candidate, stores nothing and
    records no success: the empty list or an exception, which is the
    [AttributeError] of the missing method or comes from the database; the
    only record the run may add is the error record of a fetch that raised,
    and that only where Django takes database calls from a coroutine. *)
Definition no_success_recorded {orm : Orm} (w : World)
  (run : Res (list Candidate) * World) : Prop :=
  (fst run = Ok [] \/ fst run = Raise (Exn AttributeError []) \/
   exists e, fst run = Raise e /\
             (async_unsafe = Raise e \/ exists row, insert_log row = Raise e)) /\
  articles (snd run) = articles w /\
  (collection_logs (snd run) = collection_logs w \/
   exists e,
     async_unsafe = Ok tt /\ fst run = Ok [] /\
     collection_logs (snd run)
     = collection_logs w ++
       [ {| log_status := error; articles_collected := 0;
            log_errors := [exn_str e] |} ]).

(** A candidate with a title and a URL. *)
Definition acceptable (c : Candidate) : Prop :=
  title c <> [] /\ truthy (url c) = true.

(** No character of the string is white space. *)
Definition spacefree (s : str) : Prop :=
  Forall (fun c => is_space c = false) s.

(** The string does not start with white space. *)
Definition edge_ok (s : str) : Prop :=
  match s with
  | [] => True
  | c :: _ => is_space c = false
  end.

(** The world with another article table, and whether the table holds an
    article of the candidate's URL. *)
Definition with_articles (w : World) (l : list Candidate) : World :=
  {| collection_logs := collection_logs w; logger := logger w;
     articles := l; feeds_saved := feeds_saved w;
     needs_rollback := needs_rollback w |}.

Definition stored (ext : Externals) (w : World) (a : Candidate) : bool :=
  existsb (fun x => url_eqb (url x) (url a)) (articles w).

(** The candidates of a list that are new to a table: those whose URL
    neither the table nor an earlier new candidate of the list holds. *)
Fixpoint fresh (ext : Externals) (table arts : list Candidate)
  : list Candidate :=
  match arts with
  | [] => []
  | a :: rest =>
      if existsb (fun x => url_eqb (url x) (url a)) table
      then fresh ext table rest
      else a :: fresh ext (table ++ [a]) rest
  end.

(** A list whose elements stand in another one, in the same order. *)
Inductive subsequence {A : Type} : list A -> list A -> Prop :=
| subsequence_nil : subsequence [] []
| subsequence_take (x : A) (l l' : list A) :
    subsequence l l' -> subsequence (x :: l) (x :: l')
| subsequence_skip (x : A) (l l' : list A) :
    subsequence l l' -> subsequence l (x :: l').

(** What the loop of [save_articles] logs for the candidates it meets
    after an INSERT has failed: Django refuses each of their queries. *)
Definition refused_after_failure (arts : list Candidate) : list logged :=
  map (fun _ => SaveFailed (Exn TransactionManagementError [])) arts.

(** Keywords in descending order of score. *)
Definition descending (a b : Keyword) : Prop :=
  (keyword_score b <= keyword_score a)%Q.

(** How many times the word stands in the list. *)
Definition occurrences (word : str) (words : list str) : nat :=
  List.length (filter (str_eqb word) words).

(** The keyword the fallback makes of a word of a text of [n] words. *)
Definition frequency_keyword (words : list str) (word : str) : Keyword :=
  {| keyword_text := word;
     keyword_score :=
       (inject_Z (Z.of_nat (occurrences word words)) /
        inject_Z (Z.of_nat (List.length words)))%Q;
     keyword_type := u "frequency" |}.

(** One turn of the counting loop of [_fallback_keywords]. *)
Definition count_word (word_freq : list (str * nat)) (word : str)
  : list (str * nat) :=
  if 3 <=? List.length word then KeywordProcessor.bump word word_freq
  else word_freq.

(** [word_freq.get(word, 0)] *)
Fixpoint freq (word : str) (word_freq : list (str * nat)) : nat :=
  match word_freq with
  | [] => 0
  | (w, n) :: rest => if str_eqb word w then n else freq word rest
  end.

(** The label of a sentiment agrees with the sign of its score. *)
Definition sign_agrees (s : Sentiment) : Prop :=
  match label s with
  | positive => (0 < score s)%Q
  | negative => (score s < 0)%Q
  | neutral => (Qabs (score s) < 5 # 100)%Q
  end.

(** An entity of the fallback: two consecutive words of the text, both
    capitalised and the first longer than two characters, joined by one
    space and looked up in the text. *)
Definition name_pair {ext : Externals} (text : str) (words : list str)
  (e : Entity) : Prop :=
  (exists before word next after,
     words = before ++ word :: next :: after /\
     EntityProcessor.first_isupper word = Ok true /\
     2 < List.length word /\
     EntityProcessor.first_isupper next = Ok true /\
     entity_text e = word ++ u " " ++ next) /\
  entity_type e = u "PERSON" /\
  entity_confidence e = (5 # 10)%Q /\
  entity_start e = find text (entity_text e) /\
  entity_end e = (entity_start e + Z.of_nat (List.length (entity_text e)))%Z.

(** Code of the manager that ends in an exception whatever the models and
    the world are, and code that leaves the run records and the article
    table as they are. *)
Definition always_raises {A : Type} (c : MM A) : Prop :=
  forall mgr w, exists e mgr' w', c mgr w = (Raise e, mgr', w').

Definition never_raises {A : Type} (c : MM A) : Prop :=
  forall mgr w, exists a mgr' w', c mgr w = (Ok a, mgr', w').

Definition raises_with {A : Type} (P : exn -> Prop) (c : MM A) : Prop :=
  forall mgr w,
    exists e mgr' w',
      c mgr w = (Raise e, mgr', w') /\ P e.

Definition tables_kept {A : Type} (c : MM A) : Prop :=
  forall mgr w,
    collection_logs (snd (c mgr w)) = collection_logs w /\
    articles (snd (c mgr w)) = articles w.

(** The statistics of a model after analyses that took the given times,
    one after the other. *)
Definition after_samples (s : Stats) (samples : list Q) : Stats :=
  fold_left update_stats samples s.

(** [a] lies between [x] and [y], whichever of the two is the larger. *)
Definition between (x y a : Q) : Prop :=
  (x <= a /\ a <= y)%Q \/ (y <= a /\ a <= x)%Q.

(** The mean the statistics hold, if it is read as one by
    [if avg_processing_time:], lies between the bounds. *)
Definition mean_within (lo hi : Q) (s : Stats) : Prop :=
  forall a, avg_processing_time s = Some a ->
            (a == 0)%Q \/ (lo <= a /\ a <= hi)%Q.

(** ** Sample sources, pages, feeds and responses *)

Definition headline : str :=
  u "Lucro da empresa cresceu e foi um sucesso incrível".

Definition headline_lower : str :=
  u "lucro da empresa cresceu e foi um sucesso incrível".

Definition site : NewsSource :=
  {| name := u "Jornal"; source_url := u "http://jornal.example";
     source_type := u "website"; max_articles := 50;
     scraping_config := None; config_cached := false;
     source_rss_feeds := [] |}.

Definition not_found : Response :=
  {| resp_status := 404; resp_text := Ok []; resp_json := Ok VNone |}.

Definition anchor (href text : string) : node :=
  Elem (u "a") [(u "href", u href)] [Text (u text)].

Definition front_page : node :=
  Elem (u "[document]") []
    [ anchor "/noticia/1" "Primeira manchete do dia";
      anchor "/" "Home";
      anchor "/noticia/2" "Segunda manchete do dia" ].

Definition block (href heading : string) : node :=
  Elem (u "article") [(u "class", u "post")]
    [ Elem (u "h2") [] [Text (u heading)]; anchor href "Leia mais" ].

Definition blocks_page : node :=
  Elem (u "[document]") []
    [ block "/a/1" "Primeira"; block "/a/2" "Segunda"; block "/a/3" "Terceira" ].

Definition page_response : Response :=
  {| resp_status := 200; resp_text := Ok (u "<page>"); resp_json := Ok VNone |}.

Definition one_article_site : NewsSource :=
  {| name := u "Jornal"; source_url := u "http://jornal.example";
     source_type := u "website"; max_articles := 1;
     scraping_config := None; config_cached := false;
     source_rss_feeds := [] |}.

Definition no_selectors : ScrapingConfig :=
  {| title_selector := []; content_selector := []; author_selector := [];
     date_selector := []; date_format := []; api_endpoint := [];
     api_key := []; api_headers := VDict [] |}.

Definition two_article_site : NewsSource :=
  {| name := u "Jornal"; source_url := u "http://jornal.example";
     source_type := u "website"; max_articles := 2;
     scraping_config := Some no_selectors; config_cached := false;
     source_rss_feeds := [] |}.

Definition negative_limit_site : NewsSource :=
  {| name := u "Jornal"; source_url := u "http://jornal.example";
     source_type := u "website"; max_articles := -1;
     scraping_config := Some no_selectors; config_cached := false;
     source_rss_feeds := [] |}.

(** [parse_html] of a collector over the page the stand-in parser yields. *)
Definition parse_page (src : NewsSource) (page : node)
  : Res (list Candidate) * World :=
  @WebsiteCollector.parse_html (Standins.externals page Standins.no_feeds)
    (WebsiteCollector.__init__ src (fun _ _ => Ok page_response))
    (u "<page>") empty_world.

Definition item_T : pyval :=
  VDict [ (u "title", VStr (u "T")); (u "url", VStr (u "http://x/1")) ].

Definition candidate_T : Candidate :=
  {| title := u "T"; url := VStr (u "http://x/1"); content := [];
     author := []; published_date := None |}.

Definition api_config : ScrapingConfig :=
  {| title_selector := []; content_selector := []; author_selector := [];
     date_selector := []; date_format := [];
     api_endpoint := u "http://api.example/v1/news";
     api_key := u "k"; api_headers := VDict [] |}.

Definition api_site : NewsSource :=
  {| name := u "Agencia"; source_url := u "http://api.example";
     source_type := u "api"; max_articles := 50;
     scraping_config := Some api_config; config_cached := false;
     source_rss_feeds := [] |}.




Definition bound (orm : Orm) (self : Collector) : Collector :=
  @with_save_articles Standins.plain orm self.

Definition feed_entry (heading link : string) : pyval :=
  VDict [ (u "title", VStr (u heading)); (u "link", VStr (u link));
          (u "summary", VStr (u "Resumo")) ].

(** An entry whose date could not be parsed: [published_parsed] is there
    and holds [None], on which [time.mktime] raises [TypeError]. *)
Definition malformed_entry : pyval :=
  VDict [ (u "title", VStr (u "Quarta")); (u "link", VStr (u "http://f/4"));
          (u "summary", VStr (u "Resumo")); (u "published_parsed", VNone) ].

Definition feed_of_four : list pyval :=
  [ feed_entry "Primeira" "http://f/1"; malformed_entry;
    feed_entry "Segunda" "http://f/2"; feed_entry "Terceira" "http://f/3" ].

Definition candidate_of (heading link : string) (date : option Z) : Candidate :=
  {| title := u heading; url := VStr (u link); content := u "Resumo";
     author := []; published_date := date |}.

(** An entry as feeds have them, with the time of its publication. *)
Definition dated_entry (heading link : string) : pyval :=
  VDict [ (u "title", VStr (u heading)); (u "link", VStr (u link));
          (u "summary", VStr (u "Resumo"));
          (u "published_parsed", VInt 1700000000) ].

Definition dated_feed : list pyval :=
  [ dated_entry "Primeira" "http://f/1"; malformed_entry;
    dated_entry "Segunda" "http://f/2"; dated_entry "Terceira" "http://f/3" ].

Definition dated_externals : Externals :=
  Standins.externals (Text []) (fun _ => Ok dated_feed).

Definition rss_site : NewsSource :=
  {| name := u "Diario"; source_url := u "http://f";
     source_type := u "rss"; max_articles := 50;
     scraping_config := None; config_cached := false;
     source_rss_feeds := [ {| feed_url := u "http://f/rss"; is_active := true |} ] |}.

Definition rss_externals : Externals :=
  Standins.externals (Text []) (fun _ => Ok feed_of_four).

(** The collector as [RSSCollector] builds it; its session is never used. *)
Definition rss_collector : Collector :=
  RSSCollector.__init__ rss_site (fun _ _ => raise_of ClientError).

Definition run_rss (orm : Orm) (self : Collector)
  : Res (list Candidate) * World :=
  @RSSCollector.collect rss_externals orm self empty_world.

(** A response whose body is a bare array. *)
Definition array_response : Response :=
  {| resp_status := 200; resp_text := Ok [];
     resp_json := Ok (VList [item_T]) |}.

(** Three candidates, two of them with the same URL. *)
Definition second_story : Candidate :=
  {| title := u "Um titulo"; url := VStr (u "http://x/2"); content := [];
     author := []; published_date := None |}.

Definition two_stories : list Candidate :=
  [candidate_T; second_story; candidate_T].

(** An article and a manager as [ProcessingManager()] builds it: the
    three analyzers without a model. *)
Definition story : Article :=
  {| article_title := headline;
     article_content := headline;
     article_author := u "Ana";
     article_published_date := None;
     article_url := u "https://example.com/lucro";
     article_keywords := [];
     article_entities := [] |}.


Definition new_manager : Manager :=
  {| sentiment_model := None;
     entity_extractor := None;
     keyword_extractor := None |}.

(** * Properties *)

(** ** The rule engine *)

Section RuleEngine.
Context {ext : Externals}.

Lemma apply_rules_cons (rule : ProcessingRule) (rest : list ProcessingRule)
  (text : str) (w : World) :
  exists w1,
    BaseProcessor.apply_rules (rule :: rest) text w =
    BaseProcessor.apply_rules rest (rule_or_skip text rule) w1 /\
    collection_logs w1 = collection_logs w /\ articles w1 = articles w.
Proof.
  unfold rule_or_skip. cbn [BaseProcessor.apply_rules].
  unfold bind, try_except, lift.
  destruct (BaseProcessor.apply_rule rule text) as [t | e].
  - exists w. auto.
  - cbn. eexists. split; [reflexivity | auto].
Qed.

End RuleEngine.

(** C9. For every text and every ordered rule list, [apply_rules] never
    raises to its caller: it returns a text, namely the one obtained by
    taking the rules in order, where a rule that raises is skipped and the
    next rule is applied to the last text that was successfully transformed;
    for the empty rule list the text comes back unchanged and nothing is
    logged. The only trace of a run is in the logger. *)
Theorem apply_rules_skips_failing_rules {ext : Externals}
  (rules : list ProcessingRule) (text : str) (w : World) :
  (exists w',
     BaseProcessor.apply_rules rules text w =
     (Ok (fold_left rule_or_skip rules text), w') /\
     collection_logs w' = collection_logs w /\ articles w' = articles w) /\
  (forall rule rest,
     rules = rule :: rest ->
     fold_left rule_or_skip rules text =
     fold_left rule_or_skip rest
       (match BaseProcessor.apply_rule rule text with
        | Ok t => t
        | Raise _ => text
        end)) /\
  BaseProcessor.apply_rules [] text w = (Ok text, w).
Proof.
  split; [| split].
  - revert text w.
    induction rules as [| rule rest IH]; intros text w.
    + exists w. repeat split.
    + destruct (apply_rules_cons rule rest text w) as (w1 & E & L1 & A1).
      destruct (IH (rule_or_skip text rule) w1) as (w' & E' & L' & A').
      exists w'. rewrite E, E'. repeat split; congruence.
  - intros rule rest ->. reflexivity.
  - reflexivity.
Qed.

(** ** The quality score *)

Section QualityScore.
Context {ext : Externals}.

Lemma Qle_bool_false (a b : Q) : Qle_bool a b = false -> (b < a)%Q.
Proof.
  intros H. apply Qnot_le_lt. intros L.
  apply Qle_bool_iff in L. congruence.
Qed.

Lemma py_min_cases (a b : Q) :
  (QualityProcessor.py_min a b = a /\ (a <= b)%Q) \/ (QualityProcessor.py_min a b = b /\ (b < a)%Q).
Proof.
  unfold QualityProcessor.py_min.
  destruct (Qle_bool a b) eqn:E.
  - left. split; [reflexivity | now apply Qle_bool_iff].
  - right. split; [reflexivity | now apply Qle_bool_false].
Qed.

Lemma py_max_cases (a b : Q) :
  (QualityProcessor.py_max a b = a /\ (b <= a)%Q) \/ (QualityProcessor.py_max a b = b /\ (a < b)%Q).
Proof.
  unfold QualityProcessor.py_max.
  destruct (Qle_bool b a) eqn:E.
  - left. split; [reflexivity | now apply Qle_bool_iff].
  - right. split; [reflexivity | now apply Qle_bool_false].
Qed.

(** The clamp of the readability and the capped ratios of the relevance. *)
Lemma clamp_bounds (x : Q) :
  (0 <= QualityProcessor.py_max 0 (QualityProcessor.py_min 1 x) <= 1)%Q.
Proof.
  destruct (py_min_cases 1 x) as [[E L] | [E L]];
    destruct (py_max_cases 0 (QualityProcessor.py_min 1 x)) as [[E' L'] | [E' L']];
    rewrite E' in *; rewrite ?E in *; lra.
Qed.

Lemma capped_bounds (x : Q) : (0 <= x)%Q -> (0 <= QualityProcessor.py_min 1 x <= 1)%Q.
Proof.
  intros H. destruct (py_min_cases 1 x) as [[E L] | [E L]]; rewrite E; lra.
Qed.

Lemma of_nat_nonneg (n : nat) : (0 <= QualityProcessor.of_nat n)%Q.
Proof.
  unfold QualityProcessor.of_nat, Qle. simpl. lia.
Qed.

Lemma of_nat_nonzero (n : nat) :
  n <> 0 -> Qeq_bool (QualityProcessor.of_nat n) 0 = false.
Proof.
  destruct n as [| n]; [congruence | reflexivity].
Qed.

Lemma div_of_nat (a : Q) (n : nat) :
  n <> 0 -> Py.div a (QualityProcessor.of_nat n) = Ok (a / QualityProcessor.of_nat n)%Q.
Proof.
  intros H. unfold Py.div. now rewrite of_nat_nonzero.
Qed.

(** [re.split] always yields at least one piece. *)
Lemma split_runs_nonempty (d : N -> bool) (t : str) :
  forall cur in_run, 1 <= List.length (split_runs d cur in_run t).
Proof.
  induction t as [| c t IH]; intros cur in_run; simpl.
  - lia.
  - destruct (d c); [destruct in_run |]; simpl; auto with arith.
Qed.

Lemma flesch_defined (words sentences syllables : nat) :
  sentences <> 0 -> words <> 0 ->
  QualityProcessor.flesch words sentences syllables =
  Ok ((206835 # 1000)
      - (1015 # 1000) * (QualityProcessor.of_nat words / QualityProcessor.of_nat sentences)
      - (846 # 10) * (QualityProcessor.of_nat syllables / QualityProcessor.of_nat words))%Q.
Proof.
  intros Hs Hw. unfold QualityProcessor.flesch.
  rewrite !div_of_nat by assumption. reflexivity.
Qed.

End QualityScore.

(** C8. The readability computation never divides by zero: for every text it
    returns a number; this number is 0 for the empty string and whenever the
    sentence count or the word count is zero (the sentence count, the
    number of pieces [re.split] yields, is in fact never zero); otherwise
    both divisors of the Flesch-type formula are strictly positive and the
    result is the formula's value, divided by 100 and clamped to [0,1]. *)
Theorem readability_never_divides_by_zero {ext : Externals} (text : str) :
  let sentences := List.length (re_split QualityProcessor.sentence_end text) in
  let words := List.length (split text) in
  let syllables := QualityProcessor._count_syllables text in
  exists q,
    QualityProcessor._calculate_readability text = Ok q /\
    1 <= sentences /\
    (text = [] -> q = 0%Q) /\
    (sentences = 0 \/ words = 0 -> q = 0%Q) /\
    (text <> [] -> sentences <> 0 -> words <> 0 ->
     0 < sentences /\ 0 < words /\
     Py.div (QualityProcessor.of_nat words) (QualityProcessor.of_nat sentences) =
       Ok (QualityProcessor.of_nat words / QualityProcessor.of_nat sentences)%Q /\
     Py.div (QualityProcessor.of_nat syllables) (QualityProcessor.of_nat words) =
       Ok (QualityProcessor.of_nat syllables / QualityProcessor.of_nat words)%Q /\
     q = QualityProcessor.py_max 0 (QualityProcessor.py_min 1
           (((206835 # 1000)
             - (1015 # 1000) * (QualityProcessor.of_nat words / QualityProcessor.of_nat sentences)
             - (846 # 10) * (QualityProcessor.of_nat syllables / QualityProcessor.of_nat words))
            / 100))%Q).
Proof.
  intros sentences words syllables.
  assert (Hpieces : 1 <= sentences) by apply split_runs_nonempty.
  unfold QualityProcessor._calculate_readability.
  fold sentences words syllables.
  destruct text as [| c text'] eqn:Et.
  - exists 0%Q. split; [reflexivity |]. split; [exact Hpieces |].
    split; [auto |]. split; [auto |].
    intros Hne. exfalso. apply Hne. reflexivity.
  - cbn [nonempty negb].
    destruct (Nat.eqb_spec sentences 0) as [Hs | Hs];
      [| destruct (Nat.eqb_spec words 0) as [Hw | Hw]]; cbn [orb].
    + exists 0%Q. split; [reflexivity |]. split; [exact Hpieces |].
      split; [congruence |]. split; [auto | congruence].
    + exists 0%Q. split; [reflexivity |]. split; [exact Hpieces |].
      split; [congruence |]. split; [auto | congruence].
    + rewrite flesch_defined by assumption. cbn [rbind].
      eexists. split; [reflexivity |]. split; [exact Hpieces |].
      split; [congruence |]. split; [intros [E | E]; congruence |].
      intros _ _ _. repeat split; try lia; now apply div_of_nat.
Qed.

Section SubScores.
Context {ext : Externals}.

Lemma readability_bounds (text : str) :
  exists r, QualityProcessor._calculate_readability text = Ok r /\ (0 <= r <= 1)%Q.
Proof.
  unfold QualityProcessor._calculate_readability.
  destruct text as [| c t]; [exists 0%Q; split; [reflexivity | lra] |].
  cbn [nonempty negb].
  destruct (Nat.eqb_spec (List.length (re_split QualityProcessor.sentence_end (c :: t))) 0)
    as [Hs | Hs]; [exists 0%Q; split; [reflexivity | lra] |].
  destruct (Nat.eqb_spec (List.length (split (c :: t))) 0) as [Hw | Hw];
    [exists 0%Q; split; [reflexivity | lra] |].
  cbn [orb]. rewrite flesch_defined by assumption. cbn [rbind].
  eexists. split; [reflexivity | apply clamp_bounds].
Qed.

(** The mean of five presence checks is one of 0, 1/5, ..., 1. *)
Lemma completeness_bounds (article : Article) :
  exists c, QualityProcessor._calculate_completeness article = Ok c /\
            (0 <= c <= 1)%Q /\
            In c [0 / 5; 1 / 5; 2 / 5; 3 / 5; 4 / 5; 5 / 5]%Q.
Proof.
  unfold QualityProcessor._calculate_completeness.
  destruct (nonempty (article_title article) &&
            (10 <? List.length (article_title article)));
  destruct (nonempty (article_content article) &&
            (100 <? List.length (article_content article)));
  destruct (nonempty (article_author article));
  destruct (article_published_date article);
  destruct (nonempty (article_url article));
  (eexists; split; [vm_compute; reflexivity |];
   split; [split; unfold Qle; simpl; lia | vm_compute; tauto]).
Qed.

(** The mean of four pattern checks is one of 0, 1/4, ..., 1. *)
Lemma accuracy_bounds (article : Article) :
  exists a, QualityProcessor._calculate_accuracy article = Ok a /\
            (0 <= a <= 1)%Q.
Proof.
  unfold QualityProcessor._calculate_accuracy.
  destruct (re_search (u "\d{1,2}[/-]\d{1,2}[/-]\d{2,4}") (article_content article));
  destruct (re_search (u "\d+") (article_content article));
  destruct (re_search (u "\b[A-Z][a-z]+ [A-Z][a-z]+\b") (article_content article));
  destruct (contains [34%N] (article_content article));
  (eexists; split; [vm_compute; reflexivity |];
   split; unfold Qle; simpl; lia).
Qed.

Lemma ratio_nonneg (n : nat) (d : Q) :
  (0 < d)%Q -> (0 <= QualityProcessor.of_nat n / d)%Q.
Proof.
  intros Hd. apply Qle_shift_div_l; [exact Hd |].
  rewrite Qmult_0_l. apply of_nat_nonneg.
Qed.

Lemma relevance_bounds (article : Article) :
  exists v, QualityProcessor._calculate_relevance article = Ok v /\
            (0 <= v <= 1)%Q.
Proof.
  unfold QualityProcessor._calculate_relevance, QualityProcessor.mean.
  set (k := match article_keywords article with
            | [] => 0%Q
            | _ :: _ =>
                QualityProcessor.py_min 1
                  (QualityProcessor.of_nat (List.length (article_keywords article)) / 10)
            end).
  set (e := match article_entities article with
            | [] => 0%Q
            | _ :: _ =>
                QualityProcessor.py_min 1
                  (QualityProcessor.of_nat (List.length (article_entities article)) / 5)
            end).
  assert (Hk : (0 <= k <= 1)%Q).
  { unfold k. destruct (article_keywords article); [lra |].
    apply capped_bounds, ratio_nonneg. reflexivity. }
  assert (He : (0 <= e <= 1)%Q).
  { unfold e. destruct (article_entities article); [lra |].
    apply capped_bounds, ratio_nonneg. reflexivity. }
  exists ((0 + k + e) / QualityProcessor.of_nat 2)%Q. split.
  - unfold k, e.
    destruct (article_keywords article); destruct (article_entities article);
      reflexivity.
  - change (QualityProcessor.of_nat 2) with 2%Q.
    split; [apply Qle_shift_div_l | apply Qle_shift_div_r]; lra.
Qed.

End SubScores.

(** C7. For every article the quality score is defined, and its overall
    score is the dot product of the four sub-scores (readability,
    completeness, accuracy, relevance) with the fixed weights 0.20, 0.30,
    0.25 and 0.25; the weights sum to 1, each sub-score lies in [0,1], and so
    does the overall score. *)
Theorem quality_overall_is_weighted_sum {ext : Externals} (article : Article) :
  exists q : Quality,
    QualityProcessor.calculate_quality_score article = Ok q /\
    QualityProcessor._calculate_readability (article_content article)
      = Ok (readability (scores q)) /\
    QualityProcessor._calculate_completeness article = Ok (completeness (scores q)) /\
    QualityProcessor._calculate_accuracy article = Ok (accuracy (scores q)) /\
    QualityProcessor._calculate_relevance article = Ok (relevance (scores q)) /\
    (overall_score q ==
       readability (scores q) * (20 # 100) + completeness (scores q) * (30 # 100)
       + accuracy (scores q) * (25 # 100) + relevance (scores q) * (25 # 100))%Q /\
    (readability QualityProcessor.weights == 20 # 100)%Q /\
    (completeness QualityProcessor.weights == 30 # 100)%Q /\
    (accuracy QualityProcessor.weights == 25 # 100)%Q /\
    (relevance QualityProcessor.weights == 25 # 100)%Q /\
    (readability QualityProcessor.weights + completeness QualityProcessor.weights
     + accuracy QualityProcessor.weights + relevance QualityProcessor.weights == 1)%Q /\
    (0 <= readability (scores q) <= 1)%Q /\
    (0 <= completeness (scores q) <= 1)%Q /\
    (0 <= accuracy (scores q) <= 1)%Q /\
    (0 <= relevance (scores q) <= 1)%Q /\
    (0 <= overall_score q <= 1)%Q.
Proof.
  destruct (readability_bounds (article_content article)) as (r & Er & Hr).
  destruct (completeness_bounds article) as (c & Ec & Hc & _).
  destruct (accuracy_bounds article) as (a & Ea & Ha).
  destruct (relevance_bounds article) as (v & Ev & Hv).
  unfold QualityProcessor.calculate_quality_score.
  rewrite Er, Ec, Ea, Ev. cbn [rbind].
  eexists. split; [reflexivity |].
  cbn [scores readability completeness accuracy relevance overall_score
       QualityProcessor.weights QualityProcessor.py_sum fold_left].
  repeat (split; [first [reflexivity | lra] |]).
  lra.
Qed.

(** ** The analyzers *)

Section Substrings.

Lemma startswith_spec (p : str) :
  forall s, startswith s p = true <-> exists post, s = p ++ post.
Proof.
  induction p as [| x p IH]; intros s; simpl.
  - split; [intros _; exists s; reflexivity | reflexivity].
  - destruct s as [| y s]; simpl.
    + split; [discriminate | intros [post E]; discriminate].
    + rewrite andb_true_iff, N.eqb_eq, IH. split.
      * intros [-> [post ->]]. exists post. reflexivity.
      * intros [post E]. injection E as -> ->. split; [reflexivity | eauto].
Qed.

(** [contains sub s] holds exactly when [sub] is a contiguous part of [s],
    wherever it starts and whatever surrounds it. *)
Lemma contains_spec (sub : str) :
  forall s, contains sub s = true <-> exists pre post, s = pre ++ sub ++ post.
Proof.
  induction s as [| y s IH].
  - simpl. rewrite orb_false_r, startswith_spec. split.
    + intros [post E]. exists [], post. exact E.
    + intros (pre & post & E). destruct pre as [| z pre]; [| discriminate].
      exists post. exact E.
  - cbn [contains]. rewrite orb_true_iff, startswith_spec, IH. split.
    + intros [[post E] | (pre & post & E)].
      * exists [], post. exact E.
      * exists (y :: pre), post. rewrite E. reflexivity.
    + intros (pre & post & E). destruct pre as [| z pre].
      * left. exists post. exact E.
      * right. injection E as -> E. exists pre, post. exact E.
Qed.

Lemma sum_of_ones {A : Type} (l : list A) :
  forall n, fold_left Nat.add (map (fun _ => 1) l) n = n + List.length l.
Proof.
  induction l as [| x l IH]; intros n; simpl.
  - lia.
  - rewrite IH. lia.
Qed.

(** The generator sum counts the lexicon words that occur in the text, each
    word once. *)
Lemma count_words_filter (words : list str) (text_lower : str) :
  SentimentProcessor.count_words words text_lower =
  List.length (filter (fun word => contains word text_lower) words).
Proof.
  unfold SentimentProcessor.count_words. now rewrite sum_of_ones.
Qed.

Lemma count_words_bound (words : list str) (text_lower : str) :
  SentimentProcessor.count_words words text_lower <= List.length words.
Proof.
  rewrite count_words_filter.
  induction words as [| w words IH]; simpl; [lia |].
  destruct (contains w text_lower); simpl; lia.
Qed.

Lemma positive_words_distinct : NoDup SentimentProcessor.positive_words.
Proof. repeat constructor; vm_compute; intuition discriminate. Qed.

Lemma negative_words_distinct : NoDup SentimentProcessor.negative_words.
Proof. repeat constructor; vm_compute; intuition discriminate. Qed.

End Substrings.

(** C10. In the fallback sentiment algorithm the positive and negative
    counts are the numbers of distinct lexicon words that occur as substrings
    of the lowercased text: the lexicons hold 12 distinct words each, a word
    counts once however often it occurs, a lexicon word inside a longer word
    still matches ("problemas" triggers "problema"), and so neither count
    exceeds 12 whatever the length of the text. *)
Theorem fallback_counts_distinct_lexicon_words {ext : Externals} (text : str) :
  let text_lower := lower text in
  let positive_count :=
    SentimentProcessor.count_words SentimentProcessor.positive_words text_lower in
  let negative_count :=
    SentimentProcessor.count_words SentimentProcessor.negative_words text_lower in
  details (SentimentProcessor._fallback_sentiment text)
    = WordCounts positive_count negative_count /\
  positive_count =
    List.length (filter (fun word => contains word text_lower)
                   SentimentProcessor.positive_words) /\
  negative_count =
    List.length (filter (fun word => contains word text_lower)
                   SentimentProcessor.negative_words) /\
  (forall word, contains word text_lower = true <->
                exists pre post, text_lower = pre ++ word ++ post) /\
  NoDup SentimentProcessor.positive_words /\
  NoDup SentimentProcessor.negative_words /\
  List.length SentimentProcessor.positive_words = 12 /\
  List.length SentimentProcessor.negative_words = 12 /\
  positive_count <= 12 /\ negative_count <= 12 /\
  SentimentProcessor.count_words SentimentProcessor.negative_words
    (u "erro, erro e mais erro") = 1 /\
  contains (u "problema") (u "problemas") = true /\
  SentimentProcessor.count_words SentimentProcessor.negative_words
    (u "problemas") = 1.
Proof.
  intros text_lower positive_count negative_count.
  split.
  { unfold SentimentProcessor._fallback_sentiment.
    fold text_lower. fold positive_count. fold negative_count.
    destruct (negative_count <? positive_count);
      [| destruct (positive_count <? negative_count)]; reflexivity. }
  split; [apply count_words_filter |].
  split; [apply count_words_filter |].
  split; [intros word; apply contains_spec |].
  split; [apply positive_words_distinct |].
  split; [apply negative_words_distinct |].
  split; [reflexivity |]. split; [reflexivity |].
  split; [apply (count_words_bound SentimentProcessor.positive_words) |].
  split; [apply (count_words_bound SentimentProcessor.negative_words) |].
  repeat split; vm_compute; reflexivity.
Qed.

Section Sentiment.
Context {ext : Externals} {bk : Backends}.

Lemma unavailable_uses_fallback (model : option SentimentModel) (text : str)
  (processing_time : Q) (w : World) :
  text <> [] ->
  backend_unavailable model text = true ->
  exists model' w',
    SentimentProcessor.analyze_sentiment model text processing_time w =
    (Ok (SentimentProcessor._fallback_sentiment text, model'), w').
Proof.
  intros Hne Hun.
  unfold SentimentProcessor.analyze_sentiment,
    SentimentProcessor._analyze_vader, SentimentProcessor._analyze_textblob.
  generalize (SentimentProcessor._fallback_sentiment text). intros fb.
  destruct text as [| c t]; [congruence |]. cbn [nonempty negb].
  destruct model as [m |]; [| eexists; eexists; reflexivity].
  unfold backend_unavailable in Hun.
  unfold try_except, bind, ret, lift, log.
  destruct (str_eqb (model_type m) (u "vader")).
  - destruct vader_load as [f | e].
    + destruct (f (c :: t)); [discriminate |].
      eexists; eexists; reflexivity.
    + destruct (is_class ImportError e); eexists; eexists; reflexivity.
  - destruct (str_eqb (model_type m) (u "textblob")).
    + destruct textblob_load as [f | e].
      * destruct (f (c :: t)); [discriminate |].
        eexists; eexists; reflexivity.
      * destruct (is_class ImportError e); eexists; eexists; reflexivity.
    + eexists; eexists; reflexivity.
Qed.

Lemma fallback_by_counts (text : str) :
  let p := SentimentProcessor.count_words SentimentProcessor.positive_words (lower text) in
  let n := SentimentProcessor.count_words SentimentProcessor.negative_words (lower text) in
  let r := SentimentProcessor._fallback_sentiment text in
  confidence r = (5 # 10)%Q /\
  (n < p -> score r = (3 # 10)%Q /\ label r = positive) /\
  (p < n -> score r = (- (3 # 10))%Q /\ label r = negative) /\
  (p = n -> score r = 0%Q /\ label r = neutral).
Proof.
  intros p n r. unfold r, SentimentProcessor._fallback_sentiment.
  fold p. fold n. clearbody p n. clear r.
  destruct (Nat.ltb_spec n p) as [L | L];
    [| destruct (Nat.ltb_spec p n) as [L' | L']];
    cbn [score label confidence];
    (split; [reflexivity |]); (split; [| split]); intros H;
    first [lia | split; reflexivity].
Qed.

End Sentiment.

(** C5, as the code has it. For every non-empty text, when no sentiment
    model is configured or its backend is unavailable, the analysis returns
    the lexicon-count fallback: score 0.3 and label positive when the
    positive count exceeds the negative count, -0.3 and negative when the
    negative count exceeds the positive, 0 and neutral on a tie, always with
    confidence 0.5; a text whose lower case is "lucro da empresa cresceu e foi
    um sucesso incrível" has 3 positive hits and no negative one, hence score
    0.3, label positive, confidence 0.5. *)
Theorem fallback_sentiment_for_nonempty_text {ext : Externals} {bk : Backends}
  (model : option SentimentModel) (text : str) (processing_time : Q) (w : World) :
  text <> [] ->
  backend_unavailable model text = true ->
  let p := SentimentProcessor.count_words SentimentProcessor.positive_words (lower text) in
  let n := SentimentProcessor.count_words SentimentProcessor.negative_words (lower text) in
  exists r model' w',
    SentimentProcessor.analyze_sentiment model text processing_time w
      = (Ok (r, model'), w') /\
    r = SentimentProcessor._fallback_sentiment text /\
    confidence r = (5 # 10)%Q /\
    (n < p -> score r = (3 # 10)%Q /\ label r = positive) /\
    (p < n -> score r = (- (3 # 10))%Q /\ label r = negative) /\
    (p = n -> score r = 0%Q /\ label r = neutral) /\
    (lower text = headline_lower ->
     p = 3 /\ n = 0 /\
     r = {| score := (3 # 10)%Q; label := positive; confidence := (5 # 10)%Q;
            details := WordCounts 3 0 |}).
Proof.
  intros Hne Hun p n.
  destruct (unavailable_uses_fallback model text processing_time w Hne Hun)
    as (model' & w' & E).
  destruct (fallback_by_counts text) as (Hc & Hp & Hn & Ht).
  exists (SentimentProcessor._fallback_sentiment text), model', w'.
  split; [exact E |]. split; [reflexivity |].
  split; [exact Hc |]. split; [exact Hp |]. split; [exact Hn |].
  split; [exact Ht |].
  intros Hl. unfold p, n, SentimentProcessor._fallback_sentiment.
  rewrite Hl. vm_compute. auto.
Qed.

(** The headline of the scenario, with no model configured and no package
    installed. *)
Lemma fallback_sentiment_headline :
  headline <> [] /\
  @backend_unavailable Standins.no_backends None headline = true /\
  exists r model' w',
    @SentimentProcessor.analyze_sentiment Standins.plain Standins.no_backends
      None headline 0%Q empty_world = (Ok (r, model'), w') /\
    r = {| score := (3 # 10)%Q; label := positive; confidence := (5 # 10)%Q;
           details := WordCounts 3 0 |}.
Proof.
  assert (Hne : headline <> []) by (vm_compute; discriminate).
  assert (Hun : @backend_unavailable Standins.no_backends None headline = true)
    by reflexivity.
  split; [exact Hne |]. split; [exact Hun |].
  destruct (@fallback_sentiment_for_nonempty_text Standins.plain
              Standins.no_backends None headline 0%Q empty_world Hne Hun)
    as (r & model' & w' & E & _ & _ & _ & _ & _ & Hh).
  exists r, model', w'. split; [exact E |].
  apply Hh. vm_compute. reflexivity.
Defined.

(** The empty text is not analysed by the fallback: its result has
    confidence 0, where the fallback would answer 0.5. *)
Lemma empty_text_bypasses_fallback :
  @SentimentProcessor.analyze_sentiment Standins.plain Standins.no_backends
    None [] 0%Q empty_world
  = (Ok ({| score := 0%Q; label := neutral; confidence := 0%Q;
            details := NoDetails |}, None), empty_world) /\
  confidence (@SentimentProcessor._fallback_sentiment Standins.plain [])
  = (5 # 10)%Q.
Proof. split; reflexivity. Qed.

(** C6. For the empty text each analyzer returns its neutral, empty
    zero-confidence result without consulting any backend: whatever model or
    extractor is configured and whatever the packages would answer, sentiment
    is score 0, label neutral, confidence 0, the entity list and the keyword
    list are empty, the model's statistics are untouched and nothing is
    logged. *)
Theorem empty_text_neutral_results {ext : Externals} {bk : Backends}
  (model : option SentimentModel) (entities : option EntityExtractor)
  (keywords : option KeywordExtractor) (processing_time : Q) (w : World) :
  SentimentProcessor.analyze_sentiment model [] processing_time w
    = (Ok ({| score := 0%Q; label := neutral; confidence := 0%Q;
              details := NoDetails |}, model), w) /\
  EntityProcessor.extract_entities entities [] processing_time w
    = (Ok ([], entities), w) /\
  KeywordProcessor.extract_keywords keywords [] processing_time w
    = (Ok ([], keywords), w).
Proof.
  split; [| split].
  - unfold SentimentProcessor.analyze_sentiment. reflexivity.
  - unfold EntityProcessor.extract_entities. reflexivity.
  - unfold KeywordProcessor.extract_keywords. reflexivity.
Qed.

(** ** The collectors *)

Section StoreLemmas.
Context {ext : Externals} {orm : Orm}.

Lemma in_transaction_same (w : World) : in_transaction w (needs_rollback w) = w.
Proof. destruct w. reflexivity. Qed.

(** The loop of [save_articles] never raises; it writes to the article
    table and to the logger only. *)
Lemma save_each_total (src : NewsSource) (arts : list Candidate) :
  forall (n : Z) (w : World),
  exists (m : Z) (w' : World),
    save_each arts src n w = (Ok m, w') /\
    collection_logs w' = collection_logs w /\
    feeds_saved w' = feeds_saved w.
Proof.
  induction arts as [| a rest IH]; intros n w.
  - exists n, w. repeat split.
  - cbn [save_each]. unfold bind at 1. unfold try_except, bind, url_exists.
    destruct (needs_rollback w) eqn:B.
    + unfold broken_transaction, raise_of, log, ret.
      destruct (IH n (with_logged w (SaveFailed (Exn TransactionManagementError []))))
        as (m & w' & -> & L & F).
      exists m, w'. auto.
    + destruct (existsb (fun x => url_eqb (url x) (url a)) (articles w)).
      * unfold ret. destruct (IH n w) as (m & w' & -> & L & F).
        exists m, w'. auto.
      * unfold add_article. rewrite B.
        destruct (insert_article a) as [[] | e]; unfold ret, log.
        -- match goal with
           | |- context [save_each rest src ?k ?w0] =>
               destruct (IH k w0) as (m & w' & -> & L & F)
           end.
           exists m, w'. auto.
        -- match goal with
           | |- context [save_each rest src ?k ?w0] =>
               destruct (IH k w0) as (m & w' & -> & L & F)
           end.
           exists m, w'. auto.
Qed.

(** Inside a coroutine the transaction cannot be entered: [save_articles]
    raises what the check for an event loop raises and stores nothing. *)
Lemma save_articles_guarded (src : NewsSource) (arts : list Candidate)
  (e : exn) (w : World) :
  async_unsafe = Raise e -> save_articles arts src w = (Raise e, w).
Proof. intros H. unfold save_articles, atomic. rewrite H. reflexivity. Qed.

(** Once the transaction is entered [save_articles] returns; the run
    records, the feeds and the flag of the connection are as before. *)
Lemma save_articles_total (src : NewsSource) (arts : list Candidate)
  (w : World) :
  async_unsafe = Ok tt ->
  exists (m : Z) (w' : World),
    save_articles arts src w = (Ok m, w') /\
    collection_logs w' = collection_logs w /\
    feeds_saved w' = feeds_saved w /\
    needs_rollback w' = needs_rollback w.
Proof.
  intros H. unfold save_articles, atomic. rewrite H.
  destruct (save_each_total src arts 0 (in_transaction w false))
    as (m & w' & -> & L & F).
  eexists; eexists. split; [reflexivity |].
  destruct (needs_rollback w'); cbn; auto.
Qed.

Lemma save_articles_nil (src : NewsSource) (w : World) :
  async_unsafe = Ok tt -> save_articles [] src w = (Ok 0%Z, w).
Proof.
  intros H. unfold save_articles, atomic. rewrite H.
  destruct w. reflexivity.
Qed.

(** [log_collection] writes its row, or raises what the check for an event
    loop or the INSERT raises and writes nothing. *)
Lemma log_collection_cases (self : Collector) (status : Status) (n : Z)
  (errors : option (list str)) (w : World) :
  let row := {| log_status := status; articles_collected := n;
                log_errors := match errors with Some l => l | None => [] end |} in
  BaseCollector.log_collection self status n errors w =
  match async_unsafe with
  | Raise e => (Raise e, w)
  | Ok _ =>
      match insert_log row with
      | Raise e => (Raise e, w)
      | Ok _ => (Ok tt, with_record w row)
      end
  end.
Proof.
  intros row. unfold BaseCollector.log_collection, bind, lift. fold row.
  destruct async_unsafe as [[] | e]; [| reflexivity].
  destruct (insert_log row) as [[] | e]; reflexivity.
Qed.

(** A fetch that raises: the handler logs it and calls [log_collection],
    whose outcome decides that of the run. *)
Lemma website_fetch_exception (self : Collector) (e : exn) (w : World) :
  session_get self (source_url (source self)) None = Raise e ->
  WebsiteCollector.collect self w =
  match BaseCollector.log_collection self error 0 (Some [exn_str e])
          (with_logged w (CollectFailed e)) with
  | (Ok _, w') => (Ok [], w')
  | (Raise e', w') => (Raise e', w')
  end.
Proof.
  intros H. unfold WebsiteCollector.collect.
  unfold bind at 1. unfold try_except. unfold bind at 1, lift at 1.
  rewrite H. unfold bind at 1, log at 1. unfold bind at 1.
  destruct (BaseCollector.log_collection self error 0 (Some [exn_str e])
              (with_logged w (CollectFailed e))) as [[[] | e'] w']; reflexivity.
Qed.

Lemma api_fetch_exception (self : Collector) (cfg : ScrapingConfig)
  (headers : pyval) (e : exn) (w : World) :
  config self = Some cfg ->
  api_endpoint cfg <> [] ->
  APICollector.request_headers cfg = Ok headers ->
  session_get self (api_endpoint cfg) (Some headers) = Raise e ->
  APICollector.collect self w =
  match BaseCollector.log_collection self error 0 (Some [exn_str e])
          (with_logged w (CollectFailed e)) with
  | (Ok _, w') => (Ok [], w')
  | (Raise e', w') => (Raise e', w')
  end.
Proof.
  intros Hc He Hh H. unfold APICollector.collect. rewrite Hc.
  destruct (api_endpoint cfg) as [| c endpoint] eqn:Ee; [congruence |].
  cbn [nonempty negb].
  unfold bind at 1. unfold try_except. unfold bind at 1, lift at 1.
  rewrite Hh. unfold bind at 1, lift at 1. rewrite H.
  unfold bind at 1, log at 1. unfold bind at 1.
  destruct (BaseCollector.log_collection self error 0 (Some [exn_str e])
              (with_logged w (CollectFailed e))) as [[[] | e'] w']; reflexivity.
Qed.

End StoreLemmas.

(** C1, at the inputs where the code departs from it. A Website run whose
    fetch returns a response with a status other than 200 (404, say) writes
    no record with status error: the collector as the class builds it raises
    [AttributeError] after logging the status and leaves no record at all.
    With [save_articles] bound the run is recorded as a success with zero
    articles and an empty error list where Django lets a coroutine call the
    ORM, and raises [SynchronousOnlyOperation] without any record where it
    does not. An API run without configuration returns the empty list and
    leaves no record either. *)
Theorem failed_fetch_without_error_record {ext : Externals} {orm : Orm}
  (self : Collector) (response : Response) (w : World) :
  session_get self (source_url (source self)) None = Ok response ->
  resp_status response <> 200%Z ->
  (attr_save_articles self = None ->
   WebsiteCollector.collect self w =
   (Raise (Exn AttributeError []),
    with_logged w (HttpStatusError (resp_status response)))) /\
  (async_unsafe = Ok tt ->
   insert_log {| log_status := success; articles_collected := 0;
                 log_errors := [] |} = Ok tt ->
   WebsiteCollector.collect (with_save_articles self) w =
   (Ok [],
    with_record (with_logged w (HttpStatusError (resp_status response)))
      {| log_status := success; articles_collected := 0; log_errors := [] |})) /\
  (forall e,
     async_unsafe = Raise e ->
     WebsiteCollector.collect (with_save_articles self) w =
     (Raise e, with_logged w (HttpStatusError (resp_status response)))) /\
  (forall api : Collector,
     config api = None ->
     APICollector.collect api w = (Ok [], with_logged w ApiEndpointMissing)).
Proof.
  intros Hget Hstatus.
  assert (Hne : (resp_status response =? 200)%Z = false)
    by (apply Z.eqb_neq; exact Hstatus).
  assert (Hfetch : forall c : Collector,
            session_get c = session_get self -> source c = source self ->
            WebsiteCollector.collect c w =
            (save <- getattr_save_articles c ;;
             saved_count <- save [] ;;
             BaseCollector.log_collection c success saved_count None ;;;
             ret [])%m (with_logged w (HttpStatusError (resp_status response)))).
  { intros c Hs Hc. unfold WebsiteCollector.collect.
    unfold bind at 1. unfold try_except. unfold bind at 1, lift at 1.
    rewrite Hs, Hc, Hget, Hne. reflexivity. }
  split; [| split; [| split]].
  - intros Hattr. rewrite (Hfetch self eq_refl eq_refl).
    unfold bind, getattr_save_articles. rewrite Hattr. reflexivity.
  - intros Hguard Hinsert. rewrite (Hfetch (with_save_articles self) eq_refl eq_refl).
    unfold bind at 1. unfold getattr_save_articles.
    cbn [with_save_articles attr_save_articles source]. unfold ret at 1.
    unfold bind at 1. rewrite (save_articles_nil _ _ Hguard).
    unfold bind at 1. rewrite log_collection_cases, Hguard.
    cbn [log_errors]. rewrite Hinsert. reflexivity.
  - intros e Hguard. rewrite (Hfetch (with_save_articles self) eq_refl eq_refl).
    unfold bind at 1. unfold getattr_save_articles.
    cbn [with_save_articles attr_save_articles source]. unfold ret at 1.
    unfold bind at 1. rewrite (save_articles_guarded _ _ e _ Hguard).
    reflexivity.
  - intros api Hcfg. unfold APICollector.collect. rewrite Hcfg. reflexivity.
Qed.

(** The run against a server that answers 404: as built, with
    [save_articles] bound, and the latter with Django as installed. *)
Lemma not_found_run :
  let self := WebsiteCollector.__init__ site (fun _ _ => Ok not_found) in
  session_get self (source_url (source self)) None = Ok not_found /\
  resp_status not_found <> 200%Z /\
  collection_logs
    (snd (@WebsiteCollector.collect Standins.plain Standins.guarded self
            empty_world))
    = [] /\
  collection_logs
    (snd (@WebsiteCollector.collect Standins.plain Standins.unguarded
            (@with_save_articles Standins.plain Standins.unguarded self)
            empty_world))
    = [ {| log_status := success; articles_collected := 0; log_errors := [] |} ] /\
  collection_logs
    (snd (@WebsiteCollector.collect Standins.plain Standins.guarded
            (@with_save_articles Standins.plain Standins.guarded self)
            empty_world))
    = [].
Proof.
  intros self.
  assert (Hget : session_get self (source_url (source self)) None = Ok not_found)
    by reflexivity.
  assert (Hst : resp_status not_found <> 200%Z) by discriminate.
  destruct (@failed_fetch_without_error_record Standins.plain Standins.guarded
              self not_found empty_world Hget Hst) as (Hnone & _ & Hraise & _).
  destruct (@failed_fetch_without_error_record Standins.plain Standins.unguarded
              self not_found empty_world Hget Hst) as (_ & Hbound & _ & _).
  split; [exact Hget |]. split; [exact Hst |]. split; [| split].
  - rewrite Hnone by reflexivity. reflexivity.
  - rewrite Hbound by reflexivity. reflexivity.
  - rewrite (Hraise _ eq_refl). reflexivity.
Defined.

Section Limits.
Context {ext : Externals}.

Lemma slice_to_length {A : Type} (l : list A) (n : Z) :
  (0 <= n)%Z -> (Z.of_nat (List.length (slice_to l n)) <= n)%Z.
Proof.
  intros H. unfold slice_to.
  destruct (Z.leb_spec 0 n) as [_ | L]; [| lia].
  rewrite length_firstn. lia.
Qed.

Lemma rfilter_map_length {A B : Type} (f : A -> Res (option B)) (l : list A) :
  forall found, rfilter_map f l = Ok found -> List.length found <= List.length l.
Proof.
  induction l as [| x l IH]; intros found; cbn [rfilter_map].
  - intros [= <-]. simpl. lia.
  - destruct (f x) as [y | e]; cbn [rbind]; [| discriminate].
    destruct (rfilter_map f l) as [ys | e]; cbn [rbind]; [| discriminate].
    intros [= <-]. specialize (IH ys eq_refl).
    destruct y; simpl; lia.
Qed.

Lemma mfilter_map_length {A B : Type} (f : A -> M (option B)) (l : list A) :
  forall found w w',
    mfilter_map f l w = (Ok found, w') -> List.length found <= List.length l.
Proof.
  induction l as [| x l IH]; intros found w w'; cbn [mfilter_map].
  - unfold ret. intros [= <- _]. simpl. lia.
  - unfold bind, ret. destruct (f x w) as [[y | e] w1]; [| discriminate].
    destruct (mfilter_map f l w1) as [[ys | e] w2] eqn:E; [| discriminate].
    intros [= <- _]. specialize (IH ys w1 w2 E).
    destruct y; simpl; lia.
Qed.

(** With a [urljoin] that does not raise, the heuristic extraction returns. *)
Lemma rfilter_map_total {A B : Type} (f : A -> Res (option B)) (l : list A) :
  (forall x, exists y, f x = Ok y) -> exists found, rfilter_map f l = Ok found.
Proof.
  intros Hf. induction l as [| x l [ys IH]]; cbn [rfilter_map].
  - eexists. reflexivity.
  - destruct (Hf x) as [y ->]. rewrite IH. cbn [rbind]. eexists. reflexivity.
Qed.

(** A [try] whose handler returns normally does so itself. *)
Lemma try_except_total {A : Type} (c : M A) (h : exn -> M A) (w : World) :
  (forall e w1, exists a w', h e w1 = (Ok a, w')) ->
  exists a w', try_except c h w = (Ok a, w').
Proof.
  intros H. unfold try_except. destruct (c w) as [[a | e] w1]; eauto.
Qed.

Lemma mfilter_map_total {A B : Type} (f : A -> M (option B)) (l : list A) :
  (forall x w, exists y w', f x w = (Ok y, w')) ->
  forall w, exists found w', mfilter_map f l w = (Ok found, w').
Proof.
  intros Hf. induction l as [| x l IH]; intros w; cbn [mfilter_map].
  - unfold ret. eauto.
  - unfold bind, ret. destruct (Hf x w) as (y & w1 & ->).
    destruct (IH w1) as (ys & w2 & ->). eauto.
Qed.

Lemma extract_article_data_total (self : Collector) (element : node)
  (w : World) :
  exists r w', WebsiteCollector.extract_article_data self element w = (Ok r, w').
Proof.
  unfold WebsiteCollector.extract_article_data. apply try_except_total.
  intros e w1. unfold bind, log, ret. eauto.
Qed.

End Limits.

(** C4, as the code has it. With a selector configuration the Website
    collector returns at most [max_articles] candidates when [max_articles]
    is not negative, and it does return whenever the selection of the
    elements does; without one, the heuristic extraction returns at most 20
    candidates, whatever [max_articles] is, and it does return whenever
    [urljoin] does. *)
Theorem website_candidates_bounded {ext : Externals}
  (self : Collector) (soup : node) (w : World) :
  ((0 <= max_articles (source self))%Z ->
   forall found w',
     WebsiteCollector.config_extract_articles self soup w = (Ok found, w') ->
     (Z.of_nat (List.length found) <= max_articles (source self))%Z) /\
  (forall cfg elements,
     config self = Some cfg ->
     (if nonempty (title_selector cfg) then select soup (title_selector cfg)
      else Ok (find_article_blocks soup)) = Ok elements ->
     exists found w',
       WebsiteCollector.config_extract_articles self soup w = (Ok found, w')) /\
  (forall found,
     WebsiteCollector.auto_extract_articles self soup = Ok found ->
     List.length found <= 20) /\
  ((forall href, exists full, urljoin (source_url (source self)) href = Ok full) ->
   exists found, WebsiteCollector.auto_extract_articles self soup = Ok found) /\
  (forall html found w',
     WebsiteCollector.parse_html self html w = (Ok found, w') ->
     match config self with
     | Some _ =>
         (0 <= max_articles (source self))%Z ->
         (Z.of_nat (List.length found) <= max_articles (source self))%Z
     | None => List.length found <= 20
     end).
Proof.
  assert (Hconfig : forall page found w0 w',
            (0 <= max_articles (source self))%Z ->
            WebsiteCollector.config_extract_articles self page w0 = (Ok found, w') ->
            (Z.of_nat (List.length found) <= max_articles (source self))%Z).
  { intros page found w0 w' Hmax. unfold WebsiteCollector.config_extract_articles.
    destruct (config self) as [cfg |]; [| discriminate].
    unfold bind, lift.
    destruct (if nonempty (title_selector cfg)
              then select page (title_selector cfg)
              else Ok (find_article_blocks page)) as [elements | e];
      [| discriminate].
    intros E. apply mfilter_map_length in E.
    pose proof (slice_to_length elements _ Hmax). lia. }
  assert (Hauto : forall page found,
            WebsiteCollector.auto_extract_articles self page = Ok found ->
            List.length found <= 20).
  { intros page found E. unfold WebsiteCollector.auto_extract_articles in E.
    apply rfilter_map_length in E.
    pose proof (slice_to_length (find_all_links page) 20 ltac:(lia)). lia. }
  split; [intros Hmax found w' E; exact (Hconfig soup found w w' Hmax E) |].
  split.
  { intros cfg elements Hc Hsel.
    unfold WebsiteCollector.config_extract_articles. rewrite Hc.
    unfold bind at 1, lift. rewrite Hsel.
    apply mfilter_map_total. intros x w0.
    apply extract_article_data_total. }
  split; [apply Hauto |]. split.
  - intros Hjoin. unfold WebsiteCollector.auto_extract_articles.
    apply rfilter_map_total. intros link. unfold WebsiteCollector.auto_article.
    destruct (WebsiteCollector.is_article_link _ _); [| eexists; reflexivity].
    destruct (Hjoin (match node_get link (u "href") with Some h => h | None => [] end))
      as [full ->].
    eexists. reflexivity.
  - intros html found w'. unfold WebsiteCollector.parse_html, bind, lift.
    destruct (BeautifulSoup (VStr html)) as [page | e]; [| discriminate].
    destruct (config self) as [cfg |] eqn:Ec.
    + intros E Hmax. apply (Hconfig page found w w' Hmax). exact E.
    + destruct (WebsiteCollector.auto_extract_articles self page) eqn:Ea;
        [| discriminate].
      intros [= <- _]. apply (Hauto page). exact Ea.
Qed.

(** Both paths on a page. With a configuration and [max_articles = 2] the
    page of three article blocks yields two candidates, the limit; without
    one, at [max_articles = 50], two of the three anchors of the front page
    are articles. *)
Lemma configured_page_candidates :
  ((0 <= max_articles two_article_site)%Z /\
   exists found w',
     @WebsiteCollector.parse_html
       (Standins.externals blocks_page Standins.no_feeds)
       (WebsiteCollector.__init__ two_article_site (fun _ _ => Ok page_response))
       (u "<page>") empty_world = (Ok found, w') /\
     map title found = [u "Primeira"; u "Segunda"] /\
     (Z.of_nat (List.length found) <= 2)%Z) /\
  (exists found,
     @WebsiteCollector.auto_extract_articles
       (Standins.externals front_page Standins.no_feeds)
       (WebsiteCollector.__init__ site (fun _ _ => Ok page_response))
       front_page = Ok found /\
     List.length found = 2 /\ List.length found <= 20).
Proof.
  split.
  - assert (H : (0 <= max_articles two_article_site)%Z) by (vm_compute; discriminate).
    split; [exact H |].
    destruct (@website_candidates_bounded
                (Standins.externals blocks_page Standins.no_feeds)
                (WebsiteCollector.__init__ two_article_site
                   (fun _ _ => Ok page_response))
                blocks_page empty_world) as (_ & _ & _ & _ & Hparse).
    assert (E : exists found,
               @WebsiteCollector.parse_html
                 (Standins.externals blocks_page Standins.no_feeds)
                 (WebsiteCollector.__init__ two_article_site
                    (fun _ _ => Ok page_response))
                 (u "<page>") empty_world = (Ok found, empty_world) /\
               map title found = [u "Primeira"; u "Segunda"])
      by (eexists; split; [vm_compute; reflexivity | reflexivity]).
    destruct E as (found & E & T).
    exists found, empty_world. split; [exact E |]. split; [exact T |].
    exact (Hparse (u "<page>") found empty_world E H).
  - destruct (@website_candidates_bounded
                (Standins.externals front_page Standins.no_feeds)
                (WebsiteCollector.__init__ site (fun _ _ => Ok page_response))
                front_page empty_world) as (_ & _ & Hauto & Htotal & _).
    destruct Htotal as [found E]; [intros href; eexists; reflexivity |].
    exists found. split; [exact E |]. split; [| exact (Hauto found E)].
    vm_compute in E. injection E as <-. reflexivity.
Defined.

(** Without a selector configuration a source with [max_articles = 1]
    yields two candidates; with one, a source whose [max_articles] is [-1]
    yields all elements but the last, two of three. *)
Lemma candidates_beyond_max_articles :
  (max_articles one_article_site = 1%Z /\
   config (WebsiteCollector.__init__ one_article_site (fun _ _ => Ok page_response))
     = None /\
   exists found w',
     parse_page one_article_site front_page = (Ok found, w') /\
     List.length found = 2) /\
  (max_articles negative_limit_site = (-1)%Z /\
   config (WebsiteCollector.__init__ negative_limit_site (fun _ _ => Ok page_response))
     = Some no_selectors /\
   exists found w',
     parse_page negative_limit_site blocks_page = (Ok found, w') /\
     List.length found = 2).
Proof.
  split; (split; [reflexivity |]); (split; [reflexivity |]); eexists; eexists;
    (split; [vm_compute; reflexivity | reflexivity]).
Qed.

Section ApiResponses.
Context {ext : Externals}.

Lemma response_items_first_present (d : list (str * pyval)) :
  APICollector.response_items (VDict d) = Ok (first_present d).
Proof.
  unfold APICollector.response_items, first_present, get. cbn [rbind].
  destruct (lookup (u "articles") d); reflexivity.
Qed.



End ApiResponses.





Section RssEntries.
Context {ext : Externals}.

Lemma clean_text_empty : BaseCollector.clean_text (VStr []) = Ok [].
Proof. reflexivity. Qed.

(** The three optional parts of an entry, as [parse_rss_entry_body] reads
    them, against what the entry holds. *)
Lemma rss_content_read (items : list (str * pyval)) (text : str) :
  (has_summary <~ has (u "summary") (VDict items) ;;
   if has_summary then
     s <~ RSSCollector.entry_attr (VDict items) (u "summary") ;;
     BaseCollector.clean_text s
   else
     has_content <~ has (u "content") (VDict items) ;;
     if has_content then
       v <~ RSSCollector.first_content_value (VDict items) ;;
       BaseCollector.clean_text v
     else Ok [])%res = Ok text <->
  entry_content items text.
Proof.
  unfold entry_content, RSSCollector.first_content_value,
    RSSCollector.entry_attr, raise_of.
  cbn [rbind has].
  destruct (lookup (u "summary") items) as [s |]; cbn [rbind]; [reflexivity |].
  destruct (lookup (u "content") items)
    as [[| | | | | [| [| | | | | | first] rest] |] |];
    cbn [rbind]; try (split; [discriminate | contradiction]).
  - destruct (lookup (u "value") first) as [v |]; cbn [rbind].
    + split.
      * intros H. exists v. split; [reflexivity | exact H].
      * intros (v' & [= <-] & H). exact H.
    + split; [discriminate | intros (v' & [=] & _)].
  - split; [intros [= <-]; reflexivity | intros ->; reflexivity].
Qed.

Lemma rss_author_read (items : list (str * pyval)) (text : str) :
  (has_author <~ has (u "author") (VDict items) ;;
   if has_author then
     a <~ RSSCollector.entry_attr (VDict items) (u "author") ;;
     BaseCollector.clean_text a
   else Ok [])%res = Ok text <->
  entry_author items text.
Proof.
  unfold entry_author, RSSCollector.entry_attr. cbn [rbind has].
  destruct (lookup (u "author") items) as [a |]; cbn [rbind]; [reflexivity |].
  split; [intros [= <-]; reflexivity | intros ->; reflexivity].
Qed.

Lemma rss_date_read (items : list (str * pyval)) (date : option Z) :
  (has_published <~ has (u "published_parsed") (VDict items) ;;
   if has_published then
     t <~ RSSCollector.entry_attr (VDict items) (u "published_parsed") ;;
     d <~ entry_datetime t ;; Ok (Some d)
   else
     has_updated <~ has (u "updated_parsed") (VDict items) ;;
     if has_updated then
       t <~ RSSCollector.entry_attr (VDict items) (u "updated_parsed") ;;
       d <~ entry_datetime t ;; Ok (Some d)
     else Ok None)%res = Ok date <->
  entry_date items date.
Proof.
  assert (Hread : forall t : pyval,
             (d <~ entry_datetime t ;; Ok (Some d))%res = Ok date <->
             exists d, entry_datetime t = Ok d /\ date = Some d).
  { intros t. destruct (entry_datetime t) as [d | e]; cbn [rbind].
    - split.
      + intros [= <-]. exists d. split; reflexivity.
      + intros (d' & [= <-] & ->). reflexivity.
    - split; [discriminate | intros (d' & [=] & _)]. }
  unfold entry_date, RSSCollector.entry_attr. cbn [rbind has].
  destruct (lookup (u "published_parsed") items) as [t |]; cbn [rbind];
    [apply Hread |].
  destruct (lookup (u "updated_parsed") items) as [t |]; cbn [rbind];
    [apply Hread |].
  split; [intros [= <-]; reflexivity | intros ->; reflexivity].
Qed.

Ltac read_part H E :=
  cbn [rbind has] in H;
  lazymatch type of H with
  | rbind ?x _ = _ =>
      destruct x eqn:E; cbn [rbind] in H; [| discriminate H]
  end.

(** The parser yields a candidate for an entry exactly when the entry is
    well formed, and then the candidate the entry describes. *)
Lemma parse_rss_entry_body_well_formed (self : Collector) (entry : pyval)
  (c : Candidate) :
  RSSCollector.parse_rss_entry_body self entry = Ok (Some c) <->
  well_formed entry c.
Proof.
  unfold well_formed.
  destruct entry as [| | | | | | items];
    try (split; [discriminate | intros (? & ? & [=] & _)]).
  unfold RSSCollector.parse_rss_entry_body. cbn [rbind get].
  split.
  - intros H.
    destruct (lookup (u "title") items) as [raw_title |] eqn:Et.
    2:{ rewrite clean_text_empty in H. discriminate H. }
    destruct (BaseCollector.clean_text raw_title) as [title_ |] eqn:Ec;
      cbn [rbind] in H; [| discriminate H].
    destruct (nonempty title_) eqn:En; cbn [negb] in H; [| discriminate H].
    destruct (lookup (u "link") items) as [link |] eqn:El;
      [| cbn [truthy nonempty negb] in H; discriminate H].
    destruct (truthy link) eqn:Etr; cbn [negb] in H; [| discriminate H].
    read_part H Econtent. read_part H Eauthor. read_part H Edate.
    injection H as <-. cbn [title url content author published_date].
    exists items, raw_title.
    split; [reflexivity |]. split; [exact Et |]. split; [exact Ec |].
    split; [intros ->; discriminate En |].
    split; [exact El |]. split; [exact Etr |].
    split; [exact (proj1 (rss_content_read items _) Econtent) |].
    split; [exact (proj1 (rss_author_read items _) Eauthor) |].
    exact (proj1 (rss_date_read items _) Edate).
  - intros (items' & raw_title & [= <-] & Et & Ec & Hne & El & Etr
            & Hcontent & Hauthor & Hdate).
    rewrite Et, Ec. cbn [rbind].
    assert (En : nonempty (title c) = true)
      by (destruct (title c); [contradiction Hne; reflexivity | reflexivity]).
    rewrite En, El, Etr. cbn [negb].
    apply (proj2 (rss_content_read items _)) in Hcontent.
    apply (proj2 (rss_author_read items _)) in Hauthor.
    apply (proj2 (rss_date_read items _)) in Hdate.
    cbn [rbind has] in Hcontent, Hauthor, Hdate.
    cbn [rbind has].
    rewrite Hcontent. cbn [rbind].
    rewrite Hauthor. cbn [rbind].
    rewrite Hdate. cbn [rbind].
    destruct c; reflexivity.
Qed.

End RssEntries.

Section RssRuns.
Context {ext : Externals} {orm : Orm}.

Lemma entry_candidate_well_formed (self : Collector) (entry : pyval)
  (c : Candidate) :
  entry_candidate self entry = Some c <-> well_formed entry c.
Proof.
  rewrite <- (parse_rss_entry_body_well_formed self).
  unfold entry_candidate.
  destruct (RSSCollector.parse_rss_entry_body self entry) as [[c' |] | e];
    split; intros H; try discriminate H; congruence.
Qed.

(** The candidates the code keeps are the contributions of the entries,
    and the only ones. *)
Lemma kept_contributions (self : Collector) (entries : list pyval) :
  contributions entries (kept self entries).
Proof.
  induction entries as [| e entries IH]; [constructor |].
  unfold kept. cbn [flat_map]. fold (kept self entries).
  destruct (entry_candidate self e) as [c |] eqn:E.
  - apply contributions_valid; [| exact IH].
    apply (entry_candidate_well_formed self). exact E.
  - apply contributions_skip; [| exact IH].
    intros c H. apply (entry_candidate_well_formed self) in H. congruence.
Qed.

Lemma contributions_kept (self : Collector) (entries : list pyval)
  (found : list Candidate) :
  contributions entries found -> kept self entries = found.
Proof.
  induction 1 as [| entry c rest cs Hw _ IH | entry rest cs Hn _ IH];
    [reflexivity | |].
  - unfold kept. cbn [flat_map]. fold (kept self rest).
    apply (entry_candidate_well_formed self) in Hw. rewrite Hw, IH. reflexivity.
  - unfold kept. cbn [flat_map]. fold (kept self rest).
    destruct (entry_candidate self entry) as [c |] eqn:E.
    + exfalso. apply (Hn c). apply (entry_candidate_well_formed self). exact E.
    + rewrite IH. reflexivity.
Qed.

Lemma contributions_around (before after : list pyval) (bad : pyval)
  (cs1 cs2 : list Candidate) :
  contributions before cs1 -> (forall c, ~ well_formed bad c) ->
  contributions after cs2 ->
  contributions (before ++ bad :: after) (cs1 ++ cs2).
Proof.
  intros H1 Hbad H2.
  induction H1 as [| entry c rest cs Hw _ IH | entry rest cs Hn _ IH]; cbn [app].
  - apply contributions_skip; assumption.
  - apply contributions_valid; assumption.
  - apply contributions_skip; assumption.
Qed.

Lemma logged_all (ls : list logged) :
  forall w,
    collection_logs (fold_left with_logged ls w) = collection_logs w /\
    articles (fold_left with_logged ls w) = articles w /\
    logger (fold_left with_logged ls w) = logger w ++ ls.
Proof.
  induction ls as [| l ls IH]; intros w; cbn [fold_left].
  - rewrite app_nil_r. auto.
  - destruct (IH (with_logged w l)) as (-> & -> & ->).
    cbn [with_logged collection_logs articles logger].
    rewrite <- app_assoc. auto.
Qed.

Lemma parse_rss_entry_run (self : Collector) (entry : pyval) (w : World) :
  RSSCollector.parse_rss_entry self entry w =
  (Ok (entry_candidate self entry),
   fold_left with_logged (entry_failures self [entry]) w).
Proof.
  unfold RSSCollector.parse_rss_entry, entry_candidate, entry_failures,
    try_except, lift.
  cbn [flat_map].
  destruct (RSSCollector.parse_rss_entry_body self entry) as [c | e];
    reflexivity.
Qed.

Lemma parse_rss_entry_total (self : Collector) (entry : pyval) (w : World) :
  exists w',
    RSSCollector.parse_rss_entry self entry w = (Ok (entry_candidate self entry), w') /\
    collection_logs w' = collection_logs w.
Proof.
  rewrite parse_rss_entry_run. eexists. split; [reflexivity |].
  apply logged_all.
Qed.

Lemma parse_entries_run (self : Collector) (entries : list pyval) :
  forall w,
    mfilter_map (RSSCollector.parse_rss_entry self) entries w =
    (Ok (kept self entries),
     fold_left with_logged (entry_failures self entries) w).
Proof.
  induction entries as [| e entries IH]; intros w; [reflexivity |].
  cbn [mfilter_map]. unfold bind. rewrite parse_rss_entry_run, IH.
  unfold ret, kept, entry_failures. cbn [flat_map].
  rewrite app_nil_r, fold_left_app.
  destruct (entry_candidate self e); reflexivity.
Qed.

Lemma parse_entries_total (self : Collector) (entries : list pyval) :
  forall w, exists w',
    mfilter_map (RSSCollector.parse_rss_entry self) entries w
      = (Ok (kept self entries), w') /\
    collection_logs w' = collection_logs w.
Proof.
  intros w. rewrite parse_entries_run. eexists. split; [reflexivity |].
  apply logged_all.
Qed.

Lemma kept_length (self : Collector) (entries : list pyval) :
  List.length (kept self entries) = List.length (filter (valid_entry self) entries).
Proof.
  unfold kept, valid_entry.
  induction entries as [| e entries IH]; [reflexivity |].
  cbn [flat_map filter]. rewrite length_app, IH.
  destruct (entry_candidate self e); reflexivity.
Qed.

(** A feed that cannot be read is logged and yields nothing; one that can
    yields what its first [max_articles] entries contribute, and the logger
    has one error for each entry whose reading raised. *)
Lemma collect_from_feed_failed (self : Collector) (rss_feed : RSSFeed)
  (e : exn) (w : World) :
  feed_entries (feed_url rss_feed) = Raise e ->
  RSSCollector.collect_from_feed self rss_feed w
    = (Ok [], with_logged w (RssFeedFailed e)).
Proof.
  intros H. unfold RSSCollector.collect_from_feed, try_except, bind, lift.
  rewrite H. reflexivity.
Qed.

Lemma collect_from_feed_read (self : Collector) (rss_feed : RSSFeed)
  (entries : list pyval) (w : World) :
  feed_entries (feed_url rss_feed) = Ok entries ->
  RSSCollector.collect_from_feed self rss_feed w
    = (Ok (kept self (slice_to entries (max_articles (source self)))),
       fold_left with_logged
         (entry_failures self (slice_to entries (max_articles (source self))))
         w).
Proof.
  intros H. unfold RSSCollector.collect_from_feed, try_except, bind, lift.
  rewrite H, parse_entries_run. reflexivity.
Qed.

Lemma collect_from_feed_total (self : Collector) (rss_feed : RSSFeed) (w : World) :
  exists w',
    RSSCollector.collect_from_feed self rss_feed w
      = (Ok (feed_candidates self rss_feed), w') /\
    collection_logs w' = collection_logs w /\
    articles w' = articles w.
Proof.
  unfold feed_candidates.
  destruct (feed_entries (feed_url rss_feed)) as [entries | e] eqn:E.
  - rewrite (collect_from_feed_read self rss_feed entries w E).
    eexists. split; [reflexivity |].
    split; apply logged_all.
  - rewrite (collect_from_feed_failed self rss_feed e w E).
    eexists. split; [reflexivity |]. split; reflexivity.
Qed.

(** Saving the feed writes to neither table of the run. *)
Lemma save_feed_cases (rss_feed : RSSFeed) (w : World) :
  exists r w',
    RSSCollector.save_feed rss_feed w = (r, w') /\
    collection_logs w' = collection_logs w /\
    articles w' = articles w.
Proof.
  unfold RSSCollector.save_feed, bind, lift.
  destruct async_unsafe as [[] | e];
    [destruct (update_feed rss_feed) as [[] | e] |];
    eexists; eexists; (split; [reflexivity |]); split; reflexivity.
Qed.

(** One turn of the loop over the feeds: the candidates of the feed join
    the list whether or not the feed can be saved afterwards, a failure of
    the latter is logged, and the loop goes on with the next feed. *)
Lemma collect_feeds_step (self : Collector) (rss_feed : RSSFeed)
  (rest : list RSSFeed) (all_articles found : list Candidate) (w0 w1 : World) :
  RSSCollector.collect_from_feed self rss_feed w0 = (Ok found, w1) ->
  RSSCollector.collect_feeds self (rss_feed :: rest) all_articles w0 =
  match RSSCollector.save_feed rss_feed w1 with
  | (Ok _, w2) =>
      RSSCollector.collect_feeds self rest (all_articles ++ found) w2
  | (Raise e, w2) =>
      RSSCollector.collect_feeds self rest (all_articles ++ found)
        (with_logged w2 (RssCollectFailed e))
  end.
Proof.
  intros E. cbn [RSSCollector.collect_feeds].
  unfold bind at 1. unfold try_except. unfold bind at 1. rewrite E.
  unfold bind at 1.
  destruct (RSSCollector.save_feed rss_feed w1) as [[[] | e] w2]; reflexivity.
Qed.

Lemma collect_feeds_total (self : Collector) (feeds : list RSSFeed) :
  forall all_articles w, exists w',
    RSSCollector.collect_feeds self feeds all_articles w
      = (Ok (all_articles ++ flat_map (feed_candidates self) feeds), w') /\
    collection_logs w' = collection_logs w /\
    articles w' = articles w.
Proof.
  induction feeds as [| f feeds IH]; intros all_articles w.
  - exists w. cbn. rewrite app_nil_r. auto.
  - destruct (collect_from_feed_total self f w) as (w1 & E & L1 & A1).
    rewrite (collect_feeds_step self f feeds all_articles _ w w1 E).
    destruct (save_feed_cases f w1) as (r & w2 & -> & L2 & A2).
    cbn [flat_map]. rewrite app_assoc.
    destruct r as [[] | e].
    + destruct (IH (all_articles ++ feed_candidates self f) w2)
        as (w3 & -> & L3 & A3).
      exists w3. split; [reflexivity |]. split; congruence.
    + destruct (IH (all_articles ++ feed_candidates self f)
                  (with_logged w2 (RssCollectFailed e)))
        as (w3 & -> & L3 & A3).
      exists w3. split; [reflexivity |]. split.
      * rewrite L3. cbn [with_logged collection_logs]. congruence.
      * rewrite A3. cbn [with_logged articles]. congruence.
Qed.

(** The run, from the reading of the queryset on. *)
Lemma rss_collect_guarded (self : Collector) (e : exn) (w : World) :
  async_unsafe = Raise e -> RSSCollector.collect self w = (Raise e, w).
Proof.
  intros H. unfold RSSCollector.collect. unfold bind at 1, lift at 1.
  rewrite H. reflexivity.
Qed.

Lemma rss_collect_as_built (self : Collector) (w : World) :
  async_unsafe = Ok tt ->
  attr_save_articles self = None ->
  exists w1,
    RSSCollector.collect self w = (Raise (Exn AttributeError []), w1) /\
    collection_logs w1 = collection_logs w /\
    articles w1 = articles w.
Proof.
  intros Hguard Hattr.
  destruct (collect_feeds_total self (rss_feeds self) [] w) as (w1 & E & L & A).
  exists w1. split; [| split; assumption].
  unfold RSSCollector.collect. unfold bind at 1, lift at 1. rewrite Hguard.
  unfold bind at 1. rewrite E.
  unfold bind, getattr_save_articles. rewrite Hattr. reflexivity.
Qed.

Lemma rss_collect_bound (self : Collector) (w : World) :
  async_unsafe = Ok tt ->
  exists saved_count w1,
    collection_logs w1 = collection_logs w /\
    RSSCollector.collect (with_save_articles self) w =
    let row := {| log_status := success; articles_collected := saved_count;
                  log_errors := [] |} in
    match insert_log row with
    | Ok _ => (Ok (flat_map (feed_candidates self) (rss_feeds self)),
               with_record w1 row)
    | Raise d => (Raise d, w1)
    end.
Proof.
  intros Hguard.
  set (self' := with_save_articles self).
  assert (Hfeeds : rss_feeds self' = rss_feeds self) by reflexivity.
  assert (Hcand : flat_map (feed_candidates self') (rss_feeds self)
                  = flat_map (feed_candidates self) (rss_feeds self))
    by reflexivity.
  destruct (collect_feeds_total self' (rss_feeds self') [] w)
    as (w1 & E & L & _).
  rewrite Hfeeds, Hcand in E. cbn [app] in E.
  destruct (save_articles_total (source self)
              (flat_map (feed_candidates self) (rss_feeds self)) w1 Hguard)
    as (m & w2 & Es & Ls & _).
  exists m, w2. split; [congruence |].
  unfold RSSCollector.collect. unfold bind at 1, lift at 1. rewrite Hguard.
  unfold bind at 1. rewrite Hfeeds, E.
  unfold bind at 1. unfold getattr_save_articles.
  cbn [self' with_save_articles attr_save_articles source]. unfold ret at 1.
  unfold bind at 1. rewrite Es.
  unfold bind at 1. rewrite log_collection_cases, Hguard.
  cbn [log_errors].
  destruct (insert_log _) as [[] | d]; reflexivity.
Qed.

End RssRuns.

Lemma slice_to_all {A : Type} (l : list A) (n : Z) :
  (Z.of_nat (List.length l) <= n)%Z -> slice_to l n = l.
Proof.
  intros H. unfold slice_to.
  destruct (Z.leb_spec 0 n) as [_ | L]; [| lia].
  apply firstn_all2. lia.
Qed.

(** C2, as the code has it. In an RSS run a failure while reading one feed
    or one entry goes to the logger, once, and to no error list of the run
    (the collector keeps none), and it does not abort the remaining feeds
    or entries. An entry yields its candidate exactly when it is well
    formed: a dict with a title that cleans to a non-empty text and a link
    that is true, whose summary or content, author and time of publication
    or update, where present, can be read; the time has to be converted,
    which fails for every time where [django.utils.timezone] has no [utc].
    Any other entry is skipped, with one logged error when reading it
    raises. A feed that cannot be read is logged and yields nothing; a feed
    of at most [max_articles] entries, all well formed but one, yields the
    candidates of the others in their order, so 3 for 3 and 1. The loop
    over the feeds never raises: a feed's candidates join the list even
    when saving the feed afterwards fails, which is logged as well. The run
    itself adds no record with status error or with an error: where Django
    refuses database calls from a coroutine it raises at once, when the
    feeds are queried; otherwise the collector as the class builds it
    raises [AttributeError] once the feeds are read, and with
    [save_articles] bound the only record is one with status success and
    an empty error list, written if the database takes it. *)
Theorem rss_failures_are_isolated {ext : Externals} {orm : Orm}
  (self : Collector) (w : World) :
  (forall entry c,
     well_formed entry c ->
     RSSCollector.parse_rss_entry self entry w = (Ok (Some c), w)) /\
  (forall entry c w',
     RSSCollector.parse_rss_entry self entry w = (Ok (Some c), w') ->
     well_formed entry c /\ w' = w) /\
  (forall entry,
     (forall c, ~ well_formed entry c) ->
     RSSCollector.parse_rss_entry self entry w = (Ok None, w) \/
     exists e,
       RSSCollector.parse_rss_entry self entry w
         = (Ok None, with_logged w (RssEntryFailed e))) /\
  (forall entry e,
     RSSCollector.parse_rss_entry_body self entry = Raise e ->
     RSSCollector.parse_rss_entry self entry w
       = (Ok None, with_logged w (RssEntryFailed e))) /\
  (forall rss_feed e w0,
     feed_entries (feed_url rss_feed) = Raise e ->
     RSSCollector.collect_from_feed self rss_feed w0
       = (Ok [], with_logged w0 (RssFeedFailed e))) /\
  (forall rss_feed entries w0,
     feed_entries (feed_url rss_feed) = Ok entries ->
     exists found,
       RSSCollector.collect_from_feed self rss_feed w0
         = (Ok found,
            fold_left with_logged
              (entry_failures self
                 (slice_to entries (max_articles (source self)))) w0) /\
       contributions (slice_to entries (max_articles (source self))) found) /\
  (forall rss_feed before bad after cs1 cs2 w0,
     feed_entries (feed_url rss_feed) = Ok (before ++ bad :: after) ->
     (Z.of_nat (List.length (before ++ bad :: after))
        <= max_articles (source self))%Z ->
     contributions before cs1 ->
     (forall c, ~ well_formed bad c) ->
     contributions after cs2 ->
     exists w1,
       RSSCollector.collect_from_feed self rss_feed w0 = (Ok (cs1 ++ cs2), w1) /\
       collection_logs w1 = collection_logs w0) /\
  (forall rss_feed rest all_articles found w0 w1,
     RSSCollector.collect_from_feed self rss_feed w0 = (Ok found, w1) ->
     RSSCollector.collect_feeds self (rss_feed :: rest) all_articles w0 =
     match RSSCollector.save_feed rss_feed w1 with
     | (Ok _, w2) =>
         RSSCollector.collect_feeds self rest (all_articles ++ found) w2
     | (Raise e, w2) =>
         RSSCollector.collect_feeds self rest (all_articles ++ found)
           (with_logged w2 (RssCollectFailed e))
     end) /\
  (forall rss_feed,
     match feed_entries (feed_url rss_feed) with
     | Ok entries =>
         contributions (slice_to entries (max_articles (source self)))
           (feed_candidates self rss_feed)
     | Raise _ => feed_candidates self rss_feed = []
     end) /\
  (forall feeds all_articles w0,
     exists w1,
       RSSCollector.collect_feeds self feeds all_articles w0
         = (Ok (all_articles ++ flat_map (feed_candidates self) feeds), w1) /\
       collection_logs w1 = collection_logs w0 /\
       articles w1 = articles w0) /\
  (forall e,
     async_unsafe = Raise e ->
     RSSCollector.collect self w = (Raise e, w) /\
     RSSCollector.collect (with_save_articles self) w = (Raise e, w)) /\
  (async_unsafe = Ok tt ->
   attr_save_articles self = None ->
   exists w1,
     RSSCollector.collect self w = (Raise (Exn AttributeError []), w1) /\
     collection_logs w1 = collection_logs w /\
     articles w1 = articles w) /\
  (async_unsafe = Ok tt ->
   exists saved_count w1,
     collection_logs w1 = collection_logs w /\
     RSSCollector.collect (with_save_articles self) w =
     let row := {| log_status := success; articles_collected := saved_count;
                   log_errors := [] |} in
     match insert_log row with
     | Ok _ => (Ok (flat_map (feed_candidates self) (rss_feeds self)),
                with_record w1 row)
     | Raise d => (Raise d, w1)
     end) /\
  (exists added,
     collection_logs (snd (RSSCollector.collect (with_save_articles self) w))
       = collection_logs w ++ added /\
     List.length added <= 1 /\
     Forall (fun row => log_status row = success /\ log_errors row = []) added).
Proof.
  split.
  { intros entry c H. rewrite parse_rss_entry_run.
    unfold entry_failures, entry_candidate. cbn [flat_map].
    apply (parse_rss_entry_body_well_formed self) in H. rewrite H. reflexivity. }
  split.
  { intros entry c w' H. rewrite parse_rss_entry_run in H.
    unfold entry_failures, entry_candidate in H. cbn [flat_map] in H.
    destruct (RSSCollector.parse_rss_entry_body self entry) as [[c' |] | e] eqn:E;
      cbn in H; try discriminate H.
    injection H as <- <-. split; [| reflexivity].
    apply (parse_rss_entry_body_well_formed self). exact E. }
  split.
  { intros entry H. rewrite parse_rss_entry_run.
    unfold entry_failures, entry_candidate. cbn [flat_map].
    destruct (RSSCollector.parse_rss_entry_body self entry) as [[c |] | e] eqn:E.
    - exfalso. apply (H c).
      apply (parse_rss_entry_body_well_formed self). exact E.
    - left. reflexivity.
    - right. exists e. reflexivity. }
  split.
  { intros entry e H.
    unfold RSSCollector.parse_rss_entry, try_except, lift. rewrite H. reflexivity. }
  split; [intros rss_feed e w0; apply collect_from_feed_failed |].
  split.
  { intros rss_feed entries w0 H.
    exists (kept self (slice_to entries (max_articles (source self)))).
    split; [apply collect_from_feed_read; exact H | apply kept_contributions]. }
  split.
  { intros rss_feed before bad after cs1 cs2 w0 H Hlen H1 Hbad H2.
    rewrite (collect_from_feed_read self rss_feed _ w0 H).
    rewrite (slice_to_all _ _ Hlen).
    rewrite (contributions_kept self _ _ (contributions_around _ _ _ _ _ H1 Hbad H2)).
    eexists. split; [reflexivity | apply logged_all]. }
  split; [intros; apply collect_feeds_step; assumption |].
  split.
  { intros rss_feed. unfold feed_candidates.
    destruct (feed_entries (feed_url rss_feed)) as [entries | e];
      [apply kept_contributions | reflexivity]. }
  split; [intros feeds all_articles w0; apply collect_feeds_total |].
  split.
  { intros e H. split; apply rss_collect_guarded; exact H. }
  split; [apply rss_collect_as_built |].
  split; [apply rss_collect_bound |].
  destruct async_unsafe as [[] | e] eqn:Hguard.
  - destruct (rss_collect_bound self w Hguard) as (m & w1 & L & ->).
    cbv zeta.
    destruct (insert_log _) as [[] | d].
    + eexists [_]. cbn [snd with_record collection_logs]. rewrite L.
      split; [reflexivity |]. split; [apply le_n |].
      constructor; [split; reflexivity | constructor].
    + exists []. cbn [snd]. rewrite L, app_nil_r.
      split; [reflexivity |]. split; [apply le_0_n | constructor].
  - rewrite (rss_collect_guarded _ e w Hguard). exists []. cbn [snd].
    rewrite app_nil_r. split; [reflexivity |]. split; [apply le_0_n | constructor].
Qed.

(** A feed with 3 well-formed entries and 1 malformed entry, whose time of
    publication cannot be converted: the feed yields 3 candidates and the
    failure goes to the logger. No run leaves a record with an error list
    of length 1. Where Django refuses database calls from a coroutine the
    run raises before it reads the feed and leaves no record; where it
    takes them, the collector as built raises after reading the feed and
    leaves no record, and with [save_articles] bound the record of the run
    has status success, 3 articles and no error. Where
    [django.utils.timezone] has no [utc], a feed of 3 entries that carry
    their time of publication and the malformed one yields no candidate
    and four logged errors. *)
Lemma malformed_entry_leaves_no_run_error :
  let feed := {| feed_url := u "http://f/rss"; is_active := true |} in
  let found := [ candidate_of "Primeira" "http://f/1" None;
                 candidate_of "Segunda" "http://f/2" None;
                 candidate_of "Terceira" "http://f/3" None ] in
  let dated := [ candidate_of "Primeira" "http://f/1" (Some 1700000000%Z);
                 candidate_of "Segunda" "http://f/2" (Some 1700000000%Z);
                 candidate_of "Terceira" "http://f/3" (Some 1700000000%Z) ] in
  let refused := Raise (Exn SynchronousOnlyOperation []) in
  let recorded := fun (orm : Orm) (self : Collector) =>
                    collection_logs (snd (run_rss orm self)) in
  (@contributions rss_externals feed_of_four found /\
   @RSSCollector.parse_rss_entry_body rss_externals rss_collector malformed_entry
     = Raise (Exn TypeError [])) /\
  @RSSCollector.collect_from_feed rss_externals rss_collector feed empty_world
    = (Ok found, with_logged empty_world (RssEntryFailed (Exn TypeError []))) /\
  run_rss Standins.guarded rss_collector = (refused, empty_world) /\
  run_rss Standins.guarded (bound Standins.guarded rss_collector)
    = (refused, empty_world) /\
  fst (run_rss Standins.unguarded rss_collector)
    = Raise (Exn AttributeError []) /\
  recorded Standins.unguarded rss_collector = [] /\
  fst (run_rss Standins.unguarded (bound Standins.unguarded rss_collector))
    = Ok found /\
  recorded Standins.unguarded (bound Standins.unguarded rss_collector)
    = [ {| log_status := success; articles_collected := 3; log_errors := [] |} ] /\
  map (fun r => List.length (log_errors r))
    (recorded Standins.unguarded (bound Standins.unguarded rss_collector))
    = [0] /\
  fst (@RSSCollector.collect_from_feed dated_externals rss_collector feed
         empty_world) = Ok dated /\
  @RSSCollector.collect_from_feed (Standins.without_utc dated_externals)
    rss_collector feed empty_world
    = (Ok [],
       fold_left with_logged
         [ RssEntryFailed (Exn AttributeError []);
           RssEntryFailed (Exn TypeError []);
           RssEntryFailed (Exn AttributeError []);
           RssEntryFailed (Exn AttributeError []) ] empty_world).
Proof.
  intros feed found dated refused recorded.
  split.
  { split; [| vm_compute; reflexivity].
    assert (Hkept : @kept rss_externals rss_collector feed_of_four = found)
      by (vm_compute; reflexivity).
    rewrite <- Hkept. apply kept_contributions. }
  repeat split; vm_compute; reflexivity.
Qed.

(** A rule whose parameters are not a container raises and is skipped; the
    rule after it works on the text as it was. *)
Example failing_rule_is_skipped :
  let broken := {| rule_name := u "substituir"; rule_type := u "regex_replace";
                   parameters := VInt 5 |} in
  let clean := {| rule_name := u "limpar"; rule_type := u "html_clean";
                  parameters := VDict [] |} in
  @BaseProcessor.apply_rule Standins.plain broken (u "Texto")
    = raise_of TypeError /\
  @BaseProcessor.apply_rules Standins.plain [broken; clean] (u "Texto") empty_world
    = (Ok (u "Texto"),
       with_logged empty_world (RuleFailed (u "substituir") (Exn TypeError []))).
Proof. split; vm_compute; reflexivity. Qed.

(** Three pieces around two full stops, five words, seven vowels: the
    formula gives 86.70..., that is 26011/30000 after the division by 100; a
    text of blanks has no word and scores 0. *)
Example readability_examples :
  match @QualityProcessor._calculate_readability Standins.plain
          (u "O sol nasce. Tudo bem.") with
  | Ok q => Qeq_bool q (26011 # 30000)
  | Raise _ => false
  end = true /\
  @QualityProcessor._calculate_readability Standins.plain (u "   ") = Ok 0%Q /\
  List.length (re_split QualityProcessor.sentence_end (u "   ")) = 1 /\
  List.length (split (u "   ")) = 0.
Proof. repeat split; vm_compute; reflexivity. Qed.

(** * Further properties *)

(** ** Cleaning text *)

Section Whitespace.

Lemma lstrip_edge_ok (s : str) : edge_ok s -> lstrip s = s.
Proof.
  destruct s as [| c s]; [reflexivity |]. simpl. intros ->. reflexivity.
Qed.

Lemma spacefree_edge_ok (s : str) : spacefree s -> edge_ok s.
Proof.
  intros H. destruct s as [| c s]; [exact I |]. now inversion H.
Qed.

Lemma spacefree_rev (s : str) : spacefree s -> spacefree (rev s).
Proof. apply Forall_rev. Qed.

Lemma edge_ok_app (a b : str) : a <> [] -> edge_ok a -> edge_ok (a ++ b).
Proof.
  destruct a as [| c a]; [congruence |]. intros _ H. exact H.
Qed.

Lemma strip_spacefree (s : str) : spacefree s -> strip s = s.
Proof.
  intros H. unfold strip.
  rewrite (lstrip_edge_ok s) by now apply spacefree_edge_ok.
  rewrite lstrip_edge_ok by now apply spacefree_edge_ok, spacefree_rev.
  apply rev_involutive.
Qed.

Lemma strip_leading_space (c : N) (s : str) :
  is_space c = true -> strip (c :: s) = strip s.
Proof. intros H. unfold strip. simpl. rewrite H. reflexivity. Qed.

(** The pieces of a split: none holds white space, and all but the last
    are non-empty once a character or a run of delimiters has been read. *)
Lemma split_runs_spacefree (t : str) :
  forall cur in_run,
    spacefree cur -> Forall spacefree (split_runs is_space cur in_run t).
Proof.
  induction t as [| c t IH]; intros cur in_run Hc; simpl.
  - constructor; [now apply spacefree_rev | constructor].
  - destruct (is_space c) eqn:E.
    + destruct in_run.
      * apply IH. constructor.
      * constructor; [now apply spacefree_rev | apply IH; constructor].
    + apply IH. constructor; assumption.
Qed.

Lemma split_runs_not_nil (d : N -> bool) (t : str) :
  forall cur in_run, split_runs d cur in_run t <> [].
Proof.
  intros cur in_run H.
  pose proof (split_runs_nonempty d t cur in_run) as L.
  rewrite H in L. simpl in L. lia.
Qed.

Lemma removelast_cons {A : Type} (x : A) (l : list A) :
  l <> [] -> removelast (x :: l) = x :: removelast l.
Proof. destruct l; [congruence | reflexivity]. Qed.

Lemma split_runs_inner (t : str) :
  forall cur in_run,
    cur <> [] \/ in_run = true ->
    Forall (fun p => p <> []) (removelast (split_runs is_space cur in_run t)).
Proof.
  induction t as [| c t IH]; intros cur in_run H; simpl.
  - constructor.
  - destruct (is_space c).
    + destruct in_run.
      * apply IH. now right.
      * rewrite removelast_cons by apply split_runs_not_nil.
        constructor; [| apply IH; now right].
        destruct H as [H | H]; [| discriminate].
        intros E. apply H. apply (f_equal (@rev N)) in E.
        now rewrite rev_involutive in E.
    + apply IH. left. discriminate.
Qed.

End Whitespace.

Section Words.

Lemma join_app_last (sep : str) (mid : list str) (last : str) :
  mid <> [] -> join sep (mid ++ [last]) = join sep mid ++ sep ++ last.
Proof.
  induction mid as [| x mid IH]; [congruence |]. intros _.
  destruct mid as [| y mid]; [reflexivity |].
  change (join sep ((x :: y :: mid) ++ [last]))
    with (x ++ sep ++ join sep ((y :: mid) ++ [last])).
  rewrite IH by discriminate.
  change (join sep (x :: y :: mid)) with (x ++ sep ++ join sep (y :: mid)).
  now rewrite <- !app_assoc.
Qed.

Lemma filter_nonempty_all (l : list str) :
  Forall (fun p => p <> []) l -> filter nonempty l = l.
Proof.
  induction 1 as [| x l Hx _ IH]; [reflexivity |]. simpl.
  destruct x; [congruence |]. simpl. now rewrite IH.
Qed.

Lemma join_not_nil (sep : str) (mid : list str) :
  mid <> [] -> Forall (fun p => p <> []) mid -> join sep mid <> [].
Proof.
  destruct mid as [| x mid]; [congruence |]. intros _ H. inversion H; subst.
  destruct x as [| c x]; [congruence |].
  destruct mid; simpl; discriminate.
Qed.

Lemma edge_ok_join (sep : str) (mid : list str) :
  Forall (fun p => p <> []) mid -> Forall spacefree mid -> edge_ok (join sep mid).
Proof.
  destruct mid as [| x mid]; [intros; exact I |]. intros Hn Hs.
  inversion Hn; subst. inversion Hs; subst.
  destruct mid as [| y mid].
  - now apply spacefree_edge_ok.
  - change (join sep (x :: y :: mid)) with (x ++ sep ++ join sep (y :: mid)).
    apply edge_ok_app; [assumption | now apply spacefree_edge_ok].
Qed.

Lemma edge_ok_rev_join (sep : str) (mid : list str) :
  Forall (fun p => p <> []) mid -> Forall spacefree mid ->
  edge_ok (rev (join sep mid)).
Proof.
  induction mid as [| x mid IH]; [intros; exact I |]. intros Hn Hs.
  inversion Hn; subst. inversion Hs; subst.
  destruct mid as [| y mid].
  - now apply spacefree_edge_ok, spacefree_rev.
  - change (join sep (x :: y :: mid)) with (x ++ sep ++ join sep (y :: mid)).
    rewrite !rev_app_distr, <- app_assoc.
    apply edge_ok_app; [| now apply IH].
    intros E. apply (f_equal (@rev N)) in E. rewrite rev_involutive in E.
    revert E. apply join_not_nil; [discriminate | assumption].
Qed.

(** Stripping the joined pieces of a split leaves the non-empty pieces,
    joined. *)
Lemma strip_join_pieces (l : list str) :
  l <> [] -> Forall spacefree l ->
  Forall (fun p => p <> []) (removelast l) ->
  strip (join [32%N] l) = join [32%N] (filter nonempty l).
Proof.
  intros Hl Hs Hn.
  destruct (exists_last Hl) as (mid & last & ->). clear Hl.
  apply Forall_app in Hs. destruct Hs as [Hsm Hsl].
  inversion Hsl as [| ? ? Hlast _]; subst.
  rewrite removelast_last in Hn.
  rewrite filter_app, (filter_nonempty_all mid Hn).
  destruct mid as [| m0 mid'] eqn:Em.
  - simpl. rewrite strip_spacefree by assumption.
    destruct last; reflexivity.
  - rewrite <- Em in *. assert (Hmid : mid <> []) by (rewrite Em; discriminate).
    rewrite join_app_last by assumption.
    unfold strip.
    rewrite (lstrip_edge_ok (join [32%N] mid ++ [32%N] ++ last))
      by (apply edge_ok_app;
          [now apply join_not_nil | now apply edge_ok_join]).
    rewrite !rev_app_distr, <- app_assoc.
    destruct last as [| c last'] eqn:El.
    + cbn [rev app lstrip is_space].
      change (is_space 32) with true. cbv iota.
      rewrite lstrip_edge_ok by now apply edge_ok_rev_join.
      rewrite rev_involutive. cbn [filter nonempty]. now rewrite app_nil_r.
    + rewrite <- El in *.
      rewrite lstrip_edge_ok.
      * rewrite <- (rev_involutive (rev last ++ rev [32%N] ++ rev (join [32%N] mid))).
        rewrite rev_involutive, !rev_app_distr, !rev_involutive, <- app_assoc.
        rewrite El. cbn [filter nonempty].
        rewrite join_app_last by assumption. reflexivity.
      * apply edge_ok_app.
        -- rewrite El. intros E. apply (f_equal (@rev N)) in E.
           rewrite rev_involutive in E. discriminate.
        -- now apply spacefree_edge_ok, spacefree_rev.
Qed.

Lemma strip_collapse_spaces (t : str) :
  strip (collapse_spaces t) = join [32%N] (split t).
Proof.
  unfold collapse_spaces, split, re_split.
  destruct t as [| c t]; [reflexivity |].
  cbn [split_runs]. destruct (is_space c) eqn:E.
  - cbn [rev]. pose proof (split_runs_not_nil is_space t [] true) as Hne.
    change (filter nonempty ([] :: split_runs is_space [] true t))
      with (filter nonempty (split_runs is_space [] true t)).
    assert (Hj : join [32%N] ([] :: split_runs is_space [] true t)
                 = 32%N :: join [32%N] (split_runs is_space [] true t)).
    { destruct (split_runs is_space [] true t); [congruence | reflexivity]. }
    rewrite Hj, strip_leading_space by reflexivity.
    apply strip_join_pieces.
    + apply split_runs_not_nil.
    + apply split_runs_spacefree. constructor.
    + apply split_runs_inner. now right.
  - apply strip_join_pieces.
    + apply split_runs_not_nil.
    + apply split_runs_spacefree. constructor; [exact E | constructor].
    + apply split_runs_inner. left. discriminate.
Qed.

Lemma split_words (t : str) :
  Forall (fun word => word <> [] /\ spacefree word) (split t).
Proof.
  unfold split, re_split.
  pose proof (split_runs_spacefree t [] false ltac:(constructor)) as H.
  induction H as [| p l Hp _ IH]; [constructor |].
  cbn [filter]. destruct p as [| c p]; cbn [nonempty]; [exact IH |].
  constructor; [split; [discriminate | exact Hp] | exact IH].
Qed.

End Words.

(** X1. [clean_text] returns the words of the parsed text joined by single
    spaces: the empty string for a value that is not true, the exception of
    the parser when it raises, and otherwise [" ".join(text.split())] of the
    text the parser extracts; a word is never empty and holds no white
    space. *)
Theorem clean_text_joins_words {ext : Externals} (text : pyval) :
  (truthy text = false -> BaseCollector.clean_text text = Ok []) /\
  (forall e,
     truthy text = true -> BeautifulSoup text = Raise e ->
     BaseCollector.clean_text text = Raise e) /\
  (forall doc,
     truthy text = true -> BeautifulSoup text = Ok doc ->
     BaseCollector.clean_text text = Ok (join [32%N] (split (get_text doc))) /\
     Forall (fun word => word <> [] /\ spacefree word) (split (get_text doc))).
Proof.
  unfold BaseCollector.clean_text. split; [| split].
  - intros ->. reflexivity.
  - intros e -> ->. reflexivity.
  - intros doc -> ->. cbn [negb rbind].
    rewrite strip_collapse_spaces. split; [reflexivity | apply split_words].
Qed.

(** ** Dates and links *)

Section Dates.
Context {ext : Externals}.

(** A format that parses wins when every format before it raises
    [ValueError]; when all of them do, there is no date. *)
Lemma try_formats_first (date_str : str) (pre : list str) :
  (forall f, In f pre ->
     exists e, strptime date_str f = Raise e /\ is_class ValueError e = true) ->
  forall rest,
    BaseCollector.try_formats date_str (pre ++ rest)
    = BaseCollector.try_formats date_str rest.
Proof.
  induction pre as [| f pre IH]; intros H rest; [reflexivity |].
  cbn [app BaseCollector.try_formats].
  destruct (H f (or_introl eq_refl)) as (e & -> & ->).
  apply IH. intros g Hg. apply H. now right.
Qed.

End Dates.

(** X2. [extract_date] never raises and touches no table: the empty string
    gives no date and no warning; a configured format gives what [strptime]
    gives for it, and without one the first of the six common formats that
    parses wins, the formats before it having raised [ValueError]; when all
    six raise [ValueError] there is no date and no warning; any other
    exception, and any exception at all of a configured format, is logged
    as one warning and gives no date. *)
Theorem extract_date_never_raises {ext : Externals}
  (date_str : str) (date_format : option str) (w : World) :
  exists d w',
    BaseCollector.extract_date date_str date_format w = (Ok d, w') /\
    (w' = w \/ exists e, d = None /\ w' = with_logged w (DateWarning e)) /\
    (date_str = [] -> d = None /\ w' = w) /\
    (forall fmt r,
       date_str <> [] -> date_format = Some fmt -> fmt <> [] ->
       strptime date_str fmt = Ok r -> d = Some r /\ w' = w) /\
    (forall pre fmt post r,
       date_str <> [] -> date_format = None \/ date_format = Some [] ->
       BaseCollector.formats = pre ++ fmt :: post ->
       (forall f, In f pre ->
          exists e, strptime date_str f = Raise e /\ is_class ValueError e = true) ->
       strptime date_str fmt = Ok r -> d = Some r /\ w' = w) /\
    (date_str <> [] -> date_format = None \/ date_format = Some [] ->
     (forall f, In f BaseCollector.formats ->
        exists e, strptime date_str f = Raise e /\ is_class ValueError e = true) ->
     d = None /\ w' = w) /\
    (forall fmt e,
       date_str <> [] -> date_format = Some fmt -> fmt <> [] ->
       strptime date_str fmt = Raise e ->
       d = None /\ w' = with_logged w (DateWarning e)) /\
    (forall pre fmt post e,
       date_str <> [] -> date_format = None \/ date_format = Some [] ->
       BaseCollector.formats = pre ++ fmt :: post ->
       (forall f, In f pre ->
          exists e, strptime date_str f = Raise e /\ is_class ValueError e = true) ->
       strptime date_str fmt = Raise e -> is_class ValueError e = false ->
       d = None /\ w' = with_logged w (DateWarning e)).
Proof.
  unfold BaseCollector.extract_date.
  destruct date_str as [| c s].
  { exists None, w. cbn. repeat split; auto; intros; congruence. }
  cbn [nonempty negb]. unfold try_except, lift, bind, ret, log.
  set (attempt := match date_format with
                  | Some (c0 :: fmt) =>
                      (d <~ strptime (c :: s) (c0 :: fmt) ;; Ok (Some d))%res
                  | _ => BaseCollector.try_formats (c :: s) BaseCollector.formats
                  end).
  assert (Hfmt : forall fmt r,
            date_format = Some fmt -> fmt <> [] ->
            strptime (c :: s) fmt = Ok r -> attempt = Ok (Some r)).
  { intros fmt r -> Hne Hr. unfold attempt.
    destruct fmt; [congruence |]. rewrite Hr. reflexivity. }
  assert (Hcommon : date_format = None \/ date_format = Some [] ->
            attempt = BaseCollector.try_formats (c :: s) BaseCollector.formats).
  { intros [-> | ->]; reflexivity. }
  assert (Hfirst : forall pre fmt post r,
            date_format = None \/ date_format = Some [] ->
            BaseCollector.formats = pre ++ fmt :: post ->
            (forall f, In f pre ->
               exists e, strptime (c :: s) f = Raise e /\ is_class ValueError e = true) ->
            strptime (c :: s) fmt = Ok r -> attempt = Ok (Some r)).
  { intros pre fmt post r Hc Hf Hpre Hr.
    rewrite (Hcommon Hc), Hf, (try_formats_first _ pre Hpre).
    cbn [BaseCollector.try_formats]. rewrite Hr. reflexivity. }
  assert (Hnone : date_format = None \/ date_format = Some [] ->
            (forall f, In f BaseCollector.formats ->
               exists e, strptime (c :: s) f = Raise e /\ is_class ValueError e = true) ->
            attempt = Ok None).
  { intros Hc Hall. rewrite (Hcommon Hc).
    rewrite <- (app_nil_r BaseCollector.formats).
    rewrite (try_formats_first _ _ Hall). reflexivity. }
  assert (Hraise : forall fmt e,
            date_format = Some fmt -> fmt <> [] ->
            strptime (c :: s) fmt = Raise e -> attempt = Raise e).
  { intros fmt e -> Hne Hr. unfold attempt.
    destruct fmt; [congruence |]. rewrite Hr. reflexivity. }
  assert (Hother : forall pre fmt post e,
            date_format = None \/ date_format = Some [] ->
            BaseCollector.formats = pre ++ fmt :: post ->
            (forall f, In f pre ->
               exists e, strptime (c :: s) f = Raise e /\ is_class ValueError e = true) ->
            strptime (c :: s) fmt = Raise e -> is_class ValueError e = false ->
            attempt = Raise e).
  { intros pre fmt post e Hc Hf Hpre Hr Hclass.
    rewrite (Hcommon Hc), Hf, (try_formats_first _ pre Hpre).
    cbn [BaseCollector.try_formats]. rewrite Hr, Hclass. reflexivity. }
  clearbody attempt.
  destruct attempt as [d | e].
  - exists d, w. split; [reflexivity |]. split; [now left |].
    split; [intros; congruence |].
    split; [intros fmt r _ Hf Hne Hr; specialize (Hfmt fmt r Hf Hne Hr); split; congruence |].
    split; [intros pre fmt post r _ Hc Hf Hpre Hr;
            specialize (Hfirst pre fmt post r Hc Hf Hpre Hr); split; congruence |].
    split; [intros _ Hc Hall; specialize (Hnone Hc Hall); split; congruence |].
    split; [intros fmt e _ Hf Hne Hr; specialize (Hraise fmt e Hf Hne Hr); discriminate |].
    intros pre fmt post e _ Hc Hf Hpre Hr Hclass.
    specialize (Hother pre fmt post e Hc Hf Hpre Hr Hclass). discriminate.
  - exists None, (with_logged w (DateWarning e)). split; [reflexivity |].
    split; [right; exists e; auto |].
    split; [intros; congruence |].
    split; [intros fmt r _ Hf Hne Hr; specialize (Hfmt fmt r Hf Hne Hr); congruence |].
    split; [intros pre fmt post r _ Hc Hf Hpre Hr;
            specialize (Hfirst pre fmt post r Hc Hf Hpre Hr); congruence |].
    split; [intros _ Hc Hall; specialize (Hnone Hc Hall); congruence |].
    split; [intros fmt e0 _ Hf Hne Hr; specialize (Hraise fmt e0 Hf Hne Hr);
            injection Hraise as <-; split; reflexivity |].
    intros pre fmt post e0 _ Hc Hf Hpre Hr Hclass.
    specialize (Hother pre fmt post e0 Hc Hf Hpre Hr Hclass).
    injection Hother as <-. split; reflexivity.
Qed.

(** A link is an article link exactly when its address and its text are
    not empty and either the lower-cased address holds one of the five
    article path keywords, whatever the text is, or the text has between 10
    and 200 characters and its lower case holds none of the five navigation
    words. *)
Lemma is_article_link_spec {ext : Externals} (href title_ : str) :
  WebsiteCollector.is_article_link href title_ = true <->
  href <> [] /\ title_ <> [] /\
  (any_in WebsiteCollector.article_keywords (lower href) = true \/
   (10 <= List.length title_ <= 200 /\
    any_in WebsiteCollector.nav_keywords (lower title_) = false)).
Proof.
  unfold WebsiteCollector.is_article_link.
  destruct href as [| h href]; [cbn; split; [discriminate | intros [H _]; congruence] |].
  destruct title_ as [| c t]; [cbn; split; [discriminate | intros (_ & H & _); congruence] |].
  cbn [nonempty negb orb].
  destruct (any_in WebsiteCollector.article_keywords (lower (h :: href))).
  { split; [intros _ | reflexivity]. repeat split; try discriminate. now left. }
  destruct (Nat.ltb_spec (List.length (c :: t)) 10) as [L | L]; cbn [orb].
  { split; [discriminate |]. intros (_ & _ & [H | [[H _] _]]); [discriminate | lia]. }
  destruct (Nat.ltb_spec 200 (List.length (c :: t))) as [U | U].
  { split; [discriminate |]. intros (_ & _ & [H | [[_ H] _]]); [discriminate | lia]. }
  destruct (any_in WebsiteCollector.nav_keywords (lower (c :: t))).
  - split; [discriminate |]. intros (_ & _ & [H | [_ H]]); discriminate.
  - split; [intros _ | reflexivity].
    repeat split; try discriminate. right. repeat split; auto.
Qed.

(** ** What a run keeps *)

Section Kept.

Lemma kept_ret {A : Type} (a : A) : records_kept (ret a).
Proof. intros w. split; reflexivity. Qed.

Lemma kept_lift {A : Type} (r : Res A) : records_kept (lift r).
Proof. intros w. split; reflexivity. Qed.

Lemma kept_log (l : logged) : records_kept (log l).
Proof. intros w. split; reflexivity. Qed.

Lemma kept_bind {A B : Type} (c : M A) (k : A -> M B) :
  records_kept c -> (forall a, records_kept (k a)) -> records_kept (bind c k).
Proof.
  intros Hc Hk w. unfold bind. specialize (Hc w).
  destruct (c w) as [[a | e] w1]; cbn [snd] in *; [| exact Hc].
  destruct (Hk a w1) as [L A1]. destruct Hc as [L0 A0]. split; congruence.
Qed.

Lemma kept_try {A : Type} (c : M A) (h : exn -> M A) :
  records_kept c -> (forall e, records_kept (h e)) -> records_kept (try_except c h).
Proof.
  intros Hc Hh w. unfold try_except. specialize (Hc w).
  destruct (c w) as [[a | e] w1]; cbn [snd] in *; [exact Hc |].
  destruct (Hh e w1) as [L A1]. destruct Hc as [L0 A0]. split; congruence.
Qed.

Lemma kept_mfilter_map {A B : Type} (f : A -> M (option B)) (l : list A) :
  (forall x, records_kept (f x)) -> records_kept (mfilter_map f l).
Proof.
  intros Hf. induction l as [| x l IH]; cbn [mfilter_map].
  - apply kept_ret.
  - apply kept_bind; [apply Hf | intros y].
    apply kept_bind; [exact IH | intros ys; apply kept_ret].
Qed.

End Kept.

Create HintDb kept.

Ltac kept :=
  repeat first
    [ solve [auto with kept nocore]
    | apply kept_ret | apply kept_lift | apply kept_log
    | apply kept_bind; [| intros ?]
    | apply kept_try; [| intros ?]
    | apply kept_mfilter_map; intros ?
    | match goal with
      | |- records_kept (match ?x with _ => _ end) => destruct x
      | |- records_kept (if ?b then _ else _) => destruct b
      end ].

Section KeptByCollectors.
Context {ext : Externals} {orm : Orm}.

Lemma kept_extract_date (date_str : str) (date_format : option str) :
  records_kept (BaseCollector.extract_date date_str date_format).
Proof. unfold BaseCollector.extract_date. kept. Qed.

#[local] Hint Resolve kept_extract_date : kept.

Lemma kept_extract_article_data (self : Collector) (element : node) :
  records_kept (WebsiteCollector.extract_article_data self element).
Proof.
  unfold WebsiteCollector.extract_article_data,
    WebsiteCollector.extract_article_data_body.
  kept.
Qed.

#[local] Hint Resolve kept_extract_article_data : kept.

Lemma kept_parse_html (self : Collector) (html : str) :
  records_kept (WebsiteCollector.parse_html self html).
Proof.
  unfold WebsiteCollector.parse_html, WebsiteCollector.config_extract_articles.
  kept.
Qed.

Lemma kept_parse_api_item (self : Collector) (item : pyval) :
  records_kept (APICollector.parse_api_item self item).
Proof.
  unfold APICollector.parse_api_item, APICollector.parse_api_item_body.
  kept.
Qed.

#[local] Hint Resolve kept_parse_api_item : kept.

Lemma kept_parse_api_response (self : Collector) (data : pyval) :
  records_kept (APICollector.parse_api_response self data).
Proof.
  unfold APICollector.parse_api_response. kept.
Qed.

Lemma kept_collect_from_feed (self : Collector) (rss_feed : RSSFeed) :
  records_kept (RSSCollector.collect_from_feed self rss_feed).
Proof.
  unfold RSSCollector.collect_from_feed, RSSCollector.parse_rss_entry. kept.
Qed.

Lemma kept_save_feed (rss_feed : RSSFeed) :
  records_kept (RSSCollector.save_feed rss_feed).
Proof.
  intros w. destruct (save_feed_cases rss_feed w) as (r & w' & -> & L & A).
  split; assumption.
Qed.

Lemma kept_collect_feeds (self : Collector) (feeds : list RSSFeed) :
  forall all_articles,
    records_kept (RSSCollector.collect_feeds self feeds all_articles).
Proof.
  intros all_articles w.
  destruct (collect_feeds_total self feeds all_articles w) as (w' & -> & L & A).
  split; assumption.
Qed.

#[local] Hint Resolve kept_parse_html kept_parse_api_response : kept.

(** The shape the Website and the API [collect] share: a guarded fetch,
    then the call of [self.save_articles] and the record of the success. On
    a collector without the attribute no success is recorded. *)
Lemma guarded_fetch_as_built (self : Collector)
  (fetch : M (option (list Candidate))) (w : World) :
  attr_save_articles self = None ->
  records_kept fetch ->
  no_success_recorded w
    ((fetched <-
        try_except fetch
          (fun e =>
             log (CollectFailed e) ;;;
             BaseCollector.log_collection self error 0 (Some [exn_str e]) ;;;
             ret None) ;;
      match fetched with
      | None => ret []
      | Some found =>
          save <- getattr_save_articles self ;;
          saved_count <- save found ;;
          BaseCollector.log_collection self success saved_count None ;;;
          ret found
      end)%m w).
Proof.
  intros Hattr Hkept.
  unfold bind at 1. unfold try_except.
  destruct (Hkept w) as [L A0].
  destruct (fetch w) as [[[found |] | e] w1]; cbn [snd fst] in L, A0.
  - unfold bind, getattr_save_articles. rewrite Hattr.
    unfold no_success_recorded. cbn [lift fst snd].
    split; [right; now left |]. split; [exact A0 | now left].
  - unfold no_success_recorded. cbn [ret fst snd].
    split; [now left |]. split; [exact A0 | now left].
  - unfold bind at 1, log at 1. unfold bind at 1.
    rewrite log_collection_cases. cbv zeta. cbn [log_errors].
    assert (Hg : async_unsafe = Ok tt \/ exists g, async_unsafe = Raise g)
      by (destruct async_unsafe as [[] | g]; eauto).
    destruct Hg as [Hg | (g & Hg)]; rewrite Hg.
    + destruct (insert_log _) as [[] | d] eqn:Ei.
      * unfold no_success_recorded.
        cbn [ret fst snd with_record with_logged collection_logs articles].
        split; [now left |]. split; [exact A0 |].
        right. exists e. rewrite L. auto.
      * unfold no_success_recorded.
        cbn [fst snd with_logged collection_logs articles].
        split; [right; right; exists d; split; [reflexivity | right; eauto] |].
        split; [exact A0 | left; exact L].
    + unfold no_success_recorded.
      cbn [fst snd with_logged collection_logs articles].
      split; [right; right; exists g; split; [reflexivity | now left] |].
      split; [exact A0 | left; exact L].
Qed.

Lemma collect_from_source_as_built (src : NewsSource)
  (session : str -> option pyval -> Res Response) (w : World) :
  no_success_recorded w (collect_from_source src session w).
Proof.
  assert (Hg : async_unsafe = Ok tt \/ exists g, async_unsafe = Raise g)
    by (destruct async_unsafe as [[] | g]; eauto).
  assert (Hraise : forall g, async_unsafe = Raise g ->
            no_success_recorded w (@Raise (list Candidate) g, w)).
  { intros g H. unfold no_success_recorded. cbn [fst snd].
    split; [right; right; exists g; split; [reflexivity | now left] |].
    split; [reflexivity | now left]. }
  unfold collect_from_source. unfold bind at 1, lift at 1.
  destruct (BaseCollector.read_scraping_config src) as [cfg | g] eqn:Er.
  - destruct (str_eqb (source_type src) (u "rss")).
    + set (self := RSSCollector.__init__ src session).
      destruct Hg as [Hg | (g & Hg)].
      * destruct (rss_collect_as_built self w Hg eq_refl) as (w1 & -> & L & A).
        unfold no_success_recorded. cbn [fst snd].
        split; [right; now left |]. split; [exact A | now left].
      * rewrite (rss_collect_guarded self g w Hg). apply Hraise. exact Hg.
    + destruct (str_eqb (source_type src) (u "api")).
      * unfold APICollector.collect.
        destruct (config (APICollector.__init__ src session)) as [c |] eqn:Ec.
        -- destruct (nonempty (api_endpoint c)); cbn [negb].
           ++ apply guarded_fetch_as_built; [reflexivity | kept].
           ++ unfold no_success_recorded. cbn.
              split; [now left |]. split; [reflexivity | now left].
        -- unfold no_success_recorded. cbn.
           split; [now left |]. split; [reflexivity | now left].
      * unfold WebsiteCollector.collect.
        apply guarded_fetch_as_built; [reflexivity | kept].
  - apply Hraise. unfold BaseCollector.read_scraping_config in Er.
    destruct (config_cached src); [discriminate Er |].
    destruct async_unsafe as [[] | g']; [discriminate Er |].
    cbn [rbind] in Er. congruence.
Qed.

End KeptByCollectors.

#[global] Hint Resolve kept_extract_date kept_extract_article_data
  kept_parse_html kept_parse_api_item kept_parse_api_response
  kept_collect_from_feed kept_collect_feeds : kept.

(** X3. As the classes build their collectors (none defines
    [save_articles]), a run started through [collect_from_source] never
    returns a candidate, never stores an article and never records a
    success. Where Django refuses database calls from a coroutine, as it
    does unless [DJANGO_ALLOW_ASYNC_UNSAFE] is set, the run leaves no record
    at all, and unless the source instance holds its [scraping_config]
    already it ends in the constructor, before any request, with the
    exception of that check. Otherwise it returns the empty list or raises
    [AttributeError] or what the database raises, and the only record it
    can leave is the error record of a fetch that raised. *)
Theorem as_built_run_records_no_success {ext : Externals} {orm : Orm}
  (src : NewsSource) (session : str -> option pyval -> Res Response) (w : World) :
  let run := collect_from_source src session w in
  (fst run = Ok [] \/ fst run = Raise (Exn AttributeError []) \/
   exists e, fst run = Raise e /\
             (async_unsafe = Raise e \/ exists row, insert_log row = Raise e)) /\
  articles (snd run) = articles w /\
  (collection_logs (snd run) = collection_logs w \/
   exists e,
     async_unsafe = Ok tt /\ fst run = Ok [] /\
     collection_logs (snd run)
     = collection_logs w ++
       [ {| log_status := error; articles_collected := 0;
            log_errors := [exn_str e] |} ]) /\
  (forall e, async_unsafe = Raise e ->
             collection_logs (snd run) = collection_logs w) /\
  (forall e, async_unsafe = Raise e -> config_cached src = false ->
             run = (Raise e, w)).
Proof.
  intros run.
  destruct (collect_from_source_as_built src session w) as (Hres & Hart & Hlog).
  fold run in Hres, Hart, Hlog.
  split; [exact Hres |]. split; [exact Hart |]. split; [exact Hlog |].
  split.
  - intros e Hg. destruct Hlog as [L | (e0 & Hok & _)]; [exact L | congruence].
  - intros e Hg Hc. unfold run, collect_from_source.
    unfold bind at 1, lift at 1. unfold BaseCollector.read_scraping_config.
    rewrite Hc, Hg. reflexivity.
Qed.

(** The Website source of the samples against a server that answers 404:
    with Django as installed the run ends in the constructor; with database
    calls allowed it raises [AttributeError] once the page is fetched. No
    record is left either way. *)
Lemma site_run_as_built :
  let session := fun (_ : str) (_ : option pyval) => Ok not_found in
  @collect_from_source Standins.plain Standins.guarded site session empty_world
    = (Raise (Exn SynchronousOnlyOperation []), empty_world) /\
  fst (@collect_from_source Standins.plain Standins.unguarded site session
         empty_world)
    = Raise (Exn AttributeError []) /\
  collection_logs
    (snd (@collect_from_source Standins.plain Standins.unguarded site session
            empty_world))
    = [].
Proof.
  intros session.
  destruct (@as_built_run_records_no_success Standins.plain Standins.guarded
              site session empty_world) as (_ & _ & _ & _ & Hguard).
  destruct (@as_built_run_records_no_success Standins.plain Standins.unguarded
              site session empty_world) as (_ & _ & _ & _ & _).
  split; [exact (Hguard _ eq_refl eq_refl) |].
  split; vm_compute; reflexivity.
Defined.

(** ** Failed fetches and request headers *)

(** X4. A fetch that raises is logged once, and then the handler creates
    the record of the run. Where Django refuses database calls from a
    coroutine, as it does unless [DJANGO_ALLOW_ASYNC_UNSAFE] is set, that
    raises: the exception leaves [collect] and there is no record. Where
    the database refuses the row, its exception leaves [collect] likewise.
    Otherwise there is exactly one more record, with status error, zero
    articles and the text of the exception as its only error, and the run
    returns the empty list. This holds for the Website collector and, once
    the request headers are built, for the API collector. *)
Theorem fetch_exception_recorded {ext : Externals} {orm : Orm}
  (self : Collector) (e : exn) (w : World) :
  let row := {| log_status := error; articles_collected := 0;
                log_errors := [exn_str e] |} in
  let outcome :=
    match async_unsafe with
    | Raise refused => (Raise refused, with_logged w (CollectFailed e))
    | Ok _ =>
        match insert_log row with
        | Raise d => (Raise d, with_logged w (CollectFailed e))
        | Ok _ =>
            (@Ok (list Candidate) [],
             with_record (with_logged w (CollectFailed e)) row)
        end
    end in
  (session_get self (source_url (source self)) None = Raise e ->
   WebsiteCollector.collect self w = outcome) /\
  (forall cfg headers,
     config self = Some cfg ->
     api_endpoint cfg <> [] ->
     APICollector.request_headers cfg = Ok headers ->
     session_get self (api_endpoint cfg) (Some headers) = Raise e ->
     APICollector.collect self w = outcome).
Proof.
  intros row outcome.
  assert (Hrow : match BaseCollector.log_collection self error 0
                         (Some [exn_str e]) (with_logged w (CollectFailed e)) with
                 | (Ok _, w') => (Ok [], w')
                 | (Raise e', w') => (Raise e', w')
                 end = outcome).
  { rewrite log_collection_cases. cbv zeta. cbn [log_errors]. unfold outcome.
    fold row.
    destruct async_unsafe as [[] | g]; [| reflexivity].
    destruct (insert_log row) as [[] | d]; reflexivity. }
  split.
  - intros H. rewrite <- Hrow. apply website_fetch_exception. exact H.
  - intros cfg headers Hc He Hh H. rewrite <- Hrow.
    apply (api_fetch_exception self cfg headers); assumption.
Qed.

(** A server that cannot be reached: with Django as installed the run
    raises after logging the failure and leaves no record; with database
    calls allowed it leaves the error record and returns the empty list. *)
Lemma unreachable_site_runs :
  let self := WebsiteCollector.__init__ site (fun _ _ => raise_of ClientError) in
  let e := Exn ClientError [] in
  @WebsiteCollector.collect Standins.plain Standins.guarded self empty_world
    = (Raise (Exn SynchronousOnlyOperation []),
       with_logged empty_world (CollectFailed e)) /\
  @WebsiteCollector.collect Standins.plain Standins.unguarded self empty_world
    = (Ok [],
       with_record (with_logged empty_world (CollectFailed e))
         {| log_status := error; articles_collected := 0;
            log_errors := [exn_str e] |}).
Proof.
  intros self e.
  split.
  - exact (proj1 (@fetch_exception_recorded Standins.plain Standins.guarded
                    self e empty_world) eq_refl).
  - exact (proj1 (@fetch_exception_recorded Standins.plain Standins.unguarded
                    self e empty_world) eq_refl).
Defined.

Section BadBodies.
Context {ext : Externals}.

Lemma response_items_not_dict (data : pyval) :
  (forall d, data <> VDict d) ->
  APICollector.response_items data = raise_of AttributeError.
Proof.
  intros H. destruct data; try reflexivity. exfalso. now apply (H d).
Qed.

End BadBodies.

(** X5. When the API answers 200 and its body cannot be read as JSON, or is
    JSON but not an object (a bare array, say), the run is handled as a
    fetch that raised: the exception is logged and the handler creates the
    error record with that one error and returns the empty list, where
    Django takes database calls from a coroutine and the database takes the
    row; where it does not, as installed, the exception of the database
    call leaves [collect] and there is no record. In the second case of
    the body the exception handled is the [AttributeError] of [data.get]. *)
Theorem api_unreadable_body_recorded {ext : Externals} {orm : Orm}
  (self : Collector) (cfg : ScrapingConfig) (headers : pyval)
  (response : Response) (w : World) :
  config self = Some cfg ->
  api_endpoint cfg <> [] ->
  APICollector.request_headers cfg = Ok headers ->
  session_get self (api_endpoint cfg) (Some headers) = Ok response ->
  resp_status response = 200%Z ->
  (forall d, resp_json response <> Ok (VDict d)) ->
  exists e,
    let row := {| log_status := error; articles_collected := 0;
                  log_errors := [exn_str e] |} in
    APICollector.collect self w =
    match async_unsafe with
    | Raise refused => (Raise refused, with_logged w (CollectFailed e))
    | Ok _ =>
        match insert_log row with
        | Raise d => (Raise d, with_logged w (CollectFailed e))
        | Ok _ => (Ok [], with_record (with_logged w (CollectFailed e)) row)
        end
    end /\
    (resp_json response = Raise e \/
     exists data, resp_json response = Ok data /\ exn_kind e = AttributeError).
Proof.
  intros Hc He Hh Hget Hst Hbody.
  assert (Hrun : forall e,
            (data <~ resp_json response ;;
             APICollector.response_items data)%res = Raise e ->
            APICollector.collect self w =
            match BaseCollector.log_collection self error 0 (Some [exn_str e])
                    (with_logged w (CollectFailed e)) with
            | (Ok _, w') => (Ok [], w')
            | (Raise e', w') => (Raise e', w')
            end).
  { intros e H. unfold APICollector.collect. rewrite Hc.
    destruct (api_endpoint cfg) as [| c endpoint] eqn:Ee; [congruence |].
    cbn [nonempty negb].
    unfold bind at 1. unfold try_except. unfold bind at 1, lift at 1.
    rewrite Hh. unfold bind at 1, lift at 1. rewrite Hget, Hst.
    cbn [Z.eqb Pos.eqb].
    unfold bind at 1, lift at 1.
    destruct (resp_json response) as [data | e0]; cbn [rbind] in H.
    - unfold bind at 1. unfold APICollector.parse_api_response.
      unfold bind at 1, lift at 1. rewrite H.
      unfold bind at 1, log at 1. unfold bind at 1.
      destruct (BaseCollector.log_collection self error 0 (Some [exn_str e])
                  (with_logged w (CollectFailed e))) as [[[] | e'] w'];
        reflexivity.
    - injection H as ->.
      unfold bind at 1, log at 1. unfold bind at 1.
      destruct (BaseCollector.log_collection self error 0 (Some [exn_str e])
                  (with_logged w (CollectFailed e))) as [[[] | e'] w'];
        reflexivity. }
  assert (Hcases : forall e,
            match BaseCollector.log_collection self error 0 (Some [exn_str e])
                    (with_logged w (CollectFailed e)) with
            | (Ok _, w') => (@Ok (list Candidate) [], w')
            | (Raise e', w') => (Raise e', w')
            end =
            match async_unsafe with
            | Raise refused => (Raise refused, with_logged w (CollectFailed e))
            | Ok _ =>
                match insert_log {| log_status := error; articles_collected := 0;
                                    log_errors := [exn_str e] |} with
                | Raise d => (Raise d, with_logged w (CollectFailed e))
                | Ok _ =>
                    (Ok [],
                     with_record (with_logged w (CollectFailed e))
                       {| log_status := error; articles_collected := 0;
                          log_errors := [exn_str e] |})
                end
            end).
  { intros e. rewrite log_collection_cases. cbv zeta. cbn [log_errors].
    destruct async_unsafe as [[] | g]; [| reflexivity].
    destruct (insert_log _) as [[] | d]; reflexivity. }
  destruct (resp_json response) as [data | e] eqn:Ej.
  - exists (Exn AttributeError []). cbv zeta.
    rewrite <- Hcases. split.
    + apply Hrun. cbn [rbind].
      apply response_items_not_dict. intros d ->. now apply (Hbody d).
    + right. exists data. split; reflexivity.
  - exists e. cbv zeta. rewrite <- Hcases. split.
    + apply Hrun. reflexivity.
    + now left.
Qed.

(** The API of [api_site] answering a bare array, with database calls
    allowed and with Django as installed. *)
Lemma api_array_body_recorded :
  let self := APICollector.__init__ api_site (fun _ _ => Ok array_response) in
  let e := Exn AttributeError [] in
  @APICollector.collect Standins.plain Standins.unguarded self empty_world
    = (Ok [],
       with_record (with_logged empty_world (CollectFailed e))
         {| log_status := error; articles_collected := 0;
            log_errors := [exn_str e] |}) /\
  @APICollector.collect Standins.plain Standins.guarded self empty_world
    = (Raise (Exn SynchronousOnlyOperation []),
       with_logged empty_world (CollectFailed e)).
Proof.
  intros self e.
  assert (Hkey : api_endpoint api_config <> []) by (vm_compute; discriminate).
  assert (Hbody : forall d, resp_json array_response <> Ok (VDict d))
    by (intros d; discriminate).
  destruct (@api_unreadable_body_recorded Standins.plain Standins.unguarded
              self api_config
              (VDict [ (u "Authorization", VStr (u "Bearer k")) ])
              array_response empty_world
              eq_refl Hkey eq_refl eq_refl eq_refl Hbody)
    as (e1 & E1 & _).
  destruct (@api_unreadable_body_recorded Standins.plain Standins.guarded
              self api_config
              (VDict [ (u "Authorization", VStr (u "Bearer k")) ])
              array_response empty_world
              eq_refl Hkey eq_refl eq_refl eq_refl Hbody)
    as (e2 & E2 & _).
  split; vm_compute; reflexivity.
Defined.

Section Dicts.

Lemma str_eqb_eq (a : str) : forall b, str_eqb a b = true <-> a = b.
Proof.
  induction a as [| x a IH]; intros [| y b]; simpl;
    try (split; [discriminate | congruence]); [tauto |].
  rewrite andb_true_iff, N.eqb_eq, IH. split.
  - intros [-> ->]. reflexivity.
  - intros [= -> ->]. auto.
Qed.

Lemma str_eqb_refl (a : str) : str_eqb a a = true.
Proof. now apply str_eqb_eq. Qed.

Lemma str_eqb_neq (a b : str) : a <> b -> str_eqb a b = false.
Proof.
  intros H. destruct (str_eqb a b) eqn:E; [| reflexivity].
  apply str_eqb_eq in E. congruence.
Qed.

(** Reading a key after [d[k] = v]: the key set gives [v], every other key
    gives what it gave before. *)
Lemma lookup_dict_set_same (k : str) (v : pyval) (d : list (str * pyval)) :
  lookup k (APICollector.dict_set k v d) = Some v.
Proof.
  induction d as [| [k' v'] d IH]; simpl.
  - now rewrite str_eqb_refl.
  - destruct (str_eqb k k') eqn:E; simpl; rewrite ?str_eqb_refl, ?E; auto.
Qed.

Lemma lookup_dict_set_other (k k0 : str) (v : pyval) (d : list (str * pyval)) :
  k0 <> k -> lookup k0 (APICollector.dict_set k v d) = lookup k0 d.
Proof.
  intros H. induction d as [| [k' v'] d IH]; simpl.
  - now rewrite str_eqb_neq.
  - destruct (str_eqb k k') eqn:E; simpl.
    + apply str_eqb_eq in E. subst k'. now rewrite !str_eqb_neq.
    + destruct (str_eqb k0 k'); auto.
Qed.

Lemma dict_set_length (k : str) (v : pyval) (d : list (str * pyval)) :
  List.length d <= List.length (APICollector.dict_set k v d) <= S (List.length d).
Proof.
  induction d as [| [k' v'] d IH]; simpl; [lia |].
  destruct (str_eqb k k'); simpl; lia.
Qed.

End Dicts.

(** X6. The headers of the API request are the configured headers, or the
    empty dict when the configured value is not true. With an API key they
    carry [Authorization: Bearer <key>], the value replacing a configured
    Authorization header, and every other configured header stays as it
    is; without a key they are sent unchanged. A configured value that is
    true and not a dict makes the assignment raise [TypeError] when there is
    a key. *)
Theorem request_headers_authorization (cfg : ScrapingConfig) :
  (api_key cfg = [] ->
   APICollector.request_headers cfg
   = Ok (if truthy (api_headers cfg) then api_headers cfg else VDict [])) /\
  (forall d,
     api_key cfg <> [] -> api_headers cfg = VDict d ->
     exists d',
       APICollector.request_headers cfg = Ok (VDict d') /\
       lookup (u "Authorization") d'
       = Some (VStr (u "Bearer " ++ api_key cfg)) /\
       (forall k, k <> u "Authorization" -> lookup k d' = lookup k d) /\
       List.length d <= List.length d' <= S (List.length d)) /\
  (api_key cfg <> [] -> truthy (api_headers cfg) = false ->
   APICollector.request_headers cfg
   = Ok (VDict [ (u "Authorization", VStr (u "Bearer " ++ api_key cfg)) ])) /\
  (api_key cfg <> [] -> truthy (api_headers cfg) = true ->
   (forall d, api_headers cfg <> VDict d) ->
   APICollector.request_headers cfg = raise_of TypeError).
Proof.
  unfold APICollector.request_headers, APICollector.bearer.
  split; [| split; [| split]].
  - intros ->. reflexivity.
  - intros d Hk Hd. destruct (api_key cfg) as [| c key] eqn:Ek; [congruence |].
    cbn [nonempty]. rewrite Hd.
    exists (APICollector.dict_set (u "Authorization")
              (VStr (u "Bearer " ++ c :: key)) d).
    split.
    + destruct d; reflexivity.
    + split; [apply lookup_dict_set_same |].
      split; [intros k Hne; now apply lookup_dict_set_other |].
      apply dict_set_length.
  - intros Hk Hf. destruct (api_key cfg) as [| c key]; [congruence |].
    rewrite Hf. reflexivity.
  - intros Hk Ht Hnd. destruct (api_key cfg) as [| c key]; [congruence |].
    rewrite Ht. cbn [nonempty].
    destruct (api_headers cfg); try reflexivity. exfalso. now apply (Hnd d).
Qed.

(** ** Storing articles *)

Section Saving.
Context {ext : Externals} {orm : Orm}.

Lemma logged_fields (ls : list logged) :
  forall w,
    fold_left with_logged ls w =
    {| collection_logs := collection_logs w;
       logger := logger w ++ ls;
       articles := articles w;
       feeds_saved := feeds_saved w;
       needs_rollback := needs_rollback w |}.
Proof.
  induction ls as [| l ls IH]; intros w; cbn [fold_left].
  - rewrite app_nil_r. destruct w. reflexivity.
  - rewrite IH. cbn [with_logged collection_logs logger articles feeds_saved
                     needs_rollback].
    rewrite <- app_assoc. reflexivity.
Qed.

(** What [fresh] selects: candidates of the list in their order, unknown
    to the table and to each other; afterwards the table knows every
    candidate whose URL is found equal to itself. *)
Lemma fresh_subsequence (arts : list Candidate) :
  forall table, subsequence (fresh ext table arts) arts.
Proof.
  induction arts as [| a rest IH]; intros table; cbn [fresh].
  - constructor.
  - destruct (existsb (fun x => url_eqb (url x) (url a)) table).
    + apply subsequence_skip. apply IH.
    + apply subsequence_take. apply IH.
Qed.

Lemma existsb_false {A : Type} (f : A -> bool) (l : list A) :
  existsb f l = false -> forall x, In x l -> f x = false.
Proof.
  intros H x Hx. destruct (f x) eqn:E; [| reflexivity].
  assert (K : existsb f l = true) by (apply existsb_exists; eauto).
  congruence.
Qed.

Lemma fresh_unknown (arts : list Candidate) :
  forall table,
    Forall (fun a => forall x, In x table -> url_eqb (url x) (url a) = false)
      (fresh ext table arts).
Proof.
  induction arts as [| a rest IH]; intros table; cbn [fresh]; [constructor |].
  destruct (existsb (fun x => url_eqb (url x) (url a)) table) eqn:Ek;
    [apply IH |].
  constructor.
  - intros x Hx.
    exact (existsb_false (fun x => url_eqb (url x) (url a)) table Ek x Hx).
  - eapply Forall_impl; [| apply (IH (table ++ [a]))].
    intros b Hb x Hx. apply Hb. apply in_or_app. now left.
Qed.

Lemma fresh_distinct (arts : list Candidate) :
  forall table,
    ForallOrdPairs (fun a b => url_eqb (url a) (url b) = false)
      (fresh ext table arts).
Proof.
  induction arts as [| a rest IH]; intros table; cbn [fresh]; [constructor |].
  destruct (existsb (fun x => url_eqb (url x) (url a)) table); [apply IH |].
  constructor; [| apply IH].
  eapply Forall_impl; [| apply (fresh_unknown rest (table ++ [a]))].
  intros b Hb. apply Hb. apply in_or_app. right. now left.
Qed.

Lemma fresh_stored (arts : list Candidate) :
  forall table a,
    In a arts -> url_eqb (url a) (url a) = true ->
    existsb (fun x => url_eqb (url x) (url a)) (table ++ fresh ext table arts)
    = true.
Proof.
  induction arts as [| a0 rest IH]; intros table a Hin Hrefl; [destruct Hin |].
  cbn [fresh].
  destruct (existsb (fun x => url_eqb (url x) (url a0)) table) eqn:Ek.
  - destruct Hin as [<- | Hin]; [| now apply IH].
    rewrite existsb_app, Ek. reflexivity.
  - replace (table ++ a0 :: fresh ext (table ++ [a0]) rest)
      with ((table ++ [a0]) ++ fresh ext (table ++ [a0]) rest)
      by (rewrite <- app_assoc; reflexivity).
    destruct Hin as [<- | Hin]; [| now apply IH].
    rewrite !existsb_app. cbn [existsb]. rewrite Hrefl.
    rewrite orb_true_r. reflexivity.
Qed.

Lemma fresh_stored_all (arts table : list Candidate) :
  (forall a, In a arts ->
     existsb (fun x => url_eqb (url x) (url a)) table = true) ->
  fresh ext table arts = [].
Proof.
  induction arts as [| a rest IH]; intros H; [reflexivity |].
  cbn [fresh]. rewrite (H a (or_introl eq_refl)).
  apply IH. intros x Hx. apply H. now right.
Qed.

(** The loop inside the transaction. While no INSERT fails it creates the
    new candidates; from the first one that fails on, every candidate is
    answered by an exception and logged. *)
Lemma save_each_fresh (src : NewsSource) (arts : list Candidate) :
  forall n w,
    needs_rollback w = false ->
    (forall a, In a (fresh ext (articles w) arts) -> insert_article a = Ok tt) ->
    save_each arts src n w
    = (Ok (n + Z.of_nat (List.length (fresh ext (articles w) arts)))%Z,
       with_articles w (articles w ++ fresh ext (articles w) arts)).
Proof.
  induction arts as [| a rest IH]; intros n w Hnr Hins.
  - cbn [save_each fresh List.length]. rewrite Z.add_0_r, app_nil_r.
    destruct w. reflexivity.
  - cbn [save_each]. unfold bind at 1. unfold try_except.
    unfold bind at 1, url_exists at 1. rewrite Hnr.
    cbn [fresh] in Hins |- *.
    destruct (existsb (fun x => url_eqb (url x) (url a)) (articles w)) eqn:Ek.
    + unfold ret at 1. apply IH; assumption.
    + unfold bind at 1, add_article at 1. rewrite Hnr.
      rewrite (Hins a (or_introl eq_refl)). unfold ret at 1.
      rewrite IH; cbn [articles needs_rollback]; [| reflexivity |].
      * unfold with_articles.
        cbn [collection_logs logger articles feeds_saved needs_rollback
             List.length].
        rewrite <- app_assoc, Hnr. cbn [app].
        f_equal. f_equal. lia.
      * intros x Hx. apply Hins. now right.
Qed.

Lemma save_each_broken (src : NewsSource) (arts : list Candidate) :
  forall n w,
    needs_rollback w = true ->
    save_each arts src n w
    = (Ok n, fold_left with_logged (refused_after_failure arts) w).
Proof.
  induction arts as [| a rest IH]; intros n w Hnr; [reflexivity |].
  cbn [save_each]. unfold bind at 1. unfold try_except.
  unfold bind at 1, url_exists at 1. rewrite Hnr.
  unfold broken_transaction, raise_of.
  unfold bind at 1, log at 1, ret at 1.
  rewrite IH by exact Hnr. reflexivity.
Qed.

Lemma save_each_cons (src : NewsSource) (a : Candidate)
  (rest : list Candidate) (n : Z) (w : World) :
  save_each (a :: rest) src n w =
  match try_except
          (known <- url_exists a ;;
           if known then ret n else add_article a ;;; ret (n + 1)%Z)%m
          (fun e => log (SaveFailed e) ;;; ret n)%m w with
  | (Ok m, w1) => save_each rest src m w1
  | (Raise e, w1) => (Raise e, w1)
  end.
Proof. reflexivity. Qed.

Lemma save_each_app (src : NewsSource) (pre post : list Candidate) :
  forall n w,
    save_each (pre ++ post) src n w =
    match save_each pre src n w with
    | (Ok m, w1) => save_each post src m w1
    | (Raise e, w1) => (Raise e, w1)
    end.
Proof.
  induction pre as [| a pre IH]; intros n w.
  - cbn [app save_each ret]. reflexivity.
  - cbn [app]. rewrite !save_each_cons.
    match goal with
    | |- context [try_except ?c ?h w] =>
        destruct (try_except c h w) as [[m | e] w1]
    end; [apply IH | reflexivity].
Qed.

Lemma save_each_failure (src : NewsSource) (pre post : list Candidate)
  (bad : Candidate) (e : exn) (n : Z) (w : World) :
  needs_rollback w = false ->
  (forall a, In a (fresh ext (articles w) pre) -> insert_article a = Ok tt) ->
  stored ext (with_articles w (articles w ++ fresh ext (articles w) pre)) bad
    = false ->
  insert_article bad = Raise e ->
  save_each (pre ++ bad :: post) src n w
  = (Ok (n + Z.of_nat (List.length (fresh ext (articles w) pre)))%Z,
     fold_left with_logged (SaveFailed e :: refused_after_failure post)
       (in_transaction
          (with_articles w (articles w ++ fresh ext (articles w) pre)) true)).
Proof.
  intros Hnr Hins Hnew Hbad.
  rewrite save_each_app, (save_each_fresh src pre n w Hnr Hins).
  cbn [save_each]. unfold bind at 1. unfold try_except.
  unfold bind at 1, url_exists at 1.
  cbn [with_articles needs_rollback articles]. rewrite Hnr.
  unfold stored in Hnew. cbn [with_articles articles] in Hnew. rewrite Hnew.
  unfold bind at 1, add_article at 1. cbn [with_articles needs_rollback].
  rewrite Hnr, Hbad.
  unfold bind at 1, log at 1, ret at 1.
  rewrite save_each_broken by reflexivity.
  reflexivity.
Qed.

(** The same for the whole of [save_articles]: the transaction is
    committed in the first case and rolled back in the second. *)
Lemma save_articles_fresh (src : NewsSource) (arts : list Candidate)
  (w : World) :
  async_unsafe = Ok tt ->
  (forall a, In a (fresh ext (articles w) arts) -> insert_article a = Ok tt) ->
  save_articles arts src w
  = (Ok (Z.of_nat (List.length (fresh ext (articles w) arts))),
     with_articles w (articles w ++ fresh ext (articles w) arts)).
Proof.
  intros Hguard Hins. unfold save_articles, atomic. rewrite Hguard.
  rewrite (save_each_fresh src arts 0 (in_transaction w false) eq_refl Hins).
  cbn [with_articles in_transaction needs_rollback articles collection_logs
       logger feeds_saved Z.add].
  reflexivity.
Qed.

Lemma save_articles_failure (src : NewsSource) (pre post : list Candidate)
  (bad : Candidate) (e : exn) (w : World) :
  async_unsafe = Ok tt ->
  (forall a, In a (fresh ext (articles w) pre) -> insert_article a = Ok tt) ->
  stored ext (with_articles w (articles w ++ fresh ext (articles w) pre)) bad
    = false ->
  insert_article bad = Raise e ->
  save_articles (pre ++ bad :: post) src w
  = (Ok (Z.of_nat (List.length (fresh ext (articles w) pre))),
     fold_left with_logged (SaveFailed e :: refused_after_failure post) w).
Proof.
  intros Hguard Hins Hnew Hbad. unfold save_articles, atomic. rewrite Hguard.
  rewrite (save_each_failure src pre post bad e 0 (in_transaction w false)
             eq_refl Hins Hnew Hbad).
  rewrite !logged_fields.
  cbn [with_articles in_transaction rolled_back needs_rollback articles
       collection_logs logger feeds_saved Z.add].
  reflexivity.
Qed.

(** Whatever the database does, [save_articles] returns once the
    transaction is entered, and it removes no article. *)
Lemma save_each_appends (src : NewsSource) (arts : list Candidate) :
  forall n w,
  exists stored_,
    articles (snd (save_each arts src n w)) = articles w ++ stored_.
Proof.
  induction arts as [| a rest IH]; intros n w.
  - exists []. cbn. rewrite app_nil_r. reflexivity.
  - cbn [save_each]. unfold bind at 1. unfold try_except.
    unfold bind at 1, url_exists at 1.
    destruct (needs_rollback w) eqn:B.
    + unfold broken_transaction, raise_of.
      unfold bind at 1, log at 1, ret at 1.
      destruct (IH n (with_logged w (SaveFailed (Exn TransactionManagementError []))))
        as (l & ->).
      exists l. reflexivity.
    + destruct (existsb (fun x => url_eqb (url x) (url a)) (articles w)).
      * unfold ret at 1. apply IH.
      * unfold bind at 1, add_article at 1. rewrite B.
        destruct (insert_article a) as [[] | e].
        -- unfold ret at 1.
           match goal with
           | |- context [save_each rest src ?k ?w0] =>
               destruct (IH k w0) as (l & ->)
           end.
           exists (a :: l). cbn [articles]. rewrite <- app_assoc. reflexivity.
        -- unfold bind at 1, log at 1, ret at 1.
           match goal with
           | |- context [save_each rest src ?k ?w0] =>
               destruct (IH k w0) as (l & ->)
           end.
           exists l. reflexivity.
Qed.

Lemma save_articles_appends (src : NewsSource) (arts : list Candidate)
  (w : World) :
  async_unsafe = Ok tt ->
  exists n w' stored_,
    save_articles arts src w = (Ok n, w') /\
    collection_logs w' = collection_logs w /\
    articles w' = articles w ++ stored_.
Proof.
  intros Hguard. unfold save_articles, atomic. rewrite Hguard.
  destruct (save_each_appends src arts 0 (in_transaction w false)) as (l & A).
  destruct (save_each_total src arts 0 (in_transaction w false))
    as (m & w' & E & L & _).
  rewrite E in A |- *. cbn [snd] in A.
  destruct (needs_rollback w').
  - exists m, (rolled_back w w'), []. rewrite app_nil_r. auto.
  - exists m, (in_transaction w' (needs_rollback w)), l. auto.
Qed.

End Saving.

(** X7. The module's [save_articles] works inside one transaction. Where
    Django refuses database calls from a coroutine, as it does unless
    [DJANGO_ALLOW_ASYNC_UNSAFE] is set, entering the transaction raises and
    nothing is stored or logged. Once it is entered [save_articles] returns
    and removes no article. While the database takes every INSERT, it
    appends to the article table the new candidates, in the order of the
    list, and returns their number: those whose URL neither the table nor
    an earlier new candidate holds, so each URL once; it logs nothing and
    writes no run record. Every candidate whose URL is found equal to
    itself is in the table afterwards, so saving the same list again
    stores nothing and returns 0. When an INSERT fails the transaction is
    rolled back: the table is as before, the failure is logged, every later
    candidate is logged with the exception by which Django refuses its
    query, and the number returned is that of the creations before the
    failure, which the table does not hold. *)
Theorem save_articles_stores_each_url_once {ext : Externals} {orm : Orm}
  (arts : list Candidate) (src : NewsSource) (w : World) :
  let added := fresh ext (articles w) arts in
  let w' := with_articles w (articles w ++ added) in
  (forall e, async_unsafe = Raise e -> save_articles arts src w = (Raise e, w)) /\
  (async_unsafe = Ok tt ->
   exists n w1 stored_,
     save_articles arts src w = (Ok n, w1) /\
     collection_logs w1 = collection_logs w /\
     articles w1 = articles w ++ stored_) /\
  (async_unsafe = Ok tt ->
   (forall a, In a added -> insert_article a = Ok tt) ->
   save_articles arts src w = (Ok (Z.of_nat (List.length added)), w')) /\
  (subsequence added arts /\
   ForallOrdPairs (fun a b => url_eqb (url a) (url b) = false) added /\
   Forall (fun a => stored ext w a = false) added) /\
  (forall a, In a arts -> url_eqb (url a) (url a) = true ->
             stored ext w' a = true) /\
  (async_unsafe = Ok tt ->
   (forall a, In a arts -> url_eqb (url a) (url a) = true) ->
   save_articles arts src w' = (Ok 0%Z, w')) /\
  (forall pre bad post e,
     arts = pre ++ bad :: post ->
     async_unsafe = Ok tt ->
     (forall a, In a (fresh ext (articles w) pre) -> insert_article a = Ok tt) ->
     stored ext (with_articles w (articles w ++ fresh ext (articles w) pre)) bad
       = false ->
     insert_article bad = Raise e ->
     save_articles arts src w
     = (Ok (Z.of_nat (List.length (fresh ext (articles w) pre))),
        fold_left with_logged (SaveFailed e :: refused_after_failure post) w)).
Proof.
  intros added w'.
  split; [intros e; apply save_articles_guarded |].
  split; [apply save_articles_appends |].
  split; [apply save_articles_fresh |].
  split.
  { split; [apply fresh_subsequence |]. split; [apply fresh_distinct |].
    eapply Forall_impl; [| apply (fresh_unknown arts (articles w))].
    intros a Ha. unfold stored.
    destruct (existsb (fun x => url_eqb (url x) (url a)) (articles w)) eqn:E;
      [| reflexivity].
    apply existsb_exists in E. destruct E as (x & Hx & E).
    rewrite (Ha x Hx) in E. discriminate E. }
  assert (Hstored : forall a, In a arts -> url_eqb (url a) (url a) = true ->
                              stored ext w' a = true).
  { intros a Ha Hrefl. unfold stored, w', with_articles. cbn [articles].
    apply fresh_stored; assumption. }
  split; [exact Hstored |].
  split.
  { intros Hguard Hrefl.
    assert (Hnone : fresh ext (articles w') arts = []).
    { apply fresh_stored_all. intros a Ha. apply Hstored; auto. }
    rewrite (save_articles_fresh src arts w' Hguard)
      by (rewrite Hnone; intros a []).
    rewrite Hnone, app_nil_r. destruct w. reflexivity. }
  intros pre bad post e -> Hguard Hins Hnew Hbad.
  apply save_articles_failure; assumption.
Qed.

(** Three candidates, two of them with the same URL. With Django as
    installed nothing is stored. With database calls allowed there are two
    rows, and none more when the list is saved again. With a database that
    takes titles of one character only, where the second candidate is
    refused, the call returns 1 and leaves the table empty. *)
Lemma save_two_stories :
  let saved := with_articles empty_world [candidate_T; second_story] in
  @save_articles Standins.plain Standins.guarded two_stories site empty_world
    = (Raise (Exn SynchronousOnlyOperation []), empty_world) /\
  @save_articles Standins.plain Standins.unguarded two_stories site empty_world
    = (Ok 2%Z, saved) /\
  @save_articles Standins.plain Standins.unguarded two_stories site saved
    = (Ok 0%Z, saved) /\
  @save_articles Standins.plain (Standins.short_titles 1) two_stories site
    empty_world
    = (Ok 1%Z,
       fold_left with_logged
         [ SaveFailed (Exn OtherException []);
           SaveFailed (Exn TransactionManagementError []) ] empty_world).
Proof.
  intros saved.
  assert (Hrefl : forall a, In a two_stories ->
            @url_eqb Standins.plain (url a) (url a) = true).
  { intros a [<- | [<- | [<- | []]]]; reflexivity. }
  destruct (@save_articles_stores_each_url_once Standins.plain Standins.guarded
              two_stories site empty_world)
    as (Hrefused & _).
  destruct (@save_articles_stores_each_url_once Standins.plain
              Standins.unguarded two_stories site empty_world)
    as (_ & _ & Hsave & _ & _ & Hagain & _).
  destruct (@save_articles_stores_each_url_once Standins.plain
              (Standins.short_titles 1) two_stories site empty_world)
    as (_ & _ & _ & _ & _ & _ & Hfail).
  split; [exact (Hrefused _ eq_refl) |].
  split; [exact (Hsave eq_refl (fun a _ => eq_refl)) |].
  split; [exact (Hagain eq_refl Hrefl) |].
  assert (Hfirst : forall a,
            In a (fresh Standins.plain (articles empty_world) [candidate_T]) ->
            @insert_article (Standins.short_titles 1) a = Ok tt).
  { intros a Ha. vm_compute in Ha. destruct Ha as [<- | []]. reflexivity. }
  exact (Hfail [candidate_T] second_story [candidate_T] (Exn OtherException [])
           eq_refl eq_refl Hfirst eq_refl eq_refl).
Defined.

(** ** The candidates a collector yields *)

(** Case analysis on every scrutinee the hypotheses still hold, until a
    result is reached. *)
Ltac unravel :=
  repeat match goal with
         | H : context [match ?x with _ => _ end] |- _ =>
             destruct x eqn:?; try congruence
         end;
  repeat match goal with
         | H : (_, _) = (_, _) |- _ => injection H as ? ?
         end;
  subst.

Section Accepted.
Context {ext : Externals}.

Lemma nonempty_true (s : str) : nonempty s = true -> s <> [].
Proof. destruct s; [discriminate | discriminate]. Qed.

Lemma mfilter_map_Forall {A B : Type} (P : B -> Prop) (f : A -> M (option B)) :
  (forall x w y w', f x w = (Ok (Some y), w') -> P y) ->
  forall l w found w',
    mfilter_map f l w = (Ok found, w') -> Forall P found.
Proof.
  intros Hf. induction l as [| x l IH]; intros w found w'; cbn [mfilter_map].
  - unfold ret. intros [= <- _]. constructor.
  - unfold bind, ret. destruct (f x w) as [[y | e] w1] eqn:Ex; [| discriminate].
    destruct (mfilter_map f l w1) as [[ys | e] w2] eqn:E; [| discriminate].
    intros [= <- _]. specialize (IH w1 ys w2 E).
    destruct y as [y |]; [| exact IH].
    constructor; [exact (Hf x w y w1 Ex) | exact IH].
Qed.

Lemma parse_api_item_accepts (self : Collector) (item : pyval) (w w' : World)
  (c : Candidate) :
  APICollector.parse_api_item self item w = (Ok (Some c), w') -> acceptable c.
Proof.
  unfold APICollector.parse_api_item, APICollector.parse_api_item_body,
    try_except, bind, lift, ret, log.
  intros H.
  destruct (headline <~ get item (u "headline") (VStr []);;
            raw <~ get item (u "title") headline;;
            BaseCollector.clean_text raw)%res as [title_ | e]; [| discriminate H].
  destruct (nonempty title_) eqn:Et; cbn [negb] in H; [| discriminate H].
  destruct (link <~ get item (u "link") (VStr []);; get item (u "url") link)%res
    as [url_ | e]; [| discriminate H].
  destruct (truthy url_) eqn:Eu; cbn [negb] in H; [| discriminate H].
  unravel;
    match goal with H : context [Some c] |- _ => injection H as <- end;
    (split; [now apply nonempty_true | exact Eu]).
Qed.

Lemma parse_rss_entry_accepts (self : Collector) (entry : pyval) (w w' : World)
  (c : Candidate) :
  RSSCollector.parse_rss_entry self entry w = (Ok (Some c), w') -> acceptable c.
Proof.
  unfold RSSCollector.parse_rss_entry, RSSCollector.parse_rss_entry_body,
    try_except, bind, lift, ret, log.
  intros H.
  destruct (get entry (u "title") (VStr [])) as [raw | e]; cbn [rbind] in H;
    [| discriminate H].
  destruct (BaseCollector.clean_text raw) as [title_ | e]; cbn [rbind] in H;
    [| discriminate H].
  destruct (nonempty title_) eqn:Et; cbn [negb] in H; [| discriminate H].
  destruct (get entry (u "link") (VStr [])) as [url_ | e]; cbn [rbind] in H;
    [| discriminate H].
  destruct (truthy url_) eqn:Eu; cbn [negb] in H; [| discriminate H].
  unfold rbind in H. unravel;
    match goal with H : context [Some c] |- _ => injection H as <- end;
    (split; [now apply nonempty_true | exact Eu]).
Qed.

Lemma negb_nonempty_false (s : str) : negb (nonempty s) = false -> nonempty s = true.
Proof. destruct (nonempty s); [reflexivity | discriminate]. Qed.

Lemma extract_article_data_accepts (self : Collector) (element : node)
  (w w' : World) (c : Candidate) :
  WebsiteCollector.extract_article_data self element w = (Ok (Some c), w') ->
  acceptable c.
Proof.
  unfold WebsiteCollector.extract_article_data,
    WebsiteCollector.extract_article_data_body,
    try_except, bind, lift, ret, log.
  intros H. unravel;
    match goal with H : context [Some c] |- _ => injection H as <- end;
    (split; cbn [title url truthy];
     [apply nonempty_true |]; now apply negb_nonempty_false).
Qed.

End Accepted.

Section AutoTitles.
Context {ext : Externals}.

Lemma rfilter_map_Forall {A B : Type} (P : B -> Prop) (f : A -> Res (option B)) :
  (forall x y, f x = Ok (Some y) -> P y) ->
  forall l found, rfilter_map f l = Ok found -> Forall P found.
Proof.
  intros Hf. induction l as [| x l IH]; intros found; cbn [rfilter_map].
  - intros [= <-]. constructor.
  - destruct (f x) as [y | e] eqn:Ex; cbn [rbind]; [| discriminate].
    destruct (rfilter_map f l) as [ys | e]; cbn [rbind]; [| discriminate].
    intros [= <-]. specialize (IH ys eq_refl).
    destruct y as [y |]; [| exact IH].
    constructor; [exact (Hf x y Ex) | exact IH].
Qed.

Lemma auto_article_title (self : Collector) (link : node) (c : Candidate) :
  WebsiteCollector.auto_article self link = Ok (Some c) -> title c <> [].
Proof.
  unfold WebsiteCollector.auto_article.
  destruct (WebsiteCollector.is_article_link _ _) eqn:E; [| discriminate].
  destruct (urljoin _ _); cbn [rbind]; [| discriminate].
  intros [= <-]. cbn [title].
  unfold WebsiteCollector.is_article_link in E.
  destruct (strip (get_text link)); [| discriminate].
  cbn [nonempty negb] in E. rewrite orb_true_r in E. discriminate.
Qed.

End AutoTitles.

Section Returned.
Context {ext : Externals}.

Lemma parse_api_item_total (self : Collector) (item : pyval) (w : World) :
  exists y w', APICollector.parse_api_item self item w = (Ok y, w').
Proof.
  unfold APICollector.parse_api_item. apply try_except_total.
  intros e w1. unfold bind, log, ret. eauto.
Qed.

Lemma parse_api_response_total (self : Collector) (d : list (str * pyval))
  (w : World) :
  exists found w',
    APICollector.parse_api_response self (VDict d) w = (Ok found, w').
Proof.
  unfold APICollector.parse_api_response, bind, lift.
  rewrite response_items_first_present.
  destruct (first_present d); try (unfold log, ret; eauto).
  apply mfilter_map_total. intros x w0. apply parse_api_item_total.
Qed.

End Returned.

(** X8. Every candidate the collectors yield has a title that is not
    empty. The API parser, for every response that is an object, and the
    reader of a feed, for every feed, return a list of candidates each with
    such a title and a URL that is true; so does [extract_article_data] for
    every element, which never raises, and hence the configured extraction
    of the Website collector whenever it returns. A candidate of the
    heuristic extraction has a title that is not empty (its URL is whatever
    [urljoin] returns). *)
Theorem candidates_have_title_and_url {ext : Externals}
  (self : Collector) (w : World) :
  (forall d,
     exists found w',
       APICollector.parse_api_response self (VDict d) w = (Ok found, w') /\
       Forall acceptable found) /\
  (forall rss_feed,
     exists found w',
       RSSCollector.collect_from_feed self rss_feed w = (Ok found, w') /\
       Forall acceptable found) /\
  (forall element,
     exists r w',
       WebsiteCollector.extract_article_data self element w = (Ok r, w') /\
       forall c, r = Some c -> acceptable c) /\
  (forall soup found w',
     WebsiteCollector.config_extract_articles self soup w = (Ok found, w') ->
     Forall acceptable found) /\
  (forall soup found,
     WebsiteCollector.auto_extract_articles self soup = Ok found ->
     Forall (fun c => title c <> []) found).
Proof.
  split; [| split; [| split; [| split]]].
  - intros d. destruct (parse_api_response_total self d w) as (found & w' & E).
    exists found, w'. split; [exact E |]. revert E.
    unfold APICollector.parse_api_response, bind, lift.
    destruct (APICollector.response_items (VDict d)) as [items | e];
      [| discriminate].
    destruct items; try (unfold log, ret; intros [= <- _]; constructor).
    apply mfilter_map_Forall. intros x w0 y w1. apply parse_api_item_accepts.
  - intros rss_feed.
    destruct (collect_from_feed_total self rss_feed w) as (w' & E & _).
    eexists. exists w'. split; [exact E |]. revert E.
    generalize (feed_candidates self rss_feed) as found. intros found.
    unfold RSSCollector.collect_from_feed, try_except, bind, lift.
    destruct (feed_entries (feed_url rss_feed)) as [entries | e].
    + destruct (mfilter_map _ _ w) as [[l | e] w1] eqn:E.
      * intros [= <- _]. revert E. apply mfilter_map_Forall.
        intros x w0 y w2. apply parse_rss_entry_accepts.
      * unfold log, ret. intros [= <- _]. constructor.
    + unfold log, ret. intros [= <- _]. constructor.
  - intros element.
    destruct (extract_article_data_total self element w) as (r & w' & E).
    exists r, w'. split; [exact E |]. intros c ->.
    now apply extract_article_data_accepts in E.
  - intros soup found w'. unfold WebsiteCollector.config_extract_articles.
    destruct (config self) as [cfg |]; [| discriminate].
    unfold bind, lift.
    destruct (if nonempty (title_selector cfg)
              then select soup (title_selector cfg)
              else Ok (find_article_blocks soup)) as [elements | e];
      [| discriminate].
    apply mfilter_map_Forall. intros x w0 y w1. apply extract_article_data_accepts.
  - intros soup found. unfold WebsiteCollector.auto_extract_articles.
    apply rfilter_map_Forall. intros x y. apply auto_article_title.
Qed.

(** X9. For a non-negative [max_articles], the API parser returns at most
    [max_articles] candidates for every response that is an object, and the
    reader of a feed at most [max_articles] for every feed; the limit is per
    feed, so an RSS run gathers at most the number of its feeds times
    [max_articles]. *)
Theorem api_and_rss_candidates_bounded {ext : Externals} {orm : Orm}
  (self : Collector) (w : World) :
  (0 <= max_articles (source self))%Z ->
  (forall d,
     exists found w',
       APICollector.parse_api_response self (VDict d) w = (Ok found, w') /\
       (Z.of_nat (List.length found) <= max_articles (source self))%Z) /\
  (forall rss_feed,
     exists found w',
       RSSCollector.collect_from_feed self rss_feed w = (Ok found, w') /\
       (Z.of_nat (List.length found) <= max_articles (source self))%Z) /\
  (exists found w',
     RSSCollector.collect_feeds self (rss_feeds self) [] w = (Ok found, w') /\
     (Z.of_nat (List.length found)
      <= Z.of_nat (List.length (rss_feeds self)) * max_articles (source self))%Z).
Proof.
  intros Hmax.
  assert (Hfeed : forall rss_feed,
            (Z.of_nat (List.length (feed_candidates self rss_feed))
             <= max_articles (source self))%Z).
  { intros rss_feed. unfold feed_candidates.
    destruct (feed_entries (feed_url rss_feed)) as [entries | e]; [| simpl; lia].
    rewrite kept_length.
    pose proof (slice_to_length entries _ Hmax).
    pose proof (filter_length_le (valid_entry self)
                  (slice_to entries (max_articles (source self)))).
    lia. }
  split; [| split].
  - intros d. destruct (parse_api_response_total self d w) as (found & w' & E).
    exists found, w'. split; [exact E |]. revert E.
    unfold APICollector.parse_api_response, bind, lift.
    destruct (APICollector.response_items (VDict d)) as [items | e];
      [| discriminate].
    destruct items; try (unfold log, ret; intros [= <- _]; simpl; lia).
    intros E. apply mfilter_map_length in E.
    pose proof (slice_to_length l _ Hmax). lia.
  - intros rss_feed.
    destruct (collect_from_feed_total self rss_feed w) as (w1 & E1 & _).
    eexists. exists w1. split; [exact E1 | apply Hfeed].
  - destruct (collect_feeds_total self (rss_feeds self) [] w) as (w1 & E & _).
    eexists; eexists. split; [exact E |]. cbn [app]. clear E.
    induction (rss_feeds self) as [| f feeds IH]; [simpl; lia |].
    cbn [flat_map]. rewrite length_app.
    specialize (Hfeed f). cbn [List.length].
    rewrite Nat2Z.inj_add, Nat2Z.inj_succ, Z.mul_succ_l. lia.
Qed.

(** The feed of four entries, read by the collector of [rss_site]. *)
Lemma rss_site_within_limit :
  (0 <= max_articles (source rss_collector))%Z /\
  exists found w',
    @RSSCollector.collect_feeds rss_externals Standins.guarded rss_collector
      (rss_feeds rss_collector) [] empty_world = (Ok found, w') /\
    (Z.of_nat (List.length found) <= 1 * 50)%Z.
Proof.
  assert (H : (0 <= max_articles (source rss_collector))%Z)
    by (vm_compute; discriminate).
  split; [exact H |].
  destruct (@api_and_rss_candidates_bounded rss_externals Standins.guarded
              rss_collector empty_world H) as (_ & _ & found & w' & E & L).
  exists found, w'. split; [exact E | exact L].
Defined.

(** ** Keywords *)

Section Sorting.

Lemma insert_by_score_perm (k : Keyword) (l : list Keyword) :
  Permutation (KeywordProcessor.insert_by_score k l) (k :: l).
Proof.
  induction l as [| h l IH]; simpl; [reflexivity |].
  destruct (Qle_bool (keyword_score k) (keyword_score h)); [| reflexivity].
  rewrite IH. apply perm_swap.
Qed.

Lemma insert_by_score_sorted (k : Keyword) (l : list Keyword) :
  Sorted descending l -> Sorted descending (KeywordProcessor.insert_by_score k l).
Proof.
  induction 1 as [| h l Hs IH Hh]; simpl.
  - repeat constructor.
  - destruct (Qle_bool (keyword_score k) (keyword_score h)) eqn:E.
    + constructor; [exact IH |].
      destruct l as [| h' l]; simpl.
      * constructor. now apply Qle_bool_iff.
      * destruct (Qle_bool (keyword_score k) (keyword_score h')).
        -- constructor. now inversion Hh.
        -- constructor. now apply Qle_bool_iff.
    + constructor; [now constructor |].
      constructor. unfold descending. apply Qlt_le_weak.
      now apply Qle_bool_false.
Qed.

Lemma sort_fold_perm (ks : list Keyword) :
  forall acc,
    Permutation
      (fold_left (fun sorted k => KeywordProcessor.insert_by_score k sorted) ks acc)
      (ks ++ acc).
Proof.
  induction ks as [| k ks IH]; intros acc; simpl; [reflexivity |].
  rewrite IH, insert_by_score_perm. symmetry. apply Permutation_middle.
Qed.

Lemma sort_fold_sorted (ks : list Keyword) :
  forall acc,
    Sorted descending acc ->
    Sorted descending
      (fold_left (fun sorted k => KeywordProcessor.insert_by_score k sorted) ks acc).
Proof.
  induction ks as [| k ks IH]; intros acc H; simpl; [exact H |].
  apply IH. now apply insert_by_score_sorted.
Qed.

Lemma descending_trans : RelationClasses.Transitive descending.
Proof. intros a b c H1 H2. unfold descending in *. lra. Qed.

(** A keyword that does not beat any keyword already placed goes last. *)
Lemma insert_by_score_last (k : Keyword) (l : list Keyword) :
  Forall (fun h => descending h k) l ->
  KeywordProcessor.insert_by_score k l = l ++ [k].
Proof.
  induction 1 as [| h l Hh _ IH]; simpl; [reflexivity |].
  unfold descending in Hh. apply Qle_bool_iff in Hh. rewrite Hh, IH. reflexivity.
Qed.

Lemma sort_fold_stable (ks : list Keyword) :
  forall acc,
    StronglySorted descending (acc ++ ks) ->
    fold_left (fun sorted k => KeywordProcessor.insert_by_score k sorted) ks acc
    = acc ++ ks.
Proof.
  induction ks as [| k ks IH]; intros acc H; simpl; [now rewrite app_nil_r |].
  rewrite insert_by_score_last.
  - rewrite IH; rewrite <- app_assoc; [reflexivity | exact H].
  - clear IH. induction acc as [| a acc IHa]; [constructor |].
    cbn [app] in H. inversion H as [| ? ? Hs Hall]; subst.
    constructor; [| now apply IHa].
    rewrite Forall_forall in Hall. apply Hall.
    apply in_or_app. right. now left.
Qed.

End Sorting.

(** X10. [keywords.sort(key=score, reverse=True)], as the TF-IDF extractor
    and the fallback use it: the result is a rearrangement of the keywords, in
    descending order of score, and a list that is already in descending
    order comes back as it is, so keywords of equal score keep the order
    they had. *)
Theorem sort_by_score_sorts (keywords : list Keyword) :
  Permutation (KeywordProcessor.sort_by_score keywords) keywords /\
  Sorted descending (KeywordProcessor.sort_by_score keywords) /\
  (Sorted descending keywords ->
   KeywordProcessor.sort_by_score keywords = keywords).
Proof.
  unfold KeywordProcessor.sort_by_score. split; [| split].
  - rewrite sort_fold_perm. now rewrite app_nil_r.
  - apply sort_fold_sorted. constructor.
  - intros H. apply (sort_fold_stable keywords []). cbn [app].
    apply Sorted_StronglySorted; [exact descending_trans | exact H].
Qed.

(** ** Entities *)

Section FallbackEntities.
Context {ext : Externals} {bk : Backends}.

Lemma name_pair_cons (text : str) (w : str) (words : list str) (e : Entity) :
  name_pair text words e -> name_pair text (w :: words) e.
Proof.
  intros [(before & word & next & after & -> & H) R].
  split; [| exact R]. exists (w :: before), word, next, after.
  split; [reflexivity | exact H].
Qed.

Lemma fallback_pairs_spec (text : str) (words : list str) :
  Forall (fun word => word <> []) words ->
  exists es,
    EntityProcessor.fallback_pairs text words = Ok es /\
    List.length es <= pred (List.length words) /\
    Forall (name_pair text words) es.
Proof.
  induction 1 as [| word rest Hw Hrest IH].
  - exists []. repeat split; [simpl; lia | constructor].
  - destruct IH as (more & Em & Lm & Fm).
    assert (Fm' : Forall (name_pair text (word :: rest)) more).
    { eapply Forall_impl; [| exact Fm]. intros e. apply name_pair_cons. }
    cbn [EntityProcessor.fallback_pairs].
    destruct word as [| c word]; [congruence |].
    cbn [EntityProcessor.first_isupper rbind].
    destruct (isupper c && (2 <? List.length (c :: word))) eqn:E.
    + destruct rest as [| next rest].
      * cbn [rbind]. rewrite Em. cbn [rbind app]. exists more.
        repeat split; [exact Lm | exact Fm'].
      * inversion Hrest as [| ? ? Hn _]; subst.
        destruct next as [| d next]; [congruence |].
        cbn [EntityProcessor.first_isupper rbind].
        destruct (isupper d) eqn:D.
        -- cbn [rbind]. rewrite Em. cbn [rbind app].
           eexists. split; [reflexivity |]. split; [simpl in *; lia |].
           constructor; [| exact Fm'].
           apply andb_prop in E as [U L]. apply Nat.ltb_lt in L.
           split; [| repeat split].
           exists [], (c :: word), (d :: next), rest.
           cbn [EntityProcessor.first_isupper entity_text].
           rewrite U, D. repeat split. exact L.
        -- cbn [rbind]. rewrite Em. cbn [rbind app]. exists more.
           repeat split; [simpl in *; lia | exact Fm'].
    + cbn [rbind]. rewrite Em. cbn [rbind app]. exists more.
      repeat split; [simpl in *; lia | exact Fm'].
Qed.

Lemma fallback_entities_total (text : str) :
  exists es,
    EntityProcessor._fallback_entities text = Ok es /\
    List.length es <= pred (List.length (split text)) /\
    Forall (name_pair text (split text)) es.
Proof.
  unfold EntityProcessor._fallback_entities. apply fallback_pairs_spec.
  eapply Forall_impl; [| apply split_words]. now intros w [H _].
Qed.

Lemma find_from_range (sub t : str) :
  forall i, (0 <= i)%Z ->
    find_from i sub t = (-1)%Z \/
    (i <= find_from i sub t <= i + Z.of_nat (List.length t))%Z.
Proof.
  induction t as [| c t IH]; intros i Hi; simpl.
  - destruct (startswith [] sub); [right; simpl; lia | now left].
  - destruct (startswith (c :: t) sub); [right; lia |].
    destruct (IH (i + 1)%Z ltac:(lia)) as [-> | H]; [now left | right; lia].
Qed.

End FallbackEntities.

(** X11. [_fallback_entities] never raises: [word[0]] is read of the words
    of [text.split()] only, and none of them is empty. Every entity it
    returns is a [PERSON] of confidence 0.5 whose text is two consecutive
    words of the text, both capitalised and the first longer than two
    characters, joined by one space; [start] is where [text.find] finds
    that name, which is [-1] when the name does not stand in the text as
    written, and [end] is [start] plus the length of the name in either
    case. There is at most one entity for each pair of neighbouring
    words. *)
Theorem fallback_entities_are_name_pairs {ext : Externals} {bk : Backends}
  (text : str) :
  exists entities,
    EntityProcessor._fallback_entities text = Ok entities /\
    List.length entities <= pred (List.length (split text)) /\
    Forall (name_pair text (split text)) entities /\
    Forall (fun e =>
              entity_start e = (-1)%Z \/
              (0 <= entity_start e <= Z.of_nat (List.length text))%Z)
           entities.
Proof.
  destruct (fallback_entities_total text) as (es & E & L & F).
  exists es. repeat split; try assumption.
  eapply Forall_impl; [| exact F].
  intros e (_ & _ & _ & S & _). rewrite S. unfold find.
  destruct (find_from_range (entity_text e) text 0%Z ltac:(lia)) as [H | H];
    [now left | right; lia].
Qed.

(** ** The keywords of the fallback *)

Section FallbackKeywords.
Context {ext : Externals} {bk : Backends}.

Lemma freq_bump (w word : str) (wf : list (str * nat)) :
  freq w (KeywordProcessor.bump word wf)
  = freq w wf + (if str_eqb w word then 1 else 0).
Proof.
  induction wf as [| [w0 n] wf IH]; simpl.
  - destruct (str_eqb w word); reflexivity.
  - destruct (str_eqb word w0) eqn:E; simpl.
    + apply str_eqb_eq in E. subst w0.
      destruct (str_eqb w word); lia.
    + destruct (str_eqb w w0) eqn:E0; [| exact IH].
      apply str_eqb_eq in E0. subst w0.
      destruct (str_eqb w word) eqn:E1; [| lia].
      apply str_eqb_eq in E1. subst w. rewrite str_eqb_refl in E. discriminate.
Qed.

Lemma keys_bump (word : str) (wf : list (str * nat)) :
  map fst (KeywordProcessor.bump word wf) = map fst wf \/
  (~ In word (map fst wf) /\
   map fst (KeywordProcessor.bump word wf) = map fst wf ++ [word]).
Proof.
  induction wf as [| [w0 n] wf IH]; simpl.
  - right. split; [tauto | reflexivity].
  - destruct (str_eqb word w0) eqn:E; simpl; [now left |].
    destruct IH as [-> | [H ->]]; [now left | right].
    split; [| reflexivity]. intros [<- | H']; [| tauto].
    rewrite str_eqb_refl in E. discriminate.
Qed.

Lemma nodup_bump (word : str) (wf : list (str * nat)) :
  NoDup (map fst wf) -> NoDup (map fst (KeywordProcessor.bump word wf)).
Proof.
  intros H. destruct (keys_bump word wf) as [-> | [N ->]]; [exact H |].
  apply NoDup_app; [exact H | repeat constructor; simpl; tauto |].
  intros a Ha [<- | []]. tauto.
Qed.

Lemma entries_bump (word : str) (wf : list (str * nat)) :
  3 <= List.length word ->
  Forall (fun p => 3 <= List.length (fst p) /\ 1 <= snd p) wf ->
  Forall (fun p => 3 <= List.length (fst p) /\ 1 <= snd p)
         (KeywordProcessor.bump word wf).
Proof.
  intros L. induction 1 as [| [w0 n] wf [H1 H2] F IH]; simpl.
  - repeat constructor; simpl; lia.
  - cbn [fst snd] in *.
    destruct (str_eqb word w0); constructor; cbn [fst snd];
      solve [split; lia | assumption].
Qed.

Lemma freq_fold (w : str) (words : list str) :
  3 <= List.length w ->
  forall acc,
    freq w (fold_left count_word words acc) = freq w acc + occurrences w words.
Proof.
  intros L. unfold occurrences.
  induction words as [| word words IH]; intros acc; cbn [fold_left filter].
  - simpl. lia.
  - rewrite IH. unfold count_word.
    destruct (3 <=? List.length word) eqn:E.
    + rewrite freq_bump. destruct (str_eqb w word); simpl; lia.
    + destruct (str_eqb w word) eqn:E0; [| lia].
      apply str_eqb_eq in E0. subst word. apply Nat.leb_gt in E. lia.
Qed.

Lemma nodup_fold (words : list str) :
  forall acc,
    NoDup (map fst acc) -> NoDup (map fst (fold_left count_word words acc)).
Proof.
  induction words as [| word words IH]; intros acc H; simpl; [exact H |].
  apply IH. unfold count_word. destruct (3 <=? List.length word); [| exact H].
  now apply nodup_bump.
Qed.

Lemma entries_fold (words : list str) :
  forall acc,
    Forall (fun p => 3 <= List.length (fst p) /\ 1 <= snd p) acc ->
    Forall (fun p => 3 <= List.length (fst p) /\ 1 <= snd p)
           (fold_left count_word words acc).
Proof.
  induction words as [| word words IH]; intros acc H; simpl; [exact H |].
  apply IH. unfold count_word. destruct (3 <=? List.length word) eqn:E; [| exact H].
  apply entries_bump; [now apply Nat.leb_le | exact H].
Qed.

(** With distinct keys, an entry of the dict is what [get] reads. *)
Lemma freq_entry (w : str) (f : nat) (wf : list (str * nat)) :
  NoDup (map fst wf) -> In (w, f) wf -> freq w wf = f.
Proof.
  induction wf as [| [w0 n] wf IH]; simpl; [tauto |].
  intros N [[= -> ->] | H]; [now rewrite str_eqb_refl |].
  inversion N as [| ? ? Hn N']; subst.
  destruct (str_eqb w w0) eqn:E; [| now apply IH].
  apply str_eqb_eq in E. subst w0. exfalso. apply Hn.
  change w with (fst (w, f)). now apply in_map.
Qed.

Lemma freq_positive (w : str) (wf : list (str * nat)) :
  0 < freq w wf -> In (w, freq w wf) wf.
Proof.
  induction wf as [| [w0 n] wf IH]; simpl; [lia |].
  destruct (str_eqb w w0) eqn:E; [| auto].
  apply str_eqb_eq in E. subst w0. now left.
Qed.

Lemma occurrences_le (w : str) (words : list str) :
  occurrences w words <= List.length words.
Proof. unfold occurrences. apply filter_length_le. Qed.

Lemma occurrences_in (w : str) (words : list str) :
  0 < occurrences w words -> In w words.
Proof.
  unfold occurrences. induction words as [| x words IH]; simpl; [lia |].
  destruct (str_eqb w x) eqn:E; [| auto].
  apply str_eqb_eq in E. now left.
Qed.

(** The dict the loop builds: one entry for each word of three characters
    or more, with the number of times it occurs. *)
Lemma count_frequencies_spec (words : list str) :
  NoDup (map fst (KeywordProcessor.count_frequencies words)) /\
  (forall w f,
     In (w, f) (KeywordProcessor.count_frequencies words) <->
     3 <= List.length w /\ f = occurrences w words /\ 0 < f).
Proof.
  change (KeywordProcessor.count_frequencies words)
    with (fold_left count_word words []).
  pose proof (nodup_fold words [] ltac:(constructor)) as N.
  pose proof (entries_fold words [] ltac:(constructor)) as F.
  split; [exact N |]. intros w f. split.
  - intros H. rewrite Forall_forall in F. destruct (F _ H) as [L P].
    cbn [fst snd] in *. repeat split; [exact L | | lia].
    rewrite <- (freq_entry w f _ N H). now rewrite freq_fold.
  - intros (L & -> & P).
    rewrite <- (Nat.add_0_l (occurrences w words)) in P |- * at 1.
    change 0 with (freq w []) in P |- * at 1.
    rewrite <- (freq_fold w words L []) in P |- *.
    now apply freq_positive.
Qed.

(** No division by zero: a frequency above one means there are words. *)
Lemma frequent_spec (n : nat) (wf : list (str * nat)) :
  (forall w f, In (w, f) wf -> 1 < f -> 0 < n) ->
  KeywordProcessor.frequent n wf
  = Ok (map (fun p => {| keyword_text := fst p;
                         keyword_score :=
                           (inject_Z (Z.of_nat (snd p)) / inject_Z (Z.of_nat n))%Q;
                         keyword_type := u "frequency" |})
            (filter (fun p => 1 <? snd p) wf)).
Proof.
  induction wf as [| [w f] wf IH]; intros H; [reflexivity |].
  cbn [KeywordProcessor.frequent filter snd].
  rewrite IH by (intros w' f' I; apply (H w' f'); now right).
  destruct (1 <? f) eqn:E; [| reflexivity].
  apply Nat.ltb_lt in E.
  assert (P : 0 < n) by (apply (H w f); [now left | exact E]).
  unfold div.
  replace (Qeq_bool (inject_Z (Z.of_nat n)) 0) with false; [reflexivity |].
  symmetry. apply not_true_is_false. intros Q. apply Qeq_bool_iff in Q.
  unfold Qeq in Q. simpl in Q. lia.
Qed.

Lemma fallback_keywords_total (text : str) :
  exists ks, KeywordProcessor._fallback_keywords text = Ok ks.
Proof.
  unfold KeywordProcessor._fallback_keywords.
  set (words := split (KeywordProcessor.remove_punctuation text)).
  destruct (count_frequencies_spec words) as [_ S].
  rewrite frequent_spec.
  - cbn [rbind]. eexists. reflexivity.
  - intros w f I L. apply S in I as (_ & -> & _).
    pose proof (occurrences_le w words). lia.
Qed.

End FallbackKeywords.

(** X12. [_fallback_keywords] never raises: it divides by the number of
    words only for a word counted twice or more. With [words] the words of
    the lower-cased text without punctuation, its keywords are exactly the
    words of three characters or more that occur more than once, each once,
    with the share [occurrences / len(words)] of the words as score, a
    score above 0 and at most 1; they come in descending order of score. *)
Theorem fallback_keywords_are_repeated_words {ext : Externals} {bk : Backends}
  (text : str) :
  let words := split (KeywordProcessor.remove_punctuation text) in
  exists keywords,
    KeywordProcessor._fallback_keywords text = Ok keywords /\
    Sorted descending keywords /\
    NoDup (map keyword_text keywords) /\
    (forall k,
       In k keywords <->
       exists word,
         In word words /\ 3 <= List.length word /\
         1 < occurrences word words /\ k = frequency_keyword words word) /\
    Forall (fun k => (0 < keyword_score k /\ keyword_score k <= 1)%Q) keywords.
Proof.
  intros words. unfold KeywordProcessor._fallback_keywords. fold words.
  destruct (count_frequencies_spec words) as [N S].
  rewrite frequent_spec.
  2:{ intros w f I L. apply S in I as (_ & -> & _).
      pose proof (occurrences_le w words). lia. }
  cbn [rbind]. eexists. split; [reflexivity |].
  set (wf := KeywordProcessor.count_frequencies words) in *.
  set (ks := map _ (filter _ wf)).
  pose proof (sort_fold_perm ks []) as P. rewrite app_nil_r in P.
  fold (KeywordProcessor.sort_by_score ks) in P.
  assert (Hin : forall k,
            In k ks <->
            exists word,
              In word words /\ 3 <= List.length word /\
              1 < occurrences word words /\ k = frequency_keyword words word).
  { intros k. unfold ks. rewrite in_map_iff. split.
    - intros ([w f] & <- & I). apply filter_In in I as [I L].
      apply Nat.ltb_lt in L. apply S in I as (L3 & -> & _). cbn [fst snd] in *.
      exists w. repeat split; try assumption.
      apply occurrences_in. lia.
    - intros (w & I & L3 & L & ->).
      exists (w, occurrences w words). split; [reflexivity |].
      apply filter_In. split; [| now apply Nat.ltb_lt].
      apply S. repeat split; [exact L3 | lia]. }
  split; [| split; [| split]].
  - apply sort_fold_sorted. constructor.
  - apply (Permutation_NoDup (l := map keyword_text ks)).
    + apply Permutation_map. now symmetry.
    + unfold ks. rewrite map_map. cbn [keyword_text].
      clear - N. induction wf as [| [w f] wf IH]; [constructor |].
      cbn [filter snd]. inversion N as [| ? ? Hn N']; subst.
      destruct (1 <? f); [| now apply IH].
      cbn [map fst]. constructor; [| now apply IH].
      intros I. apply Hn. apply in_map_iff in I as (p & E & I).
      apply filter_In in I as [I _]. apply in_map_iff. now exists p.
  - intros k. rewrite <- Hin. split; apply Permutation_in;
      [exact P | now symmetry].
  - apply (Permutation_Forall (x := ks)); [now symmetry |].
    apply Forall_forall. intros k I. apply Hin in I as (w & I & _ & L & ->).
    unfold frequency_keyword. cbn [keyword_score].
    pose proof (occurrences_le w words) as B.
    set (o := occurrences w words) in *. set (n := List.length words) in *.
    assert (Pn : (0 < inject_Z (Z.of_nat n))%Q).
    { unfold Qlt. simpl. lia. }
    split.
    + apply Qlt_shift_div_l; [exact Pn |]. rewrite Qmult_0_l.
      unfold Qlt. simpl. lia.
    + apply Qle_shift_div_r; [exact Pn |]. rewrite Qmult_1_l.
      unfold Qle. simpl. lia.
Qed.

(** ** The analyzers *)

Section Sentiments.
Context {ext : Externals} {bk : Backends}.

Lemma fallback_sentiment_sign (text : str) :
  sign_agrees (SentimentProcessor._fallback_sentiment text) /\
  (0 <= confidence (SentimentProcessor._fallback_sentiment text))%Q.
Proof.
  unfold SentimentProcessor._fallback_sentiment.
  generalize (SentimentProcessor.count_words SentimentProcessor.positive_words
                (lower text)) as p.
  generalize (SentimentProcessor.count_words SentimentProcessor.negative_words
                (lower text)) as n.
  intros n p. unfold sign_agrees.
  destruct (n <? p); [| destruct (p <? n)]; cbn [label score confidence Qabs];
    (split; [reflexivity | discriminate]).
Qed.

Lemma vader_label_sign (c : Q) (scores : VaderScores) :
  sign_agrees
    {| score := c;
       label := if Qle_bool (5 # 100) c then positive
                else if Qle_bool c (- (5 # 100)) then negative
                else neutral;
       confidence := Qabs c;
       details := VaderDetails scores |}.
Proof.
  unfold sign_agrees. cbn [label score].
  destruct (Qle_bool (5 # 100) c) eqn:P.
  - apply Qle_bool_iff in P. lra.
  - destruct (Qle_bool c (- (5 # 100))) eqn:N.
    + apply Qle_bool_iff in N. lra.
    + apply Qabs_Qlt_condition.
      assert (~ (5 # 100 <= c)%Q) by (rewrite <- Qle_bool_iff; congruence).
      assert (~ (c <= - (5 # 100))%Q) by (rewrite <- Qle_bool_iff; congruence).
      split; lra.
Qed.

Lemma textblob_label_sign (polarity subjectivity : Q) :
  sign_agrees
    {| score := polarity;
       label := if negb (Qle_bool polarity 0) then positive
                else if negb (Qle_bool 0 polarity) then negative
                else neutral;
       confidence := Qabs polarity;
       details := TextBlobDetails polarity subjectivity |}.
Proof.
  unfold sign_agrees. cbn [label score].
  destruct (Qle_bool polarity 0) eqn:P; cbn [negb].
  - destruct (Qle_bool 0 polarity) eqn:N; cbn [negb].
    + apply Qle_bool_iff in P, N. apply Qabs_Qlt_condition. split; lra.
    + apply Qle_bool_iff in P.
      assert (~ (0 <= polarity)%Q) by (rewrite <- Qle_bool_iff; congruence).
      lra.
  - assert (~ (polarity <= 0)%Q) by (rewrite <- Qle_bool_iff; congruence).
    lra.
Qed.

End Sentiments.

(** X13. [analyze_sentiment] never raises, whatever the model and whatever
    the sentiment packages do, and it writes no run record and no article.
    In every result the label agrees with the score: a positive score for
    [positive], a negative one for [negative], a score of absolute value
    below 0.05 for [neutral]; the confidence is never negative. The model
    comes back as it was, or with this one analysis added to its
    statistics. *)
Theorem analyze_sentiment_label_follows_score {ext : Externals} {bk : Backends}
  (model : option SentimentModel) (text : str) (processing_time : Q)
  (w : World) :
  exists result model' w',
    SentimentProcessor.analyze_sentiment model text processing_time w
    = (Ok (result, model'), w') /\
    sign_agrees result /\ (0 <= confidence result)%Q /\
    collection_logs w' = collection_logs w /\ articles w' = articles w /\
    (model' = model \/
     exists m,
       model = Some m /\
       model' = Some {| model_type := model_type m;
                        model_stats := update_stats (model_stats m)
                                         processing_time |}).
Proof.
  unfold SentimentProcessor.analyze_sentiment,
    SentimentProcessor._analyze_vader, SentimentProcessor._analyze_textblob.
  pose proof (fallback_sentiment_sign text) as [Fs Fc].
  revert Fs Fc. generalize (SentimentProcessor._fallback_sentiment text) as fb.
  intros fb Fs Fc.
  assert (Es : sign_agrees {| score := 0%Q; label := neutral;
                              confidence := 0%Q; details := NoDetails |})
    by reflexivity.
  destruct (nonempty text); cbn [negb].
  2:{ do 3 eexists.
      refine (conj eq_refl (conj Es (conj _ (conj eq_refl (conj eq_refl _)))));
        [discriminate | now left]. }
  destruct model as [m |].
  2:{ do 3 eexists.
      refine (conj eq_refl (conj Fs (conj Fc (conj eq_refl (conj eq_refl _))))).
      now left. }
  assert (Counted :
            exists m0,
              Some m = Some m0 /\
              Some {| model_type := model_type m;
                      model_stats := update_stats (model_stats m)
                                       processing_time |}
              = Some {| model_type := model_type m0;
                        model_stats := update_stats (model_stats m0)
                                         processing_time |})
    by now exists m.
  unfold try_except, bind, ret, lift, log.
  destruct (str_eqb (model_type m) (u "vader"));
    [| destruct (str_eqb (model_type m) (u "textblob"))].
  - destruct vader_load as [polarity_scores | e];
      [destruct (polarity_scores text) as [scores | e]
      | destruct (is_class ImportError e)];
      do 3 eexists;
      (split; [reflexivity |]);
      cbn [snd fst with_logged collection_logs articles];
      first
        [ exact (conj (vader_label_sign _ _)
                   (conj (Qabs_nonneg _)
                      (conj eq_refl (conj eq_refl (or_intror Counted)))))
        | exact (conj Fs (conj Fc
                   (conj eq_refl (conj eq_refl (or_intror Counted)))))
        | exact (conj Fs (conj Fc
                   (conj eq_refl (conj eq_refl (or_introl eq_refl))))) ].
  - destruct textblob_load as [sentiment | e];
      [destruct (sentiment text) as [[polarity subjectivity] | e]
      | destruct (is_class ImportError e)];
      do 3 eexists;
      (split; [reflexivity |]);
      cbn [snd fst with_logged collection_logs articles];
      first
        [ exact (conj (textblob_label_sign _ _)
                   (conj (Qabs_nonneg _)
                      (conj eq_refl (conj eq_refl (or_intror Counted)))))
        | exact (conj Fs (conj Fc
                   (conj eq_refl (conj eq_refl (or_intror Counted)))))
        | exact (conj Fs (conj Fc
                   (conj eq_refl (conj eq_refl (or_introl eq_refl))))) ].
  - do 3 eexists. split; [reflexivity |].
    exact (conj Fs (conj Fc (conj eq_refl (conj eq_refl (or_intror Counted))))).
Qed.

Section MainPath.

(** The body of the [try] of an extractor: the extraction, the filters and
    the statistics. When it completes, the filters did. *)
Lemma body_result {A B C X : Type} (a : M A) (f : A -> Res B) (g : B -> C)
  (x : X) (w w' : World) (r : C) (x' : X) :
  bind a (fun v => bind (lift (f v)) (fun v' => ret (g v', x))) w
  = (Ok (r, x'), w') ->
  x' = x /\ exists v v', f v = Ok v' /\ r = g v'.
Proof.
  unfold bind, lift, ret. destruct (a w) as [[v | e] w1]; [| discriminate].
  destruct (f v) as [v' | e] eqn:E; [| discriminate].
  intros [= <- <- _]. split; [reflexivity |]. now exists v, v'.
Qed.

Context {ext : Externals} {bk : Backends}.

Lemma filter_types_spec (types : pyval) (entities : list Entity) :
  forall es,
    EntityProcessor.filter_types types entities = Ok es ->
    Forall (fun e => has (entity_type e) types = Ok true) es /\
    incl es entities.
Proof.
  induction entities as [| e rest IH]; intros es; simpl.
  - intros [= <-]. split; [constructor | apply incl_refl].
  - destruct (has (entity_type e) types) as [keep | ?] eqn:K; [| discriminate].
    cbn [rbind].
    destruct (EntityProcessor.filter_types types rest) as [more | ?];
      [| discriminate].
    cbn [rbind]. intros [= <-]. destruct (IH more eq_refl) as [F I].
    destruct keep.
    + split; [now constructor |].
      intros a [<- | H]; [now left | right; now apply I].
    + split; [exact F | now apply incl_tl].
Qed.

Lemma remove_stop_words_spec (stops : pyval) (keywords : list Keyword) :
  forall ks,
    KeywordProcessor.remove_stop_words stops keywords = Ok ks ->
    Forall (fun k => has (lower (keyword_text k)) stops = Ok false) ks /\
    incl ks keywords.
Proof.
  induction keywords as [| k rest IH]; intros ks; simpl.
  - intros [= <-]. split; [constructor | apply incl_refl].
  - destruct (has (lower (keyword_text k)) stops) as [stop | ?] eqn:K;
      [| discriminate].
    cbn [rbind].
    destruct (KeywordProcessor.remove_stop_words stops rest) as [more | ?];
      [| discriminate].
    cbn [rbind]. intros [= <-]. destruct (IH more eq_refl) as [F I].
    destruct stop.
    + split; [exact F | now apply incl_tl].
    + split; [now constructor |].
      intros a [<- | H]; [now left | right; now apply I].
Qed.

Lemma firstn_incl {A : Type} (n : nat) : forall l : list A, incl (firstn n l) l.
Proof.
  induction n as [| n IH]; intros [| x l]; simpl; try apply incl_refl.
  - intros a [].
  - intros a [<- | H]; [now left | right; now apply IH].
Qed.

Lemma slice_to_incl {A : Type} (l : list A) (n : Z) : incl (slice_to l n) l.
Proof. unfold slice_to. destruct (0 <=? n)%Z; apply firstn_incl. Qed.

Lemma Forall_incl {A : Type} (P : A -> Prop) (l l' : list A) :
  incl l l' -> Forall P l' -> Forall P l.
Proof.
  intros I F. rewrite Forall_forall in *. intros a H. apply F, I, H.
Qed.

Lemma kept_extract_entities (extractor : option EntityExtractor) (text : str)
  (t : Q) :
  records_kept (EntityProcessor.extract_entities extractor text t).
Proof.
  unfold EntityProcessor.extract_entities,
    EntityProcessor._extract_spacy_entities.
  generalize (EntityProcessor._fallback_entities text) as fb. intros fb. kept.
Qed.

Lemma kept_extract_keywords (extractor : option KeywordExtractor) (text : str)
  (t : Q) :
  records_kept (KeywordProcessor.extract_keywords extractor text t).
Proof.
  unfold KeywordProcessor.extract_keywords,
    KeywordProcessor._extract_tfidf_keywords,
    KeywordProcessor._extract_yake_keywords.
  generalize (KeywordProcessor._fallback_keywords text) as fb. intros fb. kept.
Qed.

End MainPath.

(** X14. [extract_entities] never raises, whatever the extractor and
    whatever spaCy or the regular expressions do, and it writes no run
    record and no article. Either the [try] completed: the statistics of
    the extractor count this extraction, and with a non-empty list of
    [entity_types] every entity returned has one of these types. Or the
    result is that of [_fallback_entities], not filtered by type, and the
    extractor is as it was: for an empty text, without an extractor, and
    after any exception of the extraction. *)
Theorem extract_entities_never_raises {ext : Externals} {bk : Backends}
  (extractor : option EntityExtractor) (text : str) (processing_time : Q)
  (w : World) :
  exists entities extractor' w',
    EntityProcessor.extract_entities extractor text processing_time w
    = (Ok (entities, extractor'), w') /\
    collection_logs w' = collection_logs w /\ articles w' = articles w /\
    ((extractor' = extractor /\
      EntityProcessor._fallback_entities text = Ok entities) \/
     (exists x,
        extractor = Some x /\
        extractor' =
          Some {| entity_extractor_type := entity_extractor_type x;
                  entity_types := entity_types x;
                  entity_parameters := entity_parameters x;
                  entity_stats := update_stats (entity_stats x)
                                    processing_time |} /\
        (truthy (entity_types x) = true ->
         Forall (fun e => has (entity_type e) (entity_types x) = Ok true)
                entities))).
Proof.
  destruct (fallback_entities_total text) as (fb & Efb & _).
  destruct (kept_extract_entities extractor text processing_time w) as [KL KA].
  revert KL KA. unfold EntityProcessor.extract_entities.
  destruct (nonempty text) eqn:NE; cbn [negb].
  - destruct extractor as [x |].
    + unfold try_except.
      match goal with
      | |- context [match ?c w with _ => _ end] =>
          destruct (c w) as [[[es x'] | e] w1] eqn:E
      end.
      * intros KL KA. exists es, x', w1.
        split; [reflexivity |]. split; [exact KL |]. split; [exact KA |].
        right. exists x.
        apply body_result in E as [-> (v & v' & F & ->)].
        split; [reflexivity |]. split; [reflexivity |].
        intros T. rewrite T in F. now apply filter_types_spec in F.
      * unfold bind, log, lift, ret. rewrite Efb. intros KL KA.
        do 3 eexists. split; [reflexivity |].
        split; [exact KL |]. split; [exact KA |]. left. now split.
    + unfold bind, lift, ret. rewrite Efb. intros KL KA.
      do 3 eexists. split; [reflexivity |].
      split; [exact KL |]. split; [exact KA |]. left. now split.
  - intros KL KA. destruct text; [| discriminate].
    do 3 eexists. split; [reflexivity |].
    split; [exact KL |]. split; [exact KA |]. left. now split.
Qed.

(** X15. [extract_keywords] never raises, whatever the extractor and
    whatever scikit-learn or YAKE do, and it writes no run record and no
    article. Either the [try] completed: the statistics of the extractor
    count this extraction, every keyword returned has at least
    [min_keyword_length] characters, none is a stop word when the list of
    stop words is not empty, and with a [max_keywords] that is not negative
    there are at most that many. Or the extractor is as it was and the
    result is empty (an empty text) or that of [_fallback_keywords], to
    which none of the three limits is applied: without an extractor, and
    after any exception of the extraction. *)
Theorem extract_keywords_never_raises {ext : Externals} {bk : Backends}
  (extractor : option KeywordExtractor) (text : str) (processing_time : Q)
  (w : World) :
  exists keywords extractor' w',
    KeywordProcessor.extract_keywords extractor text processing_time w
    = (Ok (keywords, extractor'), w') /\
    collection_logs w' = collection_logs w /\ articles w' = articles w /\
    ((extractor' = extractor /\
      (text = [] /\ keywords = [] \/
       KeywordProcessor._fallback_keywords text = Ok keywords)) \/
     (exists x,
        extractor = Some x /\
        extractor' =
          Some {| keyword_extractor_type := keyword_extractor_type x;
                  max_keywords := max_keywords x;
                  min_keyword_length := min_keyword_length x;
                  stop_words := stop_words x;
                  keyword_stats := update_stats (keyword_stats x)
                                     processing_time |} /\
        Forall (fun k => (min_keyword_length x <=
                          Z.of_nat (List.length (keyword_text k)))%Z)
               keywords /\
        (truthy (stop_words x) = true ->
         Forall (fun k => has (lower (keyword_text k)) (stop_words x) = Ok false)
                keywords) /\
        ((0 <= max_keywords x)%Z ->
         (Z.of_nat (List.length keywords) <= max_keywords x)%Z))).
Proof.
  destruct (fallback_keywords_total text) as (fb & Efb).
  destruct (kept_extract_keywords extractor text processing_time w) as [KL KA].
  revert KL KA. unfold KeywordProcessor.extract_keywords.
  destruct (nonempty text) eqn:NE; cbn [negb].
  - destruct extractor as [x |].
    + unfold try_except.
      match goal with
      | |- context [match ?c w with _ => _ end] =>
          destruct (c w) as [[[ks x'] | e] w1] eqn:E
      end.
      * intros KL KA. exists ks, x', w1.
        split; [reflexivity |]. split; [exact KL |]. split; [exact KA |].
        right. exists x. cbv zeta in E.
        apply (body_result _ _ (fun kept => slice_to kept (max_keywords x)))
          in E as [-> (v & v' & F & ->)].
        split; [reflexivity |]. split; [reflexivity |].
        assert (I : incl v' (filter
                               (fun kw => (min_keyword_length x <=?
                                           Z.of_nat (List.length (keyword_text kw)))%Z)
                               v)).
        { destruct (truthy (stop_words x)).
          - now apply remove_stop_words_spec in F.
          - injection F as <-. apply incl_refl. }
        split; [| split].
        -- apply Forall_forall. intros k H.
           apply slice_to_incl, I, filter_In in H as [_ H].
           now apply Z.leb_le.
        -- intros T. rewrite T in F. apply remove_stop_words_spec in F as [F _].
           eapply Forall_incl; [apply slice_to_incl | exact F].
        -- apply slice_to_length.
      * unfold bind, log, lift, ret. rewrite Efb. intros KL KA.
        do 3 eexists. split; [reflexivity |].
        split; [exact KL |]. split; [exact KA |]. left. split; auto.
    + unfold bind, lift, ret. rewrite Efb. intros KL KA.
      do 3 eexists. split; [reflexivity |].
      split; [exact KL |]. split; [exact KA |]. left. split; auto.
  - intros KL KA. destruct text; [| discriminate].
    do 3 eexists. split; [reflexivity |].
    split; [exact KL |]. split; [exact KA |]. left. split; auto.
Qed.

(** ** The statistics of a model *)

Section Statistics.

Lemma update_stats_step (lo hi t : Q) (s : Stats) :
  mean_within lo hi s -> (lo <= t /\ t <= hi)%Q ->
  total_processed (update_stats s t) = (total_processed s + 1)%Z /\
  exists a,
    avg_processing_time (update_stats s t) = Some a /\
    (lo <= a /\ a <= hi)%Q /\
    match avg_processing_time s with
    | Some m => if Qeq_bool m 0 then a = t else between m t a
    | None => a = t
    end.
Proof.
  intros I [L H]. split; [reflexivity |].
  unfold update_stats. cbn [avg_processing_time].
  destruct (avg_processing_time s) as [m |] eqn:E.
  - destruct (Qeq_bool m 0) eqn:B.
    + eexists. split; [reflexivity |]. repeat split; assumption.
    + destruct (I m E) as [Z | [Lm Hm]].
      * apply Qeq_bool_iff in Z. congruence.
      * eexists. split; [reflexivity |].
        unfold between, Qdiv. change (/ 2)%Q with (1 # 2)%Q.
        split; [split; lra |].
        destruct (Qlt_le_dec m t); [left | right]; split; lra.
  - eexists. split; [reflexivity |]. repeat split; assumption.
Qed.

Lemma after_samples_within (lo hi : Q) (samples : list Q) :
  Forall (fun t => (lo <= t /\ t <= hi)%Q) samples ->
  forall s,
    mean_within lo hi s ->
    mean_within lo hi (after_samples s samples) /\
    total_processed (after_samples s samples)
    = (total_processed s + Z.of_nat (List.length samples))%Z.
Proof.
  unfold after_samples.
  induction 1 as [| t samples Ht _ IH]; intros s I; cbn [fold_left].
  - split; [exact I | simpl; lia].
  - destruct (update_stats_step lo hi t s I Ht) as (T & a & E & R & _).
    destruct (IH (update_stats s t)) as [I' T'].
    + intros a' E'. rewrite E in E'. injection E' as <-. now right.
    + split; [exact I' |]. rewrite T', T. cbn [List.length]. lia.
Qed.

End Statistics.

(** X16. The statistics of a model after a run of completed analyses, as
    the three analyzers update them: [total_processed] has grown by the
    number of analyses, and when every processing time lies between two
    bounds, and so does the mean the model started with (or it had none, or
    0.0), then the mean it holds in the end lies between them too. That
    mean is no average of the times: it is the last time itself when the
    model had no mean, or 0.0, before the last analysis, and otherwise it
    lies between the mean the model had then and the last time, however
    many analyses came before. *)
Theorem stats_follow_last_sample (lo hi : Q) (s : Stats) (samples : list Q)
  (Hs : mean_within lo hi s)
  (Ht : Forall (fun t => (lo <= t /\ t <= hi)%Q) samples)
  (Hn : samples <> []) :
  total_processed (after_samples s samples)
  = (total_processed s + Z.of_nat (List.length samples))%Z /\
  exists a,
    avg_processing_time (after_samples s samples) = Some a /\
    (lo <= a /\ a <= hi)%Q /\
    match avg_processing_time (after_samples s (removelast samples)) with
    | Some m =>
        if Qeq_bool m 0 then a = last samples 0%Q
        else between m (last samples 0%Q) a
    | None => a = last samples 0%Q
    end.
Proof.
  destruct (exists_last Hn) as (before & t & ->).
  apply Forall_app in Ht as [Hb Hl]. inversion Hl as [| ? ? Hlast _]; subst.
  destruct (after_samples_within lo hi before Hb s Hs) as [I T].
  rewrite removelast_last, last_last.
  unfold after_samples in *. rewrite fold_left_app. cbn [fold_left].
  destruct (update_stats_step lo hi t _ I Hlast) as (T1 & a & E & R & D).
  split.
  - rewrite T1, T, length_app. cbn [List.length]. lia.
  - exists a. split; [exact E |]. split; [exact R | exact D].
Qed.

(** A new model, two analyses of 0.4 and 0.2 seconds: the mean lies
    between the two. *)
Lemma two_samples_stats :
  let new := {| avg_processing_time := None; total_processed := 0 |} in
  let samples := [(4 # 10)%Q; (2 # 10)%Q] in
  avg_processing_time (after_samples new (removelast samples))
    = Some (4 # 10)%Q /\
  total_processed (after_samples new samples) = 2%Z /\
  exists a,
    avg_processing_time (after_samples new samples) = Some a /\
    ((2 # 10) <= a /\ a <= (4 # 10))%Q /\
    between (4 # 10) (2 # 10) a.
Proof.
  intros new samples.
  assert (Hs : mean_within (2 # 10) (4 # 10) new)
    by (intros a E; discriminate E).
  assert (Ht : Forall (fun t => ((2 # 10) <= t /\ t <= (4 # 10))%Q) samples)
    by (repeat constructor; cbv; discriminate).
  assert (Hn : samples <> []) by discriminate.
  destruct (stats_follow_last_sample (2 # 10) (4 # 10) new samples Hs Ht Hn)
    as (T & a & E & R & D).
  split; [reflexivity |]. split; [exact T |].
  exists a. split; [exact E |]. split; [exact R | exact D].
Defined.

(** ** The processing manager *)

Section ManagerCombinators.

Lemma raises_mbind_l {A B : Type} (c : MM A) (k : A -> MM B) :
  always_raises c -> always_raises (ProcessingManager.mbind c k).
Proof.
  intros H mgr w. destruct (H mgr w) as (e & mgr' & w' & E).
  unfold ProcessingManager.mbind. rewrite E. now exists e, mgr', w'.
Qed.

Lemma raises_mbind_r {A B : Type} (c : MM A) (k : A -> MM B) :
  (forall a, always_raises (k a)) -> always_raises (ProcessingManager.mbind c k).
Proof.
  intros H mgr w. unfold ProcessingManager.mbind.
  destruct (c mgr w) as [[[a | e] mgr1] w1]; [apply H |].
  now exists e, mgr1, w1.
Qed.

Lemma tables_mret {A : Type} (a : A) : tables_kept (ProcessingManager.mret a).
Proof. intros mgr w. split; reflexivity. Qed.

Lemma tables_of_M {A : Type} (c : M A) :
  records_kept c -> tables_kept (ProcessingManager.of_M c).
Proof.
  intros H mgr w. unfold ProcessingManager.of_M. specialize (H w).
  destruct (c w) as [r w']. exact H.
Qed.

Lemma tables_mbind {A B : Type} (c : MM A) (k : A -> MM B) :
  tables_kept c -> (forall a, tables_kept (k a)) ->
  tables_kept (ProcessingManager.mbind c k).
Proof.
  intros Hc Hk mgr w. unfold ProcessingManager.mbind. specialize (Hc mgr w).
  destruct (c mgr w) as [[[a | e] mgr1] w1]; cbn [snd] in *; [| exact Hc].
  destruct (Hk a mgr1 w1) as [L A1]. destruct Hc as [L0 A0]. split; congruence.
Qed.

Lemma tables_mtry {A : Type} (c : MM A) (h : exn -> MM A) :
  tables_kept c -> (forall e, tables_kept (h e)) ->
  tables_kept (ProcessingManager.mtry c h).
Proof.
  intros Hc Hh mgr w. unfold ProcessingManager.mtry. specialize (Hc mgr w).
  destruct (c mgr w) as [[[a | e] mgr1] w1]; cbn [snd] in *; [exact Hc |].
  destruct (Hh e mgr1 w1) as [L A1]. destruct Hc as [L0 A0]. split; congruence.
Qed.

End ManagerCombinators.

Section Manager.
Context {ext : Externals} {bk : Backends} {orm : Orm} {db : Storage}.

Lemma kept_analyze_sentiment (model : option SentimentModel) (text : str)
  (t : Q) :
  records_kept (SentimentProcessor.analyze_sentiment model text t).
Proof.
  unfold SentimentProcessor.analyze_sentiment,
    SentimentProcessor._analyze_vader, SentimentProcessor._analyze_textblob.
  generalize (SentimentProcessor._fallback_sentiment text) as fb. intros fb.
  kept.
Qed.

Lemma tables_run_sentiment (text : str) (t : Q) :
  tables_kept (ProcessingManager.run_sentiment text t).
Proof.
  intros mgr w. unfold ProcessingManager.run_sentiment.
  pose proof (kept_analyze_sentiment (sentiment_model mgr) text t w) as H.
  destruct (SentimentProcessor.analyze_sentiment _ text t w)
    as [[[r m] | e] w']; exact H.
Qed.

Lemma tables_run_entities (text : str) (t : Q) :
  tables_kept (ProcessingManager.run_entities text t).
Proof.
  intros mgr w. unfold ProcessingManager.run_entities.
  pose proof (kept_extract_entities (entity_extractor mgr) text t w) as H.
  destruct (EntityProcessor.extract_entities _ text t w)
    as [[[r m] | e] w']; exact H.
Qed.

Lemma tables_run_keywords (text : str) (t : Q) :
  tables_kept (ProcessingManager.run_keywords text t).
Proof.
  intros mgr w. unfold ProcessingManager.run_keywords.
  pose proof (kept_extract_keywords (keyword_extractor mgr) text t w) as H.
  destruct (KeywordProcessor.extract_keywords _ text t w)
    as [[[r m] | e] w']; exact H.
Qed.

(** The loop over [results.items()] does not get past the entities: a list
    has no [get]. *)
Lemma save_analyses_raises (article : Article) (results : Results) (w : World) :
  exists e w',
    ProcessingManager.save_analyses article (ProcessingManager.items results) w
    = (Raise e, w') /\
    ((forall a ty r c t w0, fst (analysis_update_or_create a ty r c t w0) = Ok tt) ->
     is_class AttributeError e = true).
Proof.
  unfold ProcessingManager.items.
  cbn [ProcessingManager.save_analyses ProcessingManager.result_get_confidence
       ProcessingManager.result_get_processing_time].
  unfold bind, lift.
  destruct (analysis_update_or_create article (u "sentiment")
              (SentimentResult (results_sentiment results))
              (confidence (results_sentiment results)) 0%Q w)
    as [[[] | e] w1] eqn:E.
  - do 2 eexists. split; [reflexivity |]. intros _. reflexivity.
  - exists e, w1. split; [reflexivity |]. intros H.
    specialize (H article (u "sentiment")
                  (SentimentResult (results_sentiment results))
                  (confidence (results_sentiment results)) 0%Q w).
    rewrite E in H. discriminate H.
Qed.

(** [_save_analysis_results] always raises and leaves the tables as they
    were: what the check for an event loop raises, when the transaction
    cannot be entered, and otherwise what stops the block, after which the
    transaction is rolled back. *)
Lemma save_analysis_results_raises (article : Article) (results : Results)
  (w : World) :
  exists e w',
    ProcessingManager._save_analysis_results article results w = (Raise e, w') /\
    collection_logs w' = collection_logs w /\ articles w' = articles w /\
    (forall refused, async_unsafe = Raise refused -> e = refused /\ w' = w) /\
    (async_unsafe = Ok tt ->
     (forall a s k es q w0, fst (article_save a s k es q w0) = Ok tt) ->
     (forall a ty r c t w0, fst (analysis_update_or_create a ty r c t w0) = Ok tt) ->
     is_class AttributeError e = true).
Proof.
  unfold ProcessingManager._save_analysis_results, atomic.
  destruct async_unsafe as [[] | g].
  - unfold bind at 1.
    destruct (article_save article _ _ _ _ (in_transaction w false))
      as [[[] | e] w1] eqn:E.
    + unfold bind at 1.
      destruct (save_analyses_raises article results w1) as (e & w2 & -> & H).
      do 2 eexists. split; [reflexivity |].
      split; [reflexivity |]. split; [reflexivity |].
      split; [intros refused K; discriminate K |].
      intros _ _. exact H.
    + do 2 eexists. split; [reflexivity |].
      split; [reflexivity |]. split; [reflexivity |].
      split; [intros refused K; discriminate K |].
      intros _ H _.
      specialize (H article (score (results_sentiment results))
                    (map keyword_text (results_keywords results))
                    (results_entities results)
                    (overall_score (results_quality results))
                    (in_transaction w false)).
      rewrite E in H. discriminate H.
  - exists g, w. split; [reflexivity |].
    split; [reflexivity |]. split; [reflexivity |].
    split; [intros refused [= <-]; split; reflexivity |].
    intros K. discriminate K.
Qed.

Lemma kept_save_analysis_results (article : Article) (results : Results) :
  records_kept (ProcessingManager._save_analysis_results article results).
Proof.
  intros w.
  destruct (save_analysis_results_raises article results w)
    as (e & w' & -> & L & A & _).
  now split.
Qed.

Lemma save_always_raises {A : Type} (article : Article) (results : Results)
  (k : unit -> MM A) :
  always_raises
    (ProcessingManager.mbind
       (ProcessingManager.of_M
          (ProcessingManager._save_analysis_results article results)) k).
Proof.
  apply raises_mbind_l. intros mgr w. unfold ProcessingManager.of_M.
  destruct (save_analysis_results_raises article results w) as (e & w' & -> & _).
  now exists e, mgr, w'.
Qed.

(** [process_article] always takes its handler. *)
Lemma process_article_none (article : Article) (times : Q * Q * Q)
  (mgr : Manager) (w : World) :
  exists e mgr' w1,
    ProcessingManager.process_article article times mgr w
    = (Ok None, mgr', with_logged w1 (ProcessArticleFailed e)) /\
    collection_logs w1 = collection_logs w /\ articles w1 = articles w.
Proof.
  unfold ProcessingManager.process_article. destruct times as [[t1 t2] t3].
  unfold ProcessingManager.mtry.
  match goal with
  | |- context [match ?c mgr w with _ => _ end] =>
      assert (R : always_raises c);
      [| assert (T : tables_kept c);
         [| destruct (R mgr w) as (e & mgr' & w1 & E);
            specialize (T mgr w); rewrite E in *; cbn [snd] in T ] ]
  end.
  - do 4 (apply raises_mbind_r; intros ?). apply save_always_raises.
  - apply tables_mbind; [apply tables_run_sentiment | intros ?].
    apply tables_mbind; [apply tables_run_entities | intros ?].
    apply tables_mbind; [apply tables_run_keywords | intros ?].
    apply tables_mbind; [apply tables_of_M, kept_lift | intros ?].
    apply tables_mbind; [| intros ?; apply tables_mret].
    apply tables_of_M, kept_save_analysis_results.
  - exists e, mgr', w1. split; [reflexivity | exact T].
Qed.

End Manager.

(** X17. [process_article] never returns the results of an analysis.
    [_save_analysis_results] reads [result.get('confidence', 0.0)] of every
    value of [results], and the entities are a list, which has no [get]: the
    call raises at the latest there, the transaction is rolled back, and
    [process_article] logs the error and returns the empty dict. So for
    every article, every state of the models and whatever the analyzers and
    the database do, the call returns [{}], one error is logged, and the
    run records and the article table are as they were. *)
Theorem process_article_returns_empty_dict
  {ext : Externals} {bk : Backends} {orm : Orm} {db : Storage}
  (article : Article) (times : Q * Q * Q) (mgr : Manager) (w : World) :
  exists e mgr' w',
    ProcessingManager.process_article article times mgr w = (Ok None, mgr', w') /\
    (exists prior, logger w' = prior ++ [ProcessArticleFailed e]) /\
    collection_logs w' = collection_logs w /\ articles w' = articles w.
Proof.
  destruct (process_article_none article times mgr w)
    as (e & mgr' & w1 & E & L & A).
  exists e, mgr', (with_logged w1 (ProcessArticleFailed e)).
  split; [exact E |]. split; [now exists (logger w1) |].
  split; [exact L | exact A].
Qed.

Section ManagerTrace.
Context {ext : Externals} {bk : Backends} {orm : Orm} {db : Storage}.

Lemma run_sentiment_total (text : str) (t : Q) :
  never_raises (ProcessingManager.run_sentiment text t).
Proof.
  intros mgr w. unfold ProcessingManager.run_sentiment.
  assert (H : exists a w',
            SentimentProcessor.analyze_sentiment (sentiment_model mgr) text t w
            = (Ok a, w')).
  { unfold SentimentProcessor.analyze_sentiment.
    generalize (SentimentProcessor._fallback_sentiment text) as fb. intros fb.
    destruct (negb (nonempty text)); [unfold ret; eauto |].
    destruct (sentiment_model mgr); [| unfold ret; eauto].
    apply try_except_total. intros ? ?. unfold bind, log, ret. eauto. }
  destruct H as ([r m] & w' & ->). eauto.
Qed.

Lemma run_entities_total (text : str) (t : Q) :
  never_raises (ProcessingManager.run_entities text t).
Proof.
  intros mgr w. unfold ProcessingManager.run_entities.
  assert (H : exists a w',
            EntityProcessor.extract_entities (entity_extractor mgr) text t w
            = (Ok a, w')).
  { unfold EntityProcessor.extract_entities.
    destruct (fallback_entities_total text) as (fb & -> & _).
    destruct (negb (nonempty text)); [unfold ret; eauto |].
    destruct (entity_extractor mgr); [| unfold bind, lift, ret; eauto].
    apply try_except_total. intros ? ?. unfold bind, lift, log, ret. eauto. }
  destruct H as ([r m] & w' & ->). eauto.
Qed.

Lemma run_keywords_total (text : str) (t : Q) :
  never_raises (ProcessingManager.run_keywords text t).
Proof.
  intros mgr w. unfold ProcessingManager.run_keywords.
  assert (H : exists a w',
            KeywordProcessor.extract_keywords (keyword_extractor mgr) text t w
            = (Ok a, w')).
  { unfold KeywordProcessor.extract_keywords.
    destruct (fallback_keywords_total text) as (fb & ->).
    destruct (negb (nonempty text)); [unfold ret; eauto |].
    destruct (keyword_extractor mgr); [| unfold bind, lift, ret; eauto].
    apply try_except_total. intros ? ?. unfold bind, lift, log, ret. eauto. }
  destruct H as ([r m] & w' & ->). eauto.
Qed.

Lemma quality_total (article : Article) :
  never_raises
    (ProcessingManager.of_M
       (lift (QualityProcessor.calculate_quality_score article))).
Proof.
  intros mgr w. unfold ProcessingManager.of_M, lift.
  destruct (readability_bounds (article_content article)) as (r & Er & _).
  destruct (completeness_bounds article) as (c & Ec & _).
  destruct (accuracy_bounds article) as (a & Ea & _).
  destruct (relevance_bounds article) as (v & Ev & _).
  unfold QualityProcessor.calculate_quality_score.
  rewrite Er, Ec, Ea, Ev. cbn [rbind]. eauto.
Qed.

Lemma raises_with_mbind {A B : Type} (P : exn -> Prop) (c : MM A)
  (k : A -> MM B) :
  never_raises c -> (forall a, raises_with P (k a)) ->
  raises_with P (ProcessingManager.mbind c k).
Proof.
  intros Hc Hk mgr w. unfold ProcessingManager.mbind.
  destruct (Hc mgr w) as (a & mgr1 & w1 & ->). apply Hk.
Qed.

(** The error [process_article] logs is the one that leaves
    [_save_analysis_results]: nothing before it raises. *)
Lemma process_article_error (P : exn -> Prop) :
  (forall article results w,
     exists e w',
       ProcessingManager._save_analysis_results article results w
       = (Raise e, w') /\ P e) ->
  forall article times mgr w,
    exists e mgr' w1,
      ProcessingManager.process_article article times mgr w
      = (Ok None, mgr', with_logged w1 (ProcessArticleFailed e)) /\
      P e.
Proof.
  intros Hsave article times mgr w.
  unfold ProcessingManager.process_article. destruct times as [[t1 t2] t3].
  unfold ProcessingManager.mtry.
  match goal with
  | |- context [match ?c mgr w with _ => _ end] =>
      assert (R : raises_with P c)
  end.
  - apply raises_with_mbind; [apply run_sentiment_total | intros ?].
    apply raises_with_mbind; [apply run_entities_total | intros ?].
    apply raises_with_mbind; [apply run_keywords_total | intros ?].
    apply raises_with_mbind; [apply quality_total | intros ?].
    intros mgr0 w0. unfold ProcessingManager.mbind, ProcessingManager.of_M.
    match goal with
    | |- context [ProcessingManager._save_analysis_results ?a ?r w0] =>
        destruct (Hsave a r w0) as (e & w' & -> & H)
    end.
    exists e, mgr0, w'. split; [reflexivity | exact H].
  - destruct (R mgr w) as (e & mgr' & w1 & -> & C).
    exists e, mgr', w1. split; [reflexivity | exact C].
Qed.

End ManagerTrace.

(** X18. What stops [process_article]. The three analyzers and the quality
    score never raise, so the error that is logged is the one that leaves
    [_save_analysis_results], for every article and every state of the
    models. Where Django refuses database calls from a coroutine, as it
    does unless [DJANGO_ALLOW_ASYNC_UNSAFE] is set ([process_article] is a
    coroutine, and the views run it through [asyncio.run]), entering the
    transaction raises and that exception is the error logged. Where such
    calls are allowed and the database takes every write, the error is the
    [AttributeError] of [result.get] on the list of entities. *)
Theorem process_article_logs_attribute_error
  {ext : Externals} {bk : Backends} {orm : Orm} {db : Storage}
  (article : Article) (times : Q * Q * Q) (mgr : Manager) (w : World) :
  (forall refused,
     async_unsafe = Raise refused ->
     exists mgr' w1,
       ProcessingManager.process_article article times mgr w
       = (Ok None, mgr', with_logged w1 (ProcessArticleFailed refused))) /\
  (async_unsafe = Ok tt ->
   (forall a s k es q w0, fst (article_save a s k es q w0) = Ok tt) ->
   (forall a ty r c t w0,
      fst (analysis_update_or_create a ty r c t w0) = Ok tt) ->
   exists e mgr' w1,
     ProcessingManager.process_article article times mgr w
     = (Ok None, mgr', with_logged w1 (ProcessArticleFailed e)) /\
     is_class AttributeError e = true).
Proof.
  split.
  - intros refused Hguard.
    destruct (process_article_error (fun e => e = refused)) with
      (article := article) (times := times) (mgr := mgr) (w := w)
      as (e & mgr' & w1 & E & ->).
    + intros a r w0.
      destruct (save_analysis_results_raises a r w0)
        as (e & w' & E & _ & _ & H & _).
      exists e, w'. split; [exact E |]. apply (H refused Hguard).
    + exists mgr', w1. exact E.
  - intros Hguard Hsave Hupdate.
    apply (process_article_error (fun e => is_class AttributeError e = true)).
    intros a r w0.
    destruct (save_analysis_results_raises a r w0)
      as (e & w' & E & _ & _ & _ & H).
    exists e, w'. split; [exact E |]. apply H; assumption.
Qed.

(** The sample article, a new manager, no analyzer package, a database that
    takes every write: with Django as installed, and with database calls
    allowed. *)
Lemma story_is_not_processed :
  (exists mgr' w1,
     @ProcessingManager.process_article Standins.plain Standins.no_backends
       Standins.guarded Standins.accepting story (0%Q, 0%Q, 0%Q) new_manager
       empty_world
     = (Ok None, mgr',
        with_logged w1 (ProcessArticleFailed (Exn SynchronousOnlyOperation [])))) /\
  (exists e mgr' w1,
     @ProcessingManager.process_article Standins.plain Standins.no_backends
       Standins.unguarded Standins.accepting story (0%Q, 0%Q, 0%Q) new_manager
       empty_world
     = (Ok None, mgr', with_logged w1 (ProcessArticleFailed e)) /\
     is_class AttributeError e = true).
Proof.
  split.
  - exact (proj1 (@process_article_logs_attribute_error Standins.plain
                    Standins.no_backends Standins.guarded Standins.accepting
                    story (0%Q, 0%Q, 0%Q) new_manager empty_world)
             _ eq_refl).
  - exact (proj2 (@process_article_logs_attribute_error Standins.plain
                    Standins.no_backends Standins.unguarded Standins.accepting
                    story (0%Q, 0%Q, 0%Q) new_manager empty_world)
             eq_refl (fun _ _ _ _ _ _ => eq_refl)
             (fun _ _ _ _ _ _ => eq_refl)).
Defined.

Section Batch.
Context {ext : Externals} {bk : Backends} {orm : Orm} {db : Storage}.


End Batch.


(** ** Full marks *)

Section FullMarks.
Context {ext : Externals}.

Lemma all_factors (b1 b2 b3 b4 b5 : bool) :
  (QualityProcessor.py_sum
     [ QualityProcessor.factor b1; QualityProcessor.factor b2;
       QualityProcessor.factor b3; QualityProcessor.factor b4;
       QualityProcessor.factor b5 ] / QualityProcessor.of_nat 5 == 1)%Q
  <-> b1 && b2 && b3 && b4 && b5 = true.
Proof.
  destruct b1, b2, b3, b4, b5; vm_compute; split; congruence.
Qed.

Lemma nonempty_iff (s : str) : nonempty s = true <-> s <> [].
Proof. destruct s; simpl; split; congruence. Qed.

Lemma long_iff (n : nat) (s : str) :
  nonempty s && (n <? List.length s) = true <-> n < List.length s.
Proof.
  rewrite andb_true_iff, Nat.ltb_lt, nonempty_iff. split; [tauto |].
  intros H. split; [| exact H]. destruct s; [simpl in H; lia | discriminate].
Qed.

(** The share of a count in a quota, capped at 1. *)
Lemma capped_share (n quota : nat) :
  0 < quota ->
  let share := QualityProcessor.py_min 1
                 (QualityProcessor.of_nat n / QualityProcessor.of_nat quota) in
  (0 <= share /\ share <= 1)%Q /\
  ((share == 1)%Q <-> quota <= n) /\
  ((share == 0)%Q <-> n = 0).
Proof.
  intros Hq share. unfold share, QualityProcessor.py_min, QualityProcessor.of_nat.
  destruct quota as [| q]; [lia |]. clear Hq share.
  assert (D : forall z : Z,
             (inject_Z z / inject_Z (Z.of_nat (S q)) == z # Pos.of_succ_nat q)%Q).
  { intros z. unfold Qdiv, Qinv, inject_Z. cbn [Z.of_nat Qnum Qden].
    unfold Qeq, Qmult. cbn [Qnum Qden]. lia. }
  pose proof (Zpos_P_of_succ_nat q) as Zq.
  destruct (Qle_bool 1 (inject_Z (Z.of_nat n) / inject_Z (Z.of_nat (S q)))) eqn:E.
  - apply Qle_bool_iff in E. rewrite D in E. unfold Qle in E. simpl in E.
    split; [split; [discriminate | apply Qle_refl] |].
    split; [split; [intros _; lia | reflexivity] |].
    split; [intros H; discriminate H | intros ->; lia].
  - assert (N : ~ (1 <= inject_Z (Z.of_nat n) / inject_Z (Z.of_nat (S q)))%Q)
      by (rewrite <- Qle_bool_iff; congruence).
    rewrite D in *. unfold Qle, Qeq in *. simpl in *.
    split; [split; lia |]. split; split; lia.
Qed.

End FullMarks.

Section Relevance.
Context {ext : Externals}.

Lemma relevance_factor {A : Type} (l : list A) (quota : nat) :
  0 < quota ->
  let f := match l with
           | [] => 0%Q
           | x :: l' => QualityProcessor.py_min 1
                          (QualityProcessor.of_nat (List.length (x :: l')) /
                           QualityProcessor.of_nat quota)
           end in
  (0 <= f /\ f <= 1)%Q /\
  ((f == 1)%Q <-> quota <= List.length l) /\
  ((f == 0)%Q <-> l = []).
Proof.
  intros Hq f. destruct l as [| x l].
  - subst f. split; [split; [apply Qle_refl | discriminate] |].
    split; split; try reflexivity; try discriminate. simpl. lia.
  - destruct (capped_share (List.length (x :: l)) quota Hq) as (B & O & Z).
    subst f. split; [exact B |]. split; [exact O |].
    rewrite Z. split; discriminate.
Qed.

End Relevance.

(** X20. When an article gets full marks. [_calculate_completeness] gives
    1 exactly for an article with a title of more than 10 characters, a
    content of more than 100, an author, a publication date and a URL.
    [_calculate_relevance] gives 1 exactly for an article with 10 keywords
    or more and 5 entities or more, and 0 exactly for one with neither a
    keyword nor an entity. *)
Theorem full_marks_conditions {ext : Externals} (article : Article) :
  (exists c,
     QualityProcessor._calculate_completeness article = Ok c /\
     ((c == 1)%Q <->
      10 < List.length (article_title article) /\
      100 < List.length (article_content article) /\
      article_author article <> [] /\
      article_published_date article <> None /\
      article_url article <> [])) /\
  (exists v,
     QualityProcessor._calculate_relevance article = Ok v /\
     ((v == 1)%Q <->
      10 <= List.length (article_keywords article) /\
      5 <= List.length (article_entities article)) /\
     ((v == 0)%Q <->
      article_keywords article = [] /\ article_entities article = [])).
Proof.
  split.
  - unfold QualityProcessor._calculate_completeness, QualityProcessor.mean, div.
    cbn [List.length].
    change (Qeq_bool (QualityProcessor.of_nat 5) 0) with false.
    eexists. split; [reflexivity |].
    rewrite all_factors.
    rewrite <- (long_iff 10 (article_title article)),
      <- (long_iff 100 (article_content article)),
      <- (nonempty_iff (article_author article)),
      <- (nonempty_iff (article_url article)).
    destruct (nonempty (article_title article) &&
              (10 <? List.length (article_title article))),
      (nonempty (article_content article) &&
       (100 <? List.length (article_content article))),
      (nonempty (article_author article)),
      (article_published_date article),
      (nonempty (article_url article));
      cbn [andb]; split; intros H; try discriminate H;
      repeat split; try discriminate; try tauto;
      destruct H as (? & ? & ? & ? & ?); congruence.
  - unfold QualityProcessor._calculate_relevance, QualityProcessor.mean, div.
    change (Qeq_bool (QualityProcessor.of_nat (List.length [_; _])) 0)
      with false.
    change (QualityProcessor.of_nat (List.length [_; _])) with 2%Q.
    destruct (relevance_factor (article_keywords article) 10 ltac:(lia))
      as ([K0 K1] & Kone & Kzero).
    destruct (relevance_factor (article_entities article) 5 ltac:(lia))
      as ([E0 E1] & Eone & Ezero).
    cbv zeta in *.
    change (QualityProcessor.of_nat 10) with 10%Q in *.
    change (QualityProcessor.of_nat 5) with 5%Q in *.
    set (k := match article_keywords article with [] => _ | _ => _ end) in *.
    set (e := match article_entities article with [] => _ | _ => _ end) in *.
    eexists. split; [reflexivity |].
    rewrite <- Kone, <- Eone, <- Kzero, <- Ezero. clearbody k e.
    unfold QualityProcessor.py_sum. cbn [fold_left]. unfold Qdiv.
    change (/ 2)%Q with (1 # 2)%Q.
    split; split; intros H; try split; lra.
Qed.

(** ** The order of the keywords *)

Section KeywordOrder.
Context {ext : Externals} {bk : Backends}.








End KeywordOrder.


